(** * Partner-dashboard automation: funnel generator and Coda synchroniser

    A shallow embedding of
      - [notebooks/upmarket_funnel.py]   (lead classification, funnel rollup),
      - [notebooks/coda_updater.py]      (URL parsing, table listing, upserts,
                                          row deletion),
      - [notebooks/update_coda_dashboard_daily.py]
                                         (the delete-then-insert update of the
                                          executive-summary table),
    followed by the properties established about them.

    Python numbers are modelled as they are at run time: [int] is [Z],
    [float] is IEEE-754 binary64, taken from the specification of
    floating-point arithmetic that ships with the prover ([SpecFloat]). *)

From Stdlib Require Import ZArith Bool List String Ascii DecimalString Lia Reals Lra.
From Stdlib Require Import Floats.SpecFloat.
Import ListNotations.

Set Warnings "-register-all".
Local Open Scope Z_scope.

(* ===================================================================== *)
(** * Python run-time values                                              *)
(* ===================================================================== *)

Module Py.

(** Exceptions that the modelled code can raise or catch. *)
Inductive exn : Type :=
| ZeroDivisionError
| OverflowError
| ValueError (msg : string)
| RequestException (msg : string)     (* requests: connection-level failure *)
| HTTPError (status : Z)              (* response.raise_for_status()        *)
| JSONDecodeError
| AttributeError
| TypeError.

(** A computation that returns or raises. *)
Inductive result (A : Type) : Type :=
| Ok (a : A)
| Raise (e : exn).
Arguments Ok {A} a.
Arguments Raise {A} e.

Definition bind {A B} (c : result A) (k : A -> result B) : result B :=
  match c with
  | Ok a => k a
  | Raise e => Raise e
  end.

Declare Scope py_scope.
Delimit Scope py_scope with py.
Notation "x <- c ;; k" := (bind c (fun x => k))
  (at level 61, c at next level, right associativity) : py_scope.

(** ** binary64 *)

Definition prec : Z := 53.
Definition emax : Z := 1024.

Definition float := spec_float.

Definition fmul : float -> float -> float := SFmul prec emax.
Definition fdiv : float -> float -> float := SFdiv prec emax.
Definition fsub : float -> float -> float := SFsub prec emax.

(** A number is an [int] or a [float]. *)
Inductive num : Type :=
| PyInt (z : Z)
| PyFloat (f : float).

(** [float(n)] for an int [n]: nearest binary64, ties to even;
    [OverflowError] when the nearest value is not finite. *)
Definition float_of_int (n : Z) : result float :=
  match binary_normalize prec emax n 0 false with
  | S754_infinity _ => Raise OverflowError
  | f => Ok f
  end.

(** [float(x)] *)
Definition to_float (x : num) : result float :=
  match x with
  | PyInt z => float_of_int z
  | PyFloat f => Ok f
  end.

(** Nearest integer to [a / b] for [b > 0], ties to the even neighbour. *)
Definition round_half_even_div (a b : Z) : Z :=
  let q := a / b in
  let r := a mod b in
  match 2 * r ?= b with
  | Lt => q
  | Gt => q + 1
  | Eq => if Z.even q then q else q + 1
  end.

(** Built-in [round(x)] with one argument: the nearest int, ties to even.
    [round(inf)] raises [OverflowError], [round(nan)] raises [ValueError]. *)
Definition round_float (f : float) : result Z :=
  match f with
  | S754_zero _ => Ok 0
  | S754_finite s m e =>
      let sm := cond_Zopp s (Zpos m) in
      Ok (if 0 <=? e then sm * 2 ^ e else round_half_even_div sm (2 ^ (- e)))
  | S754_infinity _ => Raise OverflowError
  | S754_nan => Raise (ValueError "cannot convert float NaN to integer")
  end.

Definition round (x : num) : result Z :=
  match x with
  | PyInt z => Ok z
  | PyFloat f => round_float f
  end.

(** [int(x)]: truncation toward zero. *)
Definition int_of_float (f : float) : result Z :=
  match f with
  | S754_zero _ => Ok 0
  | S754_finite s m e =>
      Ok (cond_Zopp s (if 0 <=? e then Zpos m * 2 ^ e else Zpos m / 2 ^ (- e)))
  | S754_infinity _ => Raise OverflowError
  | S754_nan => Raise (ValueError "cannot convert float NaN to integer")
  end.

Definition to_int (x : num) : result Z :=
  match x with
  | PyInt z => Ok z
  | PyFloat f => int_of_float f
  end.

(** [a * b] *)
Definition mul (a b : num) : result num :=
  match a, b with
  | PyInt x, PyInt y => Ok (PyInt (x * y))
  | _, _ =>
      (fa <- to_float a ;;
       fb <- to_float b ;;
       Ok (PyFloat (fmul fa fb)))%py
  end.

(** [a - b] *)
Definition sub (a b : num) : result num :=
  match a, b with
  | PyInt x, PyInt y => Ok (PyInt (x - y))
  | _, _ =>
      (fa <- to_float a ;;
       fb <- to_float b ;;
       Ok (PyFloat (fsub fa fb)))%py
  end.

Definition is_zero (x : num) : bool :=
  match x with
  | PyInt z => z =? 0
  | PyFloat (S754_zero _) => true
  | PyFloat _ => false
  end.

(** [a / b] (true division).  Two ints give the correctly rounded
    quotient, with [OverflowError] when it is not finite; otherwise both
    operands are converted to float first. *)
Definition truediv (a b : num) : result num :=
  if is_zero b then Raise ZeroDivisionError
  else
    match a, b with
    | PyInt x, PyInt y =>
        match x with
        | Z0 => Ok (PyFloat (S754_zero (y <? 0)))
        | _ =>
            match fdiv (S754_finite (x <? 0) (Z.to_pos (Z.abs x)) 0)
                       (S754_finite (y <? 0) (Z.to_pos (Z.abs y)) 0) with
            | S754_infinity _ => Raise OverflowError
            | f => Ok (PyFloat f)
            end
        end
    | _, _ =>
        (fa <- to_float a ;;
         fb <- to_float b ;;
         Ok (PyFloat (fdiv fa fb)))%py
    end.

(** ** Comparison

    Python compares numbers by their exact values, also across [int] and
    [float]; every comparison with a NaN is false. *)

Inductive xval : Type :=
| NegInf
| Fin (m e : Z)          (* the value m * 2^e *)
| PosInf
| NaN.

Definition value (x : num) : xval :=
  match x with
  | PyInt z => Fin z 0
  | PyFloat (S754_zero _) => Fin 0 0
  | PyFloat (S754_finite s m e) => Fin (cond_Zopp s (Zpos m)) e
  | PyFloat (S754_infinity s) => if s then NegInf else PosInf
  | PyFloat S754_nan => NaN
  end.

Definition fin_compare (m1 e1 m2 e2 : Z) : comparison :=
  let e := Z.min e1 e2 in
  (m1 * 2 ^ (e1 - e)) ?= (m2 * 2 ^ (e2 - e)).

Definition xcompare (a b : xval) : option comparison :=
  match a, b with
  | NaN, _ | _, NaN => None
  | NegInf, NegInf => Some Eq
  | NegInf, _ => Some Lt
  | _, NegInf => Some Gt
  | PosInf, PosInf => Some Eq
  | PosInf, _ => Some Gt
  | _, PosInf => Some Lt
  | Fin m1 e1, Fin m2 e2 => Some (fin_compare m1 e1 m2 e2)
  end.

Definition compare (a b : num) : option comparison :=
  xcompare (value a) (value b).

(** [a >= b], [a > b], [a <= b] *)
Definition ge (a b : num) : bool :=
  match compare a b with Some Gt | Some Eq => true | _ => false end.
Definition gt (a b : num) : bool :=
  match compare a b with Some Gt => true | _ => false end.
Definition le (a b : num) : bool :=
  match compare a b with Some Lt | Some Eq => true | _ => false end.

End Py.

(* ===================================================================== *)
(** * notebooks/upmarket_funnel.py                                        *)
(* ===================================================================== *)

Module Funnel.
Import Py.
Local Open Scope py_scope.

(** The literal [n/d] written in decimal in the source ([0.40] is
    [decimal 40 100]): the binary64 nearest to the quotient. *)
Definition decimal (n d : positive) : float :=
  fdiv (S754_finite false n 0) (S754_finite false d 0).

(** [segment: str  # Enterprise, Midmarket, SMB] *)
Inductive segment : Type := Enterprise | Midmarket | SMB.

Definition segment_eqb (a b : segment) : bool :=
  match a, b with
  | Enterprise, Enterprise | Midmarket, Midmarket | SMB, SMB => true
  | _, _ => false
  end.

(** A lead as read from lead scoring: a dict whose keys may be absent. *)
Record Lead : Type := {
  d_account_id : option string;
  d_account_name : option string;
  d_current_mrr : option num;
  d_user_count : option num;
  d_referral_arr : option num;
  d_lead_score : option num;
  d_qualification_tier : option string
}.

(** [d.get(key, default)] *)
Definition get {A} (entry : option A) (default : A) : A :=
  match entry with
  | Some v => v
  | None => default
  end.

Record LeadCategory : Type := {
  account_id : string;
  account_name : string;
  partner : string;
  segment_of : segment;
  current_mrr : float;
  user_count : Z;
  referral_arr : float;
  lead_score : Z;
  qualification_tier : string
}.

Record FunnelMetrics : Type := {
  stage : string;
  enterprise_count : Z;
  midmarket_count : Z;
  smb_count : Z;
  total_count : Z;
  estimated_acv : Z;
  conversion_rate : num;
  estimated_revenue : Z
}.

Record criteria : Type := {
  mrr_threshold : Z;
  user_threshold : Z;
  arr_threshold : Z;
  lead_score_min : Z
}.

Definition ENTERPRISE_CRITERIA : criteria :=
  {| mrr_threshold := 1000; user_threshold := 50;
     arr_threshold := 12000; lead_score_min := 80 |}.

Definition MIDMARKET_CRITERIA : criteria :=
  {| mrr_threshold := 100; user_threshold := 10;
     arr_threshold := 1200; lead_score_min := 60 |}.

Definition ESTIMATED_ACV (s : segment) : Z :=
  match s with
  | Enterprise => 50000
  | Midmarket => 15000
  | SMB => 5000
  end.

Inductive transition : Type :=
| Leads_Qualified            (* 'Leads → Qualified' *)
| Qualified_Opportunity      (* 'Qualified → Opportunity' *)
| Opportunity_ClosedWon.     (* 'Opportunity → Closed Won' *)

Definition CONVERSION_RATES (t : transition) (s : segment) : float :=
  match t, s with
  | Leads_Qualified, Enterprise => decimal 40 100
  | Leads_Qualified, Midmarket => decimal 30 100
  | Leads_Qualified, SMB => decimal 20 100
  | Qualified_Opportunity, Enterprise => decimal 60 100
  | Qualified_Opportunity, Midmarket => decimal 50 100
  | Qualified_Opportunity, SMB => decimal 40 100
  | Opportunity_ClosedWon, Enterprise => decimal 30 100
  | Opportunity_ClosedWon, Midmarket => decimal 25 100
  | Opportunity_ClosedWon, SMB => decimal 20 100
  end.

(** The [if]/[elif] of [categorize_lead] that picks the segment. *)
Definition classify (current_mrr user_count referral_arr lead_score : num)
  : segment :=
  if ge current_mrr (PyInt (mrr_threshold ENTERPRISE_CRITERIA))
     || ge user_count (PyInt (user_threshold ENTERPRISE_CRITERIA))
     || ge referral_arr (PyInt (arr_threshold ENTERPRISE_CRITERIA))
     || ge lead_score (PyInt (lead_score_min ENTERPRISE_CRITERIA))
  then Enterprise
  else if ge current_mrr (PyInt (mrr_threshold MIDMARKET_CRITERIA))
     || ge user_count (PyInt (user_threshold MIDMARKET_CRITERIA))
     || ge referral_arr (PyInt (arr_threshold MIDMARKET_CRITERIA))
     || ge lead_score (PyInt (lead_score_min MIDMARKET_CRITERIA))
  then Midmarket
  else SMB.

Definition categorize_lead (lead : Lead) (partner : string)
  : result LeadCategory :=
  let current_mrr := get (d_current_mrr lead) (PyInt 0) in
  let user_count := get (d_user_count lead) (PyInt 0) in
  let referral_arr := get (d_referral_arr lead) (PyInt 0) in
  let lead_score := get (d_lead_score lead) (PyInt 0) in
  let qualification_tier := get (d_qualification_tier lead) "Unqualified"%string in
  let segment := classify current_mrr user_count referral_arr lead_score in
  mrr <- to_float current_mrr ;;
  users <- to_int user_count ;;
  arr <- to_float referral_arr ;;
  score <- to_int lead_score ;;
  Ok {| account_id := get (d_account_id lead) ""%string;
        account_name := get (d_account_name lead) "Unknown"%string;
        partner := partner;
        segment_of := segment;
        current_mrr := mrr;
        user_count := users;
        referral_arr := arr;
        lead_score := score;
        qualification_tier := qualification_tier |}.

(** Rendered cells of the returned table: the source formats numbers into
    strings; the model keeps the number under the name of its format. *)
Inductive cell : Type :=
| Text (s : string)
| Percent1 (x : num)         (* f'{x:.1%}'   *)
| Fixed1Pct (x : num)        (* f'{x:.1f}%'  *)
| Dollars0 (x : Z).          (* f'${x:,.0f}' *)

Record StageRow : Type := {
  Stage : string;
  n_Enterprise : Z;
  n_Midmarket : Z;
  n_SMB : Z;
  Total : Z;
  Conversion_Rate : cell;
  Estimated_Revenue : cell
}.

Record Summary : Type := {
  Current_Quarter_Target : num;
  Total_Leads : Z;
  Enterprise_Leads : Z;
  Midmarket_Leads : Z;
  SMB_Leads : Z;
  Summary_Estimated_Revenue : Z;
  Target_Progress : cell;
  Gap_to_Target : num
}.

Record FunnelResult : Type := {
  funnel_stages : list StageRow;
  summary : Summary;
  categorized_leads : list LeadCategory
}.

(** The two nested [for] loops that categorize every lead of every
    partner, in the order of the dict's items. *)
Fixpoint categorize_partner (partner : string) (leads : list Lead)
  : result (list LeadCategory) :=
  match leads with
  | [] => Ok []
  | lead :: rest =>
      categorized <- categorize_lead lead partner ;;
      more <- categorize_partner partner rest ;;
      Ok (categorized :: more)
  end.

Fixpoint categorize_all (leads_by_partner : list (string * list Lead))
  : result (list LeadCategory) :=
  match leads_by_partner with
  | [] => Ok []
  | (partner, leads) :: rest =>
      here <- categorize_partner partner leads ;;
      more <- categorize_all rest ;;
      Ok (here ++ more)
  end.

(** [sum(1 for l in categorized_leads if l.segment == s)] *)
Definition count_segment (s : segment) (ls : list LeadCategory) : Z :=
  Z.of_nat (List.length (filter (fun l => segment_eqb (segment_of l) s) ls)).

(** [round(count * self.CONVERSION_RATES[t][s])] *)
Definition convert (count : Z) (t : transition) (s : segment) : result Z :=
  x <- mul (PyInt count) (PyFloat (CONVERSION_RATES t s)) ;;
  round x.

(** [a / b if b > 0 else 0] *)
Definition ratio_or_zero (a b : Z) : result num :=
  if 0 <? b then truediv (PyInt a) (PyInt b) else Ok (PyInt 0).

Definition generate_funnel (leads_by_partner : list (string * list Lead))
           (current_quarter_target : num) : result FunnelResult :=
  categorized_leads <- categorize_all leads_by_partner ;;
  let enterprise_count := count_segment Enterprise categorized_leads in
  let midmarket_count := count_segment Midmarket categorized_leads in
  let smb_count := count_segment SMB categorized_leads in
  let total_leads := Z.of_nat (List.length categorized_leads) in
  let leads_stage :=
    {| stage := "Leads"; enterprise_count := enterprise_count;
       midmarket_count := midmarket_count; smb_count := smb_count;
       total_count := total_leads; estimated_acv := 0;
       conversion_rate := PyFloat (decimal 1 1); estimated_revenue := 0 |} in
  (* Stage 2: Qualified Leads *)
  qualified_enterprise <- convert enterprise_count Leads_Qualified Enterprise ;;
  qualified_midmarket <- convert midmarket_count Leads_Qualified Midmarket ;;
  qualified_smb <- convert smb_count Leads_Qualified SMB ;;
  let qualified_total := qualified_enterprise + qualified_midmarket + qualified_smb in
  qualified_rate <- ratio_or_zero qualified_total total_leads ;;
  let qualified_stage :=
    {| stage := "Qualified"; enterprise_count := qualified_enterprise;
       midmarket_count := qualified_midmarket; smb_count := qualified_smb;
       total_count := qualified_total; estimated_acv := 0;
       conversion_rate := qualified_rate; estimated_revenue := 0 |} in
  (* Stage 3: Opportunities *)
  opp_enterprise <- convert qualified_enterprise Qualified_Opportunity Enterprise ;;
  opp_midmarket <- convert qualified_midmarket Qualified_Opportunity Midmarket ;;
  opp_smb <- convert qualified_smb Qualified_Opportunity SMB ;;
  let opp_total := opp_enterprise + opp_midmarket + opp_smb in
  opp_rate <- ratio_or_zero opp_total qualified_total ;;
  let opportunities_stage :=
    {| stage := "Opportunities"; enterprise_count := opp_enterprise;
       midmarket_count := opp_midmarket; smb_count := opp_smb;
       total_count := opp_total; estimated_acv := 0;
       conversion_rate := opp_rate; estimated_revenue := 0 |} in
  (* Stage 4: Closed Won *)
  won_enterprise <- convert opp_enterprise Opportunity_ClosedWon Enterprise ;;
  won_midmarket <- convert opp_midmarket Opportunity_ClosedWon Midmarket ;;
  won_smb <- convert opp_smb Opportunity_ClosedWon SMB ;;
  let won_total := won_enterprise + won_midmarket + won_smb in
  let estimated_revenue :=
    won_enterprise * ESTIMATED_ACV Enterprise
    + won_midmarket * ESTIMATED_ACV Midmarket
    + won_smb * ESTIMATED_ACV SMB in
  won_rate <- ratio_or_zero won_total opp_total ;;
  let closed_won_stage :=
    {| stage := "Closed Won"; enterprise_count := won_enterprise;
       midmarket_count := won_midmarket; smb_count := won_smb;
       total_count := won_total; estimated_acv := ESTIMATED_ACV Enterprise;
       conversion_rate := won_rate; estimated_revenue := estimated_revenue |} in
  (* Progress toward target *)
  target_progress <-
    (if gt current_quarter_target (PyInt 0)
     then (q <- truediv (PyInt estimated_revenue) current_quarter_target ;;
           mul q (PyInt 100))
     else Ok (PyInt 0)) ;;
  gap <- sub current_quarter_target (PyInt estimated_revenue) ;;
  Ok {| funnel_stages :=
          [ {| Stage := "Leads"; n_Enterprise := enterprise_count;
               n_Midmarket := midmarket_count; n_SMB := smb_count;
               Total := total_leads; Conversion_Rate := Text "100%";
               Estimated_Revenue := Text "$0" |};
            {| Stage := "Qualified"; n_Enterprise := qualified_enterprise;
               n_Midmarket := qualified_midmarket; n_SMB := qualified_smb;
               Total := qualified_total;
               Conversion_Rate := Percent1 (conversion_rate qualified_stage);
               Estimated_Revenue := Text "$0" |};
            {| Stage := "Opportunities"; n_Enterprise := opp_enterprise;
               n_Midmarket := opp_midmarket; n_SMB := opp_smb;
               Total := opp_total;
               Conversion_Rate := Percent1 (conversion_rate opportunities_stage);
               Estimated_Revenue := Text "$0" |};
            {| Stage := "Closed Won"; n_Enterprise := won_enterprise;
               n_Midmarket := won_midmarket; n_SMB := won_smb;
               Total := won_total;
               Conversion_Rate := Percent1 (conversion_rate closed_won_stage);
               Estimated_Revenue := Dollars0 estimated_revenue |} ];
        summary :=
          {| Current_Quarter_Target := current_quarter_target;
             Total_Leads := total_leads;
             Enterprise_Leads := enterprise_count;
             Midmarket_Leads := midmarket_count;
             SMB_Leads := smb_count;
             Summary_Estimated_Revenue := estimated_revenue;
             Target_Progress := Fixed1Pct target_progress;
             Gap_to_Target := gap |};
        categorized_leads := categorized_leads |}.

(** Per-segment count of a stage row. *)
Definition segment_count (row : StageRow) (s : segment) : Z :=
  match s with
  | Enterprise => n_Enterprise row
  | Midmarket => n_Midmarket row
  | SMB => n_SMB row
  end.

(** [get_current_quarter_target()]; the year and the month of
    [datetime.now()] are arguments. *)
Definition get_current_quarter_target (current_year current_month : Z) : Z :=
  if (current_year =? 2025)
     || ((current_year =? 2026) && (current_month <=? 3))
  then 20000
  else if (current_year =? 2026)
          && ((4 <=? current_month) && (current_month <=? 6))
  then 80000
  else if (current_year =? 2026)
          && ((7 <=? current_month) && (current_month <=? 9))
  then 0
  else if (current_year =? 2026)
          && ((10 <=? current_month) && (current_month <=? 12))
  then 0
  else 20000.

End Funnel.

(* ===================================================================== *)
(** * Regular expressions (the fragment of [re] that the code uses)       *)
(* ===================================================================== *)

Module Re.

Definition text := list ascii.

(** Patterns.  Repetition is only ever applied to a character class in
    the source, so [Plus] takes a class. *)
Inductive regex : Type :=
| Str (s : string)              (* a literal                     *)
| Plus (class : ascii -> bool)  (* [class]+   (greedy)           *)
| Opt (r : regex)               (* r?  and (?:r)?   (greedy)     *)
| Seq (r1 r2 : regex)           (* r1 r2                         *)
| Group (n : nat) (r : regex).  (* (r), the n-th capturing group *)

(** Capture groups: number to matched text. *)
Definition captures := nat -> option text.
Definition no_captures : captures := fun _ => None.
Definition set_group (n : nat) (t : text) (c : captures) : captures :=
  fun i => if Nat.eqb i n then Some t else c i.

Fixpoint strip_prefix (lit s : text) : option text :=
  match lit, s with
  | [], _ => Some s
  | c :: lit', x :: s' => if Ascii.eqb c x then strip_prefix lit' s' else None
  | _ :: _, [] => None
  end.

(** [class]* against [s]: the longest run first, giving characters back
    one at a time while the rest of the pattern, [k], fails. *)
Fixpoint star {A} (class : ascii -> bool) (s : text) (k : text -> option A)
  : option A :=
  match s with
  | x :: s' =>
      if class x then
        match star class s' k with
        | Some r => Some r
        | None => k s
        end
      else k s
  | [] => k []
  end.

(** What [r] consumed between [s] and the remainder [s']. *)
Definition consumed (s s' : text) : text :=
  firstn (List.length s - List.length s') s.

(** Backtracking matcher: [k] is the rest of the pattern. *)
Fixpoint run (r : regex) (s : text) (c : captures)
         (k : text -> captures -> option captures) : option captures :=
  match r with
  | Str lit =>
      match strip_prefix (list_ascii_of_string lit) s with
      | Some s' => k s' c
      | None => None
      end
  | Plus class =>
      match s with
      | x :: s' => if class x then star class s' (fun s'' => k s'' c) else None
      | [] => None
      end
  | Opt r1 =>
      match run r1 s c k with
      | Some res => Some res
      | None => k s c
      end
  | Seq r1 r2 => run r1 s c (fun s' c' => run r2 s' c' k)
  | Group n r1 => run r1 s c (fun s' c' => k s' (set_group n (consumed s s') c'))
  end.

Definition match_here (r : regex) (s : text) : option captures :=
  run r s no_captures (fun _ c => Some c).

(** [re.search]: the match at the leftmost position that has one. *)
Fixpoint search_text (r : regex) (s : text) : option captures :=
  match match_here r s with
  | Some c => Some c
  | None =>
      match s with
      | [] => None
      | _ :: s' => search_text r s'
      end
  end.

Definition search (r : regex) (s : string) : option captures :=
  search_text r (list_ascii_of_string s).

(** [match.group(n)] *)
Definition group (c : captures) (n : nat) : string :=
  match c n with
  | Some t => string_of_list_ascii t
  | None => EmptyString
  end.

Definition in_range (lo hi x : ascii) : bool :=
  (nat_of_ascii lo <=? nat_of_ascii x)%nat && (nat_of_ascii x <=? nat_of_ascii hi)%nat.

(** [[A-Za-z0-9]] *)
Definition alnum (x : ascii) : bool :=
  in_range "A" "Z" x || in_range "a" "z" x || in_range "0" "9" x.

(** [[^c]] *)
Definition other_than (c x : ascii) : bool := negb (Ascii.eqb x c).

End Re.

(* ===================================================================== *)
(** * The remote service as seen through [requests]                       *)
(* ===================================================================== *)

Module Http.
Import Py.

(** Parsed JSON. *)
Inductive json : Type :=
| JNull
| JBool (b : bool)
| JNum (n : num)
| JStr (s : string)
| JList (items : list json)
| JObj (fields : list (string * json)).

Inductive method : Type := GET | POST | DELETE.

Record request : Type := {
  verb : method;
  url : string;
  headers : list (string * string);
  params : list (string * json);
  body : option json
}.

(** What a call into [requests] comes back with. *)
Inductive reply : Type :=
| Unreachable (msg : string)                      (* the call raises       *)
| Response (status_code : Z) (content : option json).
                                                  (* [None]: body not JSON *)

(** Observable actions, in order.  A printed line is kept as its
    template and arguments. *)
Inductive event : Type :=
| Sent (r : request)
| Slept (seconds : Z)
| Printed (template : string) (args : list json).

(** The world outside the process: the replies the service will give to
    the first, second, ... request, how many requests were made, what
    happened so far, and today's date as [strftime("%m/%d/%Y")] prints
    it. *)
Record world : Type := {
  replies : nat -> reply;
  served : nat;
  trace : list event;
  today : string
}.

Definition record (e : event) (w : world) : world :=
  {| replies := replies w; served := served w;
     trace := trace w ++ [e]; today := today w |}.

(** A run returns, raises, or is still inside [while True] when the
    fuel ends. *)
Inductive outcome (A : Type) : Type :=
| Return (a : A)
| Raised (e : exn)
| OutOfFuel.
Arguments Return {A} a.
Arguments Raised {A} e.
Arguments OutOfFuel {A}.

Definition io (A : Type) : Type := world -> outcome A * world.

Definition ret {A} (a : A) : io A := fun w => (Return a, w).
Definition raise {A} (e : exn) : io A := fun w => (Raised e, w).
Definition out_of_fuel {A} : io A := fun w => (OutOfFuel, w).

Definition bind {A B} (c : io A) (k : A -> io B) : io B :=
  fun w =>
    match c w with
    | (Return a, w') => k a w'
    | (Raised e, w') => (Raised e, w')
    | (OutOfFuel, w') => (OutOfFuel, w')
    end.

(** [try: c  except Exception as e: handler(e)] *)
Definition try_except {A} (c : io A) (handler : exn -> io A) : io A :=
  fun w =>
    match c w with
    | (Raised e, w') => handler e w'
    | other => other
    end.

Declare Scope io_scope.
Delimit Scope io_scope with io.
Notation "x <- c ;; k" := (bind c (fun x => k))
  (at level 61, c at next level, right associativity) : io_scope.
Notation "c ;; k" := (bind c (fun _ => k))
  (at level 61, right associativity) : io_scope.

Definition lift {A} (r : result A) : io A :=
  match r with
  | Ok a => ret a
  | Raise e => raise e
  end.

Definition sleep (seconds : Z) : io unit :=
  fun w => (Return tt, record (Slept seconds) w).

Definition print (template : string) (args : list json) : io unit :=
  fun w => (Return tt, record (Printed template args) w).

Definition strftime_today : io string := fun w => (Return (today w), w).

(** [requests.get], [requests.post], [requests.delete] *)
Definition send (r : request) : io (Z * option json) :=
  fun w =>
    let w' := {| replies := replies w; served := S (served w);
                 trace := trace w ++ [Sent r]; today := today w |} in
    match replies w (served w) with
    | Unreachable msg => (Raised (RequestException msg), w')
    | Response status content => (Return (status, content), w')
    end.

Definition requests_get (url : string) (headers : list (string * string))
           (params : list (string * json)) : io (Z * option json) :=
  send {| verb := GET; url := url; headers := headers;
          params := params; body := None |}.

Definition requests_post (url : string) (headers : list (string * string))
           (payload : json) : io (Z * option json) :=
  send {| verb := POST; url := url; headers := headers;
          params := []; body := Some payload |}.

Definition requests_delete (url : string) (headers : list (string * string))
  : io (Z * option json) :=
  send {| verb := DELETE; url := url; headers := headers;
          params := []; body := None |}.

(** [response.raise_for_status()] *)
Definition raise_for_status (response : Z * option json) : io unit :=
  let status := fst response in
  if (400 <=? status) && (status <? 600) then raise (HTTPError status)
  else ret tt.

(** [response.json()] *)
Definition response_json (response : Z * option json) : io json :=
  match snd response with
  | Some data => ret data
  | None => raise JSONDecodeError
  end.

(** Truth value of a JSON value in a condition. *)
Definition truthy (v : json) : bool :=
  match v with
  | JNull => false
  | JBool b => b
  | JNum n => negb (is_zero n)
  | JStr s => negb (String.eqb s "")
  | JList l => match l with [] => false | _ => true end
  | JObj f => match f with [] => false | _ => true end
  end.

Fixpoint lookup (key : string) (fields : list (string * json)) : option json :=
  match fields with
  | [] => None
  | (k, v) :: rest => if String.eqb k key then Some v else lookup key rest
  end.

(** [d[key] = v] *)
Fixpoint dict_set (key : string) (v : json) (fields : list (string * json))
  : list (string * json) :=
  match fields with
  | [] => [(key, v)]
  | (k, old) :: rest =>
      if String.eqb k key then (k, v) :: rest
      else (k, old) :: dict_set key v rest
  end.

(** [d.get(key, default)]; [AttributeError] when [d] is not a dict. *)
Definition dict_get (d : json) (key : string) (default : json) : io json :=
  match d with
  | JObj fields =>
      ret (match lookup key fields with Some v => v | None => default end)
  | _ => raise AttributeError
  end.

(** What iterating over a value yields ([for x in v], [list.extend(v)]),
    which is also what [len(v)] counts: the elements of a list, the
    characters of a string, the keys of a dict; [None], a number and a
    bool are not iterable and have no [len]: [TypeError]. *)
Definition iterate (v : json) : io (list json) :=
  match v with
  | JList l => ret l
  | JStr s => ret (map (fun c => JStr (String c EmptyString)) (list_ascii_of_string s))
  | JObj fields => ret (map (fun entry => JStr (fst entry)) fields)
  | _ => raise TypeError
  end.

(** [d.get('items', [])] as the code goes on to iterate over it, extend
    a list with it, or take its [len]. *)
Definition get_items (d : json) : io (list json) :=
  (v <- dict_get d "items" (JList []) ;;
   iterate v)%io.

(** [str(v)] as it appears inside the f-strings that build URLs; ids are
    strings in the service's API, and a missing id prints as [None]. *)
Definition py_str (v : json) : string :=
  match v with
  | JStr s => s
  | JNull => "None"
  | JBool true => "True"
  | JBool false => "False"
  | JNum (PyInt z) => DecimalString.NilZero.string_of_int (Z.to_int z)
  | _ => "?"
  end.

End Http.

(* ===================================================================== *)
(** * notebooks/coda_updater.py                                           *)
(* ===================================================================== *)

Module Coda.
Import Py Http.
Local Open Scope string_scope.
Local Open Scope io_scope.

(** Pattern of the first [re.search]:
    [/d/[^/]+_d?([A-Za-z0-9]+)/(?:[^#]+_)?([A-Za-z0-9]+)] *)
Definition url_pattern : Re.regex :=
  Re.Seq (Re.Str "/d/")
 (Re.Seq (Re.Plus (Re.other_than "/"))
 (Re.Seq (Re.Str "_")
 (Re.Seq (Re.Opt (Re.Str "d"))
 (Re.Seq (Re.Group 1 (Re.Plus Re.alnum))
 (Re.Seq (Re.Str "/")
 (Re.Seq (Re.Opt (Re.Seq (Re.Plus (Re.other_than "#")) (Re.Str "_")))
         (Re.Group 2 (Re.Plus Re.alnum)))))))).

(** Pattern of the fallback: [/d/[^/]+_d?([A-Za-z0-9]+)] *)
Definition doc_pattern : Re.regex :=
  Re.Seq (Re.Str "/d/")
 (Re.Seq (Re.Plus (Re.other_than "/"))
 (Re.Seq (Re.Str "_")
 (Re.Seq (Re.Opt (Re.Str "d"))
         (Re.Group 1 (Re.Plus Re.alnum))))).

Definition parse_coda_url (url : string) : result (string * option string) :=
  match Re.search url_pattern url with
  | Some m =>
      let doc_id := Re.group m 1 in
      let table_id :=
        if String.eqb (Re.group m 2) "" then None else Some (Re.group m 2) in
      Ok (doc_id, table_id)
  | None =>
      match Re.search doc_pattern url with
      | Some m => Ok (Re.group m 1, None)
      | None => Raise (ValueError ("Could not parse Coda URL: " ++ url))
      end
  end.

Record CodaUpdater : Type := {
  api_token : string;
  doc_id : option string;
  base_url : string;
  default_table_id : option string
}.

Definition _get_headers (self : CodaUpdater) : list (string * string) :=
  [("Authorization", "Bearer " ++ api_token self);
   ("Content-Type", "application/json")].

(** [doc_id = doc_id or self.doc_id] followed by
    [if not doc_id: raise ValueError("Document ID required")] *)
Definition resolve_doc_id (self : CodaUpdater) (doc_id_arg : option string)
  : io string :=
  let chosen :=
    match doc_id_arg with
    | Some d => if String.eqb d "" then doc_id self else Some d
    | None => doc_id self
    end in
  match chosen with
  | Some d => if String.eqb d "" then raise (ValueError "Document ID required")
              else ret d
  | None => raise (ValueError "Document ID required")
  end.

(** The [while True] of [list_tables]; one unit of fuel per page. *)
Fixpoint list_tables_loop (fuel : nat) (self : CodaUpdater) (url : string)
         (params : list (string * json)) (all_items : list json)
         (page_token : json) : io (list json) :=
  match fuel with
  | O => out_of_fuel
  | S fuel' =>
      let params :=
        if truthy page_token then dict_set "pageToken" page_token params
        else params in
      response <- requests_get url (_get_headers self) params ;;
      raise_for_status response ;;
      data <- response_json response ;;
      items <- get_items data ;;
      let all_items := (all_items ++ items)%list in
      page_token <- dict_get data "nextPageToken" JNull ;;
      if negb (truthy page_token) then ret all_items
      else list_tables_loop fuel' self url params all_items page_token
  end.

(** Returns the list under the key ['items'] of the dict the source
    builds. *)
Definition list_tables (fuel : nat) (self : CodaUpdater)
           (doc_id : option string) (include_views : bool)
  : io (list json) :=
  doc_id <- resolve_doc_id self doc_id ;;
  let url := base_url self ++ "/docs/" ++ doc_id ++ "/tables" in
  let params := [("limit", JNum (PyInt 100))] in
  let params :=
    if include_views then dict_set "tableTypes" (JStr "table,view") params
    else params in
  list_tables_loop fuel self url params [] JNull.

Fixpoint find_in_tables (tables : list json) (table_name : string) : io json :=
  match tables with
  | [] => ret JNull
  | table :: rest =>
      name <- dict_get table "name" JNull ;;
      match name with
      | JStr n =>
          if String.eqb n table_name then dict_get table "id" JNull
          else find_in_tables rest table_name
      | _ => find_in_tables rest table_name
      end
  end.

(** [None] is [JNull]. *)
Definition find_table_by_name (fuel : nat) (self : CodaUpdater)
           (table_name : string) (doc_id : option string) : io json :=
  tables <- list_tables fuel self doc_id true ;;
  find_in_tables tables table_name.

Definition list_rows (self : CodaUpdater) (table_id : json)
           (doc_id : option string) : io json :=
  doc_id <- resolve_doc_id self doc_id ;;
  let url := base_url self ++ "/docs/" ++ doc_id ++ "/tables/"
             ++ py_str table_id ++ "/rows" in
  response <- requests_get url (_get_headers self) [] ;;
  raise_for_status response ;;
  response_json response.

Definition cell_of (entry : string * json) : json :=
  JObj [("column", JStr (fst entry)); ("value", snd entry)].

Definition upsert_row (self : CodaUpdater) (table_id : json)
           (row_data : list (string * json)) (key_columns : list string)
           (doc_id : option string) : io json :=
  doc_id <- resolve_doc_id self doc_id ;;
  let url := base_url self ++ "/docs/" ++ doc_id ++ "/tables/"
             ++ py_str table_id ++ "/rows" in
  let cells := map cell_of row_data in
  let payload :=
    JObj [("rows", JList [JObj [("cells", JList cells)]]);
          ("keyColumns", JList (map JStr key_columns))] in
  response <- requests_post url (_get_headers self) payload ;;
  raise_for_status response ;;
  response_json response.

(** The [for row_id in row_ids] of [delete_rows]. *)
Fixpoint delete_each (self : CodaUpdater) (url : string)
         (row_ids : list string) (deleted_count : Z) : io Z :=
  match row_ids with
  | [] => ret deleted_count
  | row_id :: rest =>
      deleted_count <-
        try_except
          (let delete_url := url ++ "/" ++ row_id in
           response <- requests_delete delete_url (_get_headers self) ;;
           if ((fst response =? 200) || (fst response =? 204))%Z
           then ret (deleted_count + 1)
           else ret deleted_count)
          (fun _ => ret deleted_count) ;;
      delete_each self url rest deleted_count
  end.

Definition delete_rows (self : CodaUpdater) (table_id : string)
           (row_ids : list string) (doc_id : option string) : io bool :=
  doc_id <- resolve_doc_id self doc_id ;;
  match row_ids with
  | [] => ret true
  | _ =>
      let url := base_url self ++ "/docs/" ++ doc_id ++ "/tables/"
                 ++ table_id ++ "/rows" in
      deleted_count <- delete_each self url row_ids 0 ;;
      ret (deleted_count =? Z.of_nat (List.length row_ids))%Z
  end.

(** An account as the loop that formats rows reads it. *)
Record AccountSnapshot : Type := {
  account_id : string;
  owner_email : string;
  company_name : string;
  plan_name : string;
  plan_family : string;
  plan_arr : num;
  upmarket_customer : string;
  role_vertical : string;
  role_clean : string;
  company_size : string;
  apps_used_28d : num;
  tasks_success_billable : num
}.

Definition format_row (partner_name : string) (acc : AccountSnapshot)
  : io (list (string * json)) :=
  arr <- lift (to_float (plan_arr acc)) ;;
  apps <- lift (to_int (apps_used_28d acc)) ;;
  tasks <- lift (to_int (tasks_success_billable acc)) ;;
  date <- strftime_today ;;
  ret [("Account ID", JStr (account_id acc));
       ("Owner Email", JStr (owner_email acc));
       ("Company Name", JStr (company_name acc));
       ("Plan Name", JStr (plan_name acc));
       ("Plan Family", JStr (plan_family acc));
       ("Plan ARR (USD)", JNum (PyFloat arr));
       ("Upmarket Customer", JStr (upmarket_customer acc));
       ("Role Vertical", JStr (role_vertical acc));
       ("Role Clean", JStr (role_clean acc));
       ("Company Size", JStr (company_size acc));
       ("Apps Used (28d)", JNum (PyInt apps));
       ("Tasks Success Billable", JNum (PyInt tasks));
       ("Last Updated", JStr date);
       ("Partner", JStr partner_name)].

Fixpoint format_rows (partner_name : string) (accounts : list AccountSnapshot)
  : io (list (list (string * json))) :=
  match accounts with
  | [] => ret []
  | acc :: rest =>
      row_data <- format_row partner_name acc ;;
      more <- format_rows partner_name rest ;;
      ret (row_data :: more)
  end.

(** One entry of [errors]: the source renders it as
    [f"Account {row_data.get('Account ID')}: {str(e)}"]. *)
Record error_entry : Type := {
  error_key : json;       (* row_data.get('Account ID') *)
  error_exn : exn         (* e                          *)
}.

Record report : Type := {
  updated : Z;
  total : Z;
  errors : list error_entry
}.

Definition row_key (row_data : list (string * json)) : json :=
  match lookup "Account ID" row_data with
  | Some v => v
  | None => JNull
  end.

(** The [for row_data in account_dicts] loop with its [try]/[except]. *)
Fixpoint upsert_each (self : CodaUpdater) (table_id : json) (doc_id : string)
         (account_dicts : list (list (string * json)))
         (updated_count : Z) (errors : list error_entry)
  : io (Z * list error_entry) :=
  match account_dicts with
  | [] => ret (updated_count, errors)
  | row_data :: rest =>
      state <-
        try_except
          (upsert_row self table_id row_data ["Account ID"] (Some doc_id) ;;
           ret (updated_count + 1, errors))
          (fun e =>
             ret (updated_count,
                  (errors ++ [{| error_key := row_key row_data;
                                 error_exn := e |}])%list)) ;;
      upsert_each self table_id doc_id rest (fst state) (snd state)
  end.

(** Lines 343-363: upsert every formatted row and build the report. *)
Definition upsert_accounts (self : CodaUpdater) (table_id : json)
           (doc_id : string) (account_dicts : list (list (string * json)))
  : io report :=
  state <- upsert_each self table_id doc_id account_dicts 0 [] ;;
  ret {| updated := fst state;
         total := Z.of_nat (List.length account_dicts);
         errors := snd state |}.

Fixpoint table_names (tables : list json) : io (list json) :=
  match tables with
  | [] => ret []
  | t :: rest =>
      name <- dict_get t "name" JNull ;;
      more <- table_names rest ;;
      ret (name :: more)
  end.

Definition update_accounts_table (fuel : nat) (self : CodaUpdater)
           (partner_name : string) (accounts : list AccountSnapshot)
           (table_name : option string) (doc_id : option string)
  : io report :=
  doc_id <- resolve_doc_id self doc_id ;;
  let table_name :=
    match table_name with
    | Some n => if String.eqb n "" then partner_name ++ " Accounts" else n
    | None => partner_name ++ " Accounts"
    end in
  table_id <- find_table_by_name fuel self table_name (Some doc_id) ;;
  if negb (truthy table_id) then
    (* the message lists the tables, which asks the service again *)
    tables <- list_tables fuel self (Some doc_id) true ;;
    table_names tables ;;
    raise (ValueError ("Table '" ++ table_name ++ "' not found in document."))
  else
    account_dicts <- format_rows partner_name accounts ;;
    upsert_accounts self table_id doc_id account_dicts.

(** [os.environ] *)
Definition environ : Type := list (string * string).

(** [os.environ.get(key)] *)
Fixpoint env_get (env : environ) (key : string) : option string :=
  match env with
  | [] => None
  | (k, v) :: rest => if String.eqb k key then Some v else env_get rest key
  end.

(** [a or b] on optional strings: [a] when it is a non-empty string. *)
Definition or_else (a b : option string) : option string :=
  match a with
  | Some s => if String.eqb s "" then b else Some s
  | None => b
  end.

(** Truth value of an optional string. *)
Definition is_set (a : option string) : bool :=
  match a with
  | Some s => negb (String.eqb s "")
  | None => false
  end.

(** [CodaUpdater.__init__]; the environment is an argument. *)
Definition init (env : environ) (api_token doc_id doc_url : option string)
  : result CodaUpdater :=
  let api_token := or_else api_token (env_get env "CODA_API_TOKEN") in
  Py.bind
    (if is_set doc_url && negb (is_set doc_id) then
       match doc_url with
       | Some u =>
           Py.bind (parse_coda_url u)
                   (fun parsed =>
                      Ok (Some (fst parsed),
                          if is_set (snd parsed) then snd parsed else None))
       | None => Ok (doc_id, None)
       end
     else Ok (doc_id, None))
    (fun parsed =>
       let doc_id := or_else (fst parsed) (env_get env "CODA_DOC_ID") in
       if negb (is_set api_token) then
         Raise (ValueError "Coda API token required. Set CODA_API_TOKEN env var or pass api_token parameter.")
       else
         Ok {| api_token := match api_token with Some t => t | None => "" end;
               doc_id := doc_id;
               base_url := "https://coda.io/apis/v1";
               default_table_id := snd parsed |}).

(** [d.get(key, default)] on a dict argument. *)
Definition get_or (d : list (string * json)) (key : string) (default : json)
  : json :=
  match lookup key d with
  | Some v => v
  | None => default
  end.

Definition update_partner_status (fuel : nat) (self : CodaUpdater)
           (partner_name : string) (status_data : list (string * json))
           (table_name : string) (doc_id : option string) : io json :=
  doc_id <- resolve_doc_id self doc_id ;;
  table_id <- find_table_by_name fuel self table_name (Some doc_id) ;;
  if negb (truthy table_id) then
    raise (ValueError ("Table '" ++ table_name ++ "' not found in document"))
  else
    date <- strftime_today ;;
    let row_data :=
      [("Partner", JStr partner_name);
       ("Platinum Status",
        get_or status_data "platinum_status" (JStr "Not Qualified"));
       ("Managed Revenue Gap",
        get_or status_data "managed_revenue_gap" (JNum (PyInt 0)));
       ("Referral Revenue Gap",
        get_or status_data "referral_revenue_gap" (JNum (PyInt 0)));
       ("Last Updated", JStr date)] in
    upsert_row self table_id row_data ["Partner"] (Some doc_id).

End Coda.

(* ===================================================================== *)
(** * notebooks/update_coda_dashboard_daily.py                            *)
(* ===================================================================== *)

Module Dashboard.
Import Py Http.
Local Open Scope string_scope.
Local Open Scope io_scope.

Record CodaDashboardUpdater : Type := {
  updater : Coda.CodaUpdater;
  doc_id : string
}.

Definition rows_url (self : CodaDashboardUpdater) (table_id : json) : string :=
  Coda.base_url (updater self) ++ "/docs/" ++ doc_id self ++ "/tables/"
  ++ py_str table_id ++ "/rows".

Definition headers_of (self : CodaDashboardUpdater) : list (string * string) :=
  Coda._get_headers (updater self).

(** The first [try]: read the first column's id and name. *)
Definition first_column (self : CodaDashboardUpdater) (table_id : json)
  : io (json * json) :=
  try_except
    (let url := Coda.base_url (updater self) ++ "/docs/" ++ doc_id self
                ++ "/tables/" ++ py_str table_id ++ "/columns" in
     response <- requests_get url (headers_of self) [] ;;
     if (fst response =? 200)%Z then
       data <- response_json response ;;
       columns <- get_items data ;;
       match columns with
       | first :: _ =>
           column_id <- dict_get first "id" JNull ;;
           column_name <- dict_get first "name" JNull ;;
           ret (column_id, column_name)
       | [] => ret (JNull, JStr "Summary Text")
       end
     else ret (JNull, JStr "Summary Text"))
    (fun _ => ret (JNull, JStr "Summary Text")).

(** [len(rows.get('items', []))] after [list_rows]. *)
Definition count_rows (self : CodaDashboardUpdater) (table_id : json) : io Z :=
  check_rows <- Coda.list_rows (updater self) table_id (Some (doc_id self)) ;;
  items <- get_items check_rows ;;
  ret (Z.of_nat (List.length items)).

(** [all_row_ids = [row.get('id') for row in existing_rows]] *)
Fixpoint row_ids_of (rows : list json) : io (list json) :=
  match rows with
  | [] => ret []
  | row :: rest =>
      id <- dict_get row "id" JNull ;;
      more <- row_ids_of rest ;;
      ret (id :: more)
  end.

Fixpoint delete_all (self : CodaDashboardUpdater) (url : string)
         (all_row_ids : list json) (deleted_count : Z) : io Z :=
  match all_row_ids with
  | [] => ret deleted_count
  | row_id :: rest =>
      deleted_count <-
        try_except
          (let delete_url := url ++ "/" ++ py_str row_id in
           delete_response <- requests_delete delete_url (headers_of self) ;;
           if ((fst delete_response =? 200) || (fst delete_response =? 202)
               || (fst delete_response =? 204))%Z
           then ret (deleted_count + 1)%Z
           else ret deleted_count)
          (fun e =>
             print "Could not delete row {row_id}: {e}" [row_id] ;;
             ret deleted_count) ;;
      delete_all self url rest deleted_count
  end.

(** [for retry in range(max_retries)] that waits for the deletions;
    [retry] counts up, [left] is what remains of the range. *)
Fixpoint await_deleted (self : CodaDashboardUpdater) (table_id : json)
         (max_retries : Z) (retry : Z) (left : nat) : io unit :=
  match left with
  | O => ret tt
  | S left' =>
      continue <-
        try_except
          (remaining <- count_rows self table_id ;;
           if (remaining =? 0)%Z then
             print "All rows deleted (verified after {retry + 1} checks)"
                   [JNum (PyInt (retry + 1))] ;;
             ret false                                   (* break *)
           else
             (if (retry <? max_retries - 1)%Z then sleep 2 else ret tt) ;;
             ret true)
          (fun _ => ret false) ;;                        (* break *)
      if continue then await_deleted self table_id max_retries (retry + 1) left'
      else ret tt
  end.

(** Everything before the insert: find the table, read the column, then
    delete what is there and wait.  [None] stands for the early
    [return False] when the table does not exist.  Only the reading of
    the rows is inside the [try]: the [if existing_rows:] and the
    iteration over the rows come after it. *)
Definition locate_and_clear (fuel : nat) (self : CodaDashboardUpdater)
  : io (option (string * json * json * json)) :=
  let table_name := "Executive Summary" in
  table_id <- Coda.find_table_by_name fuel (updater self) table_name
                                      (Some (doc_id self)) ;;
  found <-
    (if negb (truthy table_id) then
       let table_name := "Executive Summary Text" in
       table_id <- Coda.find_table_by_name fuel (updater self) table_name
                                           (Some (doc_id self)) ;;
       ret (table_name, table_id)
     else ret (table_name, table_id)) ;;
  let table_name := fst found in
  let table_id := snd found in
  if negb (truthy table_id) then
    print "Table 'Executive Summary' or 'Executive Summary Text' not found. Skipping text update." [] ;;
    print "Create a table named 'Executive Summary' with a text column to enable auto-updates." [] ;;
    ret None
  else
    column <- first_column self table_id ;;
    let column_id := fst column in
    let column_name := snd column in
    existing_rows <-
      try_except
        (rows <- Coda.list_rows (updater self) table_id (Some (doc_id self)) ;;
         dict_get rows "items" (JList []))
        (fun _ => ret (JList [])) ;;
    let url := rows_url self table_id in
    (if truthy existing_rows then
       rows <- iterate existing_rows ;;
       all_row_ids <- row_ids_of rows ;;
       deleted_count <- delete_all self url all_row_ids 0 ;;
       (if (0 <? deleted_count)%Z
        then print "Deleted {deleted_count} existing row(s)"
                   [JNum (PyInt deleted_count)]
        else ret tt) ;;
       sleep 3 ;;
       let max_retries := 10%Z in
       await_deleted self table_id max_retries 0 10 ;;
       final_count <- count_rows self table_id ;;
       if (0 <? final_count)%Z then
         print "Warning: {n} rows still exist (deletions may be delayed)"
               [JNum (PyInt final_count)] ;;
         print "Will insert new row anyway - duplicates will be cleaned up on next run" []
       else ret tt
     else ret tt) ;;
    ret (Some (table_name, table_id, column_id, column_name)).

Definition insert_payload (column : json) (summary_text : string) : json :=
  JObj [("rows",
         JList [JObj [("cells",
                       JList [JObj [("column", column);
                                    ("value", JStr summary_text)]])]])].

(** [for retry in range(max_retries)] after the insert; [Some b] is
    [return b] from inside the loop, [None] is falling out of it. *)
Fixpoint await_inserted (self : CodaDashboardUpdater) (table_name : string)
         (table_id : json) (max_retries : Z) (retry : Z) (left : nat)
  : io (option bool) :=
  match left with
  | O => ret None
  | S left' =>
      final_count <- count_rows self table_id ;;
      if (1 <=? final_count)%Z then
        (if (final_count =? 1)%Z then
           print "Updated '{table_name}' table (deleted old rows, inserted 1 new row)"
                 [JStr table_name]
         else
           print "Updated '{table_name}' table (inserted new row, {final_count} total)"
                 [JStr table_name; JNum (PyInt final_count)] ;;
           print "Note: Some old rows may still be deleting (async). Run again to clean up." []) ;;
        ret (Some true)
      else
        (if (retry <? max_retries - 1)%Z then sleep 2 else ret tt) ;;
        await_inserted self table_name table_id max_retries (retry + 1) left'
  end.

(** The [for col_identifier in [...]] of the [except] branch. *)
Fixpoint retry_columns (self : CodaDashboardUpdater) (table_name : string)
         (url : string) (summary_text : string) (candidates : list json)
  : io (option bool) :=
  match candidates with
  | [] => ret None
  | col_identifier :: rest =>
      match col_identifier with
      | JNull => retry_columns self table_name url summary_text rest
      | _ =>
          returned <-
            try_except
              (response <- requests_post url (headers_of self)
                             (insert_payload col_identifier summary_text) ;;
               if ((fst response =? 200) || (fst response =? 202))%Z then
                 sleep 2 ;;
                 print "Updated '{table_name}' table" [JStr table_name] ;;
                 ret (Some true)
               else ret None)
              (fun _ => ret None) ;;                      (* continue *)
          match returned with
          | Some b => ret (Some b)
          | None => retry_columns self table_name url summary_text rest
          end
      end
  end.

(** Lines 427-494: insert one row and wait until it shows. *)
Definition insert_and_verify (self : CodaDashboardUpdater)
           (table_name : string) (table_id column_id column_name : json)
           (summary_text : string) : io bool :=
  let url := rows_url self table_id in
  let column_identifier := if truthy column_id then column_id else column_name in
  returned <-
    try_except
      (response <- requests_post url (headers_of self)
                     (insert_payload column_identifier summary_text) ;;
       if ((fst response =? 200) || (fst response =? 202))%Z then
         sleep 5 ;;
         let max_retries := 8%Z in
         seen <- await_inserted self table_name table_id max_retries 0 8 ;;
         match seen with
         | Some b => ret (Some b)
         | None =>
             print "Insertion accepted but not yet visible (Coda async processing)" [] ;;
             print "Check Coda in a few seconds - the row should appear" [] ;;
             ret (Some true)
         end
       else
         raise_for_status response ;;
         ret None)
      (fun e =>
         retry_columns self table_name url summary_text
           [column_id; column_name; JStr "Summary Text"; JStr "Text";
            JStr "Content"; JStr "Summary"; JStr "Name"]) ;;
  match returned with
  | Some b => ret b
  | None =>
      print "Error updating executive summary text" [] ;;
      ret false
  end.

Definition update_executive_summary_text (fuel : nat)
           (self : CodaDashboardUpdater) (summary_text : string) : io bool :=
  located <- locate_and_clear fuel self ;;
  match located with
  | None => ret false
  | Some (table_name, table_id, column_id, column_name) =>
      insert_and_verify self table_name table_id column_id column_name
                        summary_text
  end.

End Dashboard.


(* ===================================================================== *)
(** * Vocabulary of the statements                                      *)
(* ===================================================================== *)

(** Binary64 values as real numbers, and rounding to 53 bits. *)
Module Binary64.
Import Py.
Local Open Scope Z_scope.

Definition round_pos (m e : Z) : Z * Z :=
  let e1 := fexp prec emax (Zdigits2 m + e) in
  if e1 <=? e then (m, e)
  else
    let m1 := round_half_even_div m (2 ^ (e1 - e)) in
    if m1 =? 2 ^ prec then (2 ^ (prec - 1), e1 + 1) else (m1, e1).

Definition pack (s : bool) (me : Z * Z) : float :=
  match fst me with
  | Z0 => S754_zero s
  | Zpos q =>
      if snd me <=? emax - prec then S754_finite s q (snd me)
      else S754_infinity s
  | Zneg _ => S754_nan
  end.

Definition bpow (e : Z) : R := powerRZ 2 e.
Definition F2R (m e : Z) : R := (IZR m * bpow e)%R.

(** Value of a float (0 for what has none). *)
Definition FR (f : float) : R :=
  match f with
  | S754_finite s m e => F2R (cond_Zopp s (Zpos m)) e
  | _ => 0%R
  end.

End Binary64.

Module FunnelSpec.
Import Py Funnel Binary64.
Local Open Scope Z_scope.

Definition transition_at (i : nat) : option transition :=
  match i with
  | 0%nat => Some Leads_Qualified
  | 1%nat => Some Qualified_Opportunity
  | 2%nat => Some Opportunity_ClosedWon
  | _ => None
  end.

Definition counts_nonincreasing (rows : list StageRow) : Prop :=
  forall i parent child s,
    nth_error rows i = Some parent ->
    nth_error rows (S i) = Some child ->
    0 <= segment_count child s <= segment_count parent s.

(** The order that [<=] and [>=] decide. *)
Definition xle (a b : xval) : Prop :=
  match a, b with
  | NaN, _ | _, NaN => False
  | NegInf, _ => True
  | _, PosInf => True
  | Fin m1 e1, Fin m2 e2 => (F2R m1 e1 <= F2R m2 e2)%R
  | _, _ => False
  end.

(** Held fixed, or raised. *)
Definition not_lowered (x y : num) : Prop := x = y \/ le x y = true.

Definition rank (s : segment) : Z :=
  match s with
  | Enterprise => 2
  | Midmarket => 1
  | SMB => 0
  end.

Inductive signal : Type := Mrr | Users | Arr | Score.

Definition signal_of (sg : signal) (lead : Lead) : num :=
  match sg with
  | Mrr => get (d_current_mrr lead) (PyInt 0)
  | Users => get (d_user_count lead) (PyInt 0)
  | Arr => get (d_referral_arr lead) (PyInt 0)
  | Score => get (d_lead_score lead) (PyInt 0)
  end.

Definition with_signal (sg : signal) (v : num) (lead : Lead) : Lead :=
  {| d_account_id := d_account_id lead;
     d_account_name := d_account_name lead;
     d_current_mrr := match sg with Mrr => Some v | _ => d_current_mrr lead end;
     d_user_count := match sg with Users => Some v | _ => d_user_count lead end;
     d_referral_arr := match sg with Arr => Some v | _ => d_referral_arr lead end;
     d_lead_score := match sg with Score => Some v | _ => d_lead_score lead end;
     d_qualification_tier := d_qualification_tier lead |}.

Definition no_zero_division {A} (r : result A) : Prop :=
  r <> Raise ZeroDivisionError.

(** The rate of a transition as the percentage that the source writes. *)
Definition percent (t : transition) (s : segment) : Z :=
  match t, s with
  | Leads_Qualified, Enterprise => 40
  | Leads_Qualified, Midmarket => 30
  | Leads_Qualified, SMB => 20
  | Qualified_Opportunity, Enterprise => 60
  | Qualified_Opportunity, Midmarket => 50
  | Qualified_Opportunity, SMB => 40
  | Opportunity_ClosedWon, Enterprise => 30
  | Opportunity_ClosedWon, Midmarket => 25
  | Opportunity_ClosedWon, SMB => 20
  end.

(** [round(count × rate)] in exact arithmetic, ties to even. *)
Definition exact_round (count : Z) (t : transition) (s : segment) : Z :=
  round_half_even_div (count * percent t s) 100.

End FunnelSpec.

Module FunnelSamples.
Import Py Funnel.
Local Open Scope string_scope.
Local Open Scope list_scope.
Local Open Scope Z_scope.

(** A lead that only has a recurring revenue. *)
Definition lead_with_mrr (mrr : Z) : Lead :=
  {| d_account_id := Some "acct"; d_account_name := None;
     d_current_mrr := Some (PyInt mrr); d_user_count := None;
     d_referral_arr := None; d_lead_score := None;
     d_qualification_tier := None |}.

(** Three Midmarket leads, one Enterprise lead and one SMB lead of one
    partner. *)
Definition sample_leads : list (string * list Lead) :=
  [("Pyxis", [lead_with_mrr 200; lead_with_mrr 300; lead_with_mrr 150;
              lead_with_mrr 5000; lead_with_mrr 0])].

End FunnelSamples.

(** Worlds, and what a run leaves behind in them. *)
Module Wire.
Import Py Http.
Local Open Scope string_scope.
Local Open Scope list_scope.
Local Open Scope Z_scope.

(** The world after further requests were sent and answered. *)
Definition after_requests (w : world) (rs : list request) : world :=
  {| replies := replies w;
     served := served w + List.length rs;
     trace := trace w ++ map Sent rs;
     today := today w |}.

(** The reply that the [i]-th request from now will get. *)
Definition upcoming (w : world) (i : nat) : reply := replies w (served w + i).

(** The document id that [doc_id or self.doc_id] settles on, when there
    is one. *)
Definition chosen_doc_id (self : Coda.CodaUpdater) (doc_id_arg : option string)
  : option string :=
  let chosen :=
    match doc_id_arg with
    | Some d => if String.eqb d "" then Coda.doc_id self else Some d
    | None => Coda.doc_id self
    end in
  match chosen with
  | Some d => if String.eqb d "" then None else Some d
  | None => None
  end.

(** A client and a service that answers the requests from a list, in
    order, and is unreachable afterwards. *)
Definition sample_updater : Coda.CodaUpdater :=
  {| Coda.api_token := "token"; Coda.doc_id := Some "AbCd1234";
     Coda.base_url := "https://coda.io/apis/v1";
     Coda.default_table_id := None |}.

Definition world_of (answers : list reply) : world :=
  {| replies := fun i => nth i answers (Unreachable "connection refused");
     served := 0; trace := []; today := "11/04/2026" |}.

Definition is_sent (e : event) : bool :=
  match e with Sent _ => true | _ => false end.

(** The world after these events: only requests use up replies. *)
Definition after (w : world) (evs : list event) : world :=
  {| replies := replies w;
     served := served w + List.length (filter is_sent evs);
     trace := trace w ++ evs;
     today := today w |}.

End Wire.

Module DeleteRowsSpec.
Import Py Http Coda Wire.
Local Open Scope Z_scope.

Definition delete_request (self : CodaUpdater) (url row_id : string) : request :=
  {| verb := DELETE; url := url ++ "/" ++ row_id;
     headers := _get_headers self; params := []; body := None |}.

(** [delete_rows] counts a reply when its status is 200 or 204. *)
Definition deleted (r : reply) : bool :=
  match r with
  | Response status _ => (status =? 200) || (status =? 204)
  | Unreachable _ => false
  end.

(** How many of the next [n] replies count as a deletion. *)
Fixpoint deletions (w : world) (from n : nat) : Z :=
  match n with
  | O => 0
  | S n' => (if deleted (upcoming w from) then 1 else 0) + deletions w (S from) n'
  end.

Definition table_rows_url (self : CodaUpdater) (d table_id : string) : string :=
  (base_url self ++ "/docs/" ++ d ++ "/tables/" ++ table_id ++ "/rows")%string.

End DeleteRowsSpec.

Module PaginationSpec.
Import Py Http Coda Wire.
Local Open Scope string_scope.
Local Open Scope list_scope.
Local Open Scope Z_scope.

(** A reply that [list_tables] accepts as a page: not an error status, a
    JSON object, a list (or nothing) under ['items'].  The page is its
    items and what it has under ['nextPageToken'] ([JNull] when absent). *)
Definition as_page (r : reply) : option (list json * json) :=
  match r with
  | Response status (Some (JObj fields)) =>
      if (400 <=? status) && (status <? 600) then None
      else
        let token := match lookup "nextPageToken" fields with
                     | Some v => v
                     | None => JNull
                     end in
        match lookup "items" fields with
        | None => Some ([], token)
        | Some (JList items) => Some (items, token)
        | Some _ => None
        end
  | _ => None
  end.

(** The next replies are these pages, in this order. *)
Fixpoint serves (w : world) (from : nat) (pages : list (list json * json)) : Prop :=
  match pages with
  | [] => True
  | page :: rest => as_page (upcoming w from) = Some page /\ serves w (S from) rest
  end.

Definition page_request (self : CodaUpdater) (url : string)
           (params : list (string * json)) : request :=
  {| verb := GET; url := url; headers := _get_headers self;
     params := params; body := None |}.

Definition next_params (params : list (string * json)) (page_token : json)
  : list (string * json) :=
  if truthy page_token then dict_set "pageToken" page_token params else params.

(** The requests that fetch [pages]: each carries the token of the page
    before it. *)
Fixpoint page_requests (self : CodaUpdater) (url : string)
         (params : list (string * json)) (page_token : json)
         (pages : list (list json * json)) : list request :=
  match pages with
  | [] => []
  | page :: rest =>
      page_request self url (next_params params page_token)
      :: page_requests self url (next_params params page_token) (snd page) rest
  end.

Definition items_of (pages : list (list json * json)) : list json :=
  List.concat (map fst pages).

Definition tables_url (self : CodaUpdater) (d : string) : string :=
  (base_url self ++ "/docs/" ++ d ++ "/tables")%string.

Definition first_params (include_views : bool) : list (string * json) :=
  if include_views
  then [("limit", JNum (PyInt 100)); ("tableTypes", JStr "table,view")]
  else [("limit", JNum (PyInt 100))].

(** Two pages: the first carries a token, the second does not. *)
Definition two_pages : world :=
  world_of
    [Response 200 (Some (JObj [("items", JList [JStr "t-1"; JStr "t-2"]);
                               ("nextPageToken", JStr "page-2")]));
     Response 200 (Some (JObj [("items", JList [JStr "t-3"])]))].

End PaginationSpec.

Module BatchSpec.
Import Py Http Coda Wire.
Local Open Scope string_scope.
Local Open Scope list_scope.
Local Open Scope Z_scope.

Definition row := list (string * json).

Definition upsert_request (self : CodaUpdater) (table_id : json) (d : string)
           (row_data : row) : request :=
  {| verb := POST;
     url := (base_url self ++ "/docs/" ++ d ++ "/tables/" ++ py_str table_id
             ++ "/rows")%string;
     headers := _get_headers self;
     params := [];
     body := Some (JObj [("rows", JList [JObj [("cells", JList (map cell_of row_data))]]);
                         ("keyColumns", JList [JStr "Account ID"])]) |}.

(** What [upsert_row] raises on a reply, if anything. *)
Definition failure (r : reply) : option exn :=
  match r with
  | Unreachable msg => Some (RequestException msg)
  | Response status content =>
      if (400 <=? status) && (status <? 600) then Some (HTTPError status)
      else match content with
           | Some _ => None
           | None => Some JSONDecodeError
           end
  end.

(** How many of the next [n] replies let [upsert_row] return. *)
Fixpoint successes (w : world) (from n : nat) : Z :=
  match n with
  | O => 0
  | S n' =>
      (match failure (upcoming w from) with None => 1 | Some _ => 0 end)
      + successes w (S from) n'
  end.

(** The error entries of the rows whose reply made [upsert_row] raise,
    in the order of the rows. *)
Fixpoint failures (w : world) (from : nat) (rows : list row)
  : list error_entry :=
  match rows with
  | [] => []
  | row_data :: rest =>
      match failure (upcoming w from) with
      | None => failures w (S from) rest
      | Some e =>
          {| error_key := row_key row_data; error_exn := e |}
          :: failures w (S from) rest
      end
  end.

(** Five formatted rows, each with its account id. *)
Definition sample_rows : list row :=
  map (fun k => [("Account ID", JStr k); ("Partner", JStr "Pyxis")])
      ["a-1"; "a-2"; "a-3"; "a-4"; "a-5"].

(** The service accepts every row but the third. *)
Definition third_refused : world :=
  world_of [Response 200 (Some (JObj [])); Response 200 (Some (JObj []));
            Response 500 None;
            Response 200 (Some (JObj [])); Response 200 (Some (JObj []))].

End BatchSpec.

Module SingletonSpec.
Import Py Http Coda Dashboard Wire.
Local Open Scope string_scope.
Local Open Scope list_scope.
Local Open Scope Z_scope.

(** A reply that [list_rows] followed by [.get('items', [])] accepts,
    with the rows it lists. *)
Definition as_listing (r : reply) : option (list json) :=
  match r with
  | Response status (Some (JObj fields)) =>
      if (400 <=? status) && (status <? 600) then None
      else match lookup "items" fields with
           | None => Some []
           | Some (JList items) => Some items
           | Some _ => None
           end
  | _ => None
  end.

Definition poll_request (self : CodaDashboardUpdater) (table_id : json)
  : request :=
  {| verb := GET; url := rows_url self table_id;
     headers := headers_of self; params := []; body := None |}.

Definition insert_request (self : CodaDashboardUpdater) (table_id column : json)
           (summary_text : string) : request :=
  {| verb := POST; url := rows_url self table_id;
     headers := headers_of self; params := [];
     body := Some (insert_payload column summary_text) |}.

(** The events of polling [left] more times, starting at [retry], while
    the table stays empty. *)
Fixpoint idle_polls (self : CodaDashboardUpdater) (table_id : json)
         (max_retries retry : Z) (left : nat) : list event :=
  match left with
  | O => []
  | S left' =>
      Sent (poll_request self table_id)
      :: (if retry <? max_retries - 1 then [Slept 2] else [])
      ++ idle_polls self table_id max_retries (retry + 1) left'
  end.

Definition chosen_column (column_id column_name : json) : json :=
  if truthy column_id then column_id else column_name.

Definition not_visible_warning : list event :=
  [Printed "Insertion accepted but not yet visible (Coda async processing)" [];
   Printed "Check Coda in a few seconds - the row should appear" []].

(** A document with an empty "Executive Summary" table; the insert is
    accepted, and the eight polls list no row. *)
Definition sample_dashboard : CodaDashboardUpdater :=
  {| updater := sample_updater; doc_id := "AbCd1234" |}.

Definition empty_listing : reply := Response 200 (Some (JObj [("items", JList [])])).

Definition never_visible : world :=
  world_of
    ([Response 200 (Some (JObj [("items",
        JList [JObj [("id", JStr "grid-9"); ("name", JStr "Executive Summary")]])]));
      Response 200 (Some (JObj [("items",
        JList [JObj [("id", JStr "c-1"); ("name", JStr "Summary Text")]])]));
      empty_listing;
      Response 202 (Some (JObj []))]
     ++ repeat empty_listing 8).

(** The insert is accepted, and the first poll is refused; the service
    is unreachable afterwards. *)
Definition poll_refused : world :=
  world_of
    [Response 200 (Some (JObj [("items",
        JList [JObj [("id", JStr "grid-9"); ("name", JStr "Executive Summary")]])]));
     Response 200 (Some (JObj [("items",
        JList [JObj [("id", JStr "c-1"); ("name", JStr "Summary Text")]])]));
     empty_listing;
     Response 202 (Some (JObj []));
     Response 500 None].

(** The same, with the service back for the request after the poll. *)
Definition poll_refused_once : world :=
  world_of
    [Response 200 (Some (JObj [("items",
        JList [JObj [("id", JStr "grid-9"); ("name", JStr "Executive Summary")]])]));
     Response 200 (Some (JObj [("items",
        JList [JObj [("id", JStr "c-1"); ("name", JStr "Summary Text")]])]));
     empty_listing;
     Response 202 (Some (JObj []));
     Response 500 None;
     Response 202 (Some (JObj []))].

(** The POSTs of a trace, in order. *)
Definition posts (evs : list event) : list request :=
  flat_map (fun e => match e with
                     | Sent r => match verb r with POST => [r] | _ => [] end
                     | _ => []
                     end) evs.

End SingletonSpec.

Module UrlSpec.
Import Py Re Coda.
Local Open Scope string_scope.
Local Open Scope list_scope.

(** [class]* stops here: at the end, or at a character outside the class. *)
Definition stops (class : ascii -> bool) (s : text) : Prop :=
  match s with
  | [] => True
  | x :: _ => class x = false
  end.

(** Every character of [s] is in the class. *)
Definition all_in (class : ascii -> bool) (s : string) : Prop :=
  Forall (fun x => class x = true) (list_ascii_of_string s).

(** Nothing follows the table id, or a [#] anchor does. *)
Definition anchor (suffix : string) : Prop :=
  suffix = "" \/ exists rest, suffix = String "#" rest.

Definition anchored (suffix : text) : Prop :=
  suffix = [] \/ exists rest, suffix = "#"%char :: rest.

(** The text of a locator after its host. *)
Definition locator_path (name doc table_name table suffix : text) : text :=
  "/"%char :: "d"%char :: "/"%char
  :: name ++ "_"%char :: "d"%char
  :: doc ++ "/"%char :: table_name ++ "_"%char :: table ++ suffix.

Definition found (doc table : text) : captures :=
  set_group 2 table (set_group 1 doc no_captures).

End UrlSpec.

(** The report of [generate_funnel] as a whole. *)
Module FunnelReport.
Import Py Funnel Binary64 FunnelSpec FunnelSamples.
Local Open Scope Z_scope.

(** All leads of the input, partner after partner. *)
Definition all_leads (lp : list (string * list Lead)) : list Lead :=
  List.concat (map snd lp).

(** The counts of the three segments. *)
Definition counts3 : Type := (Z * Z * Z)%type.

(** The stage rows that [generate_funnel] builds from the counts of its
    four stages and the three rates it computed. *)
Definition stage_rows (l q o w : counts3) (qr or wr : num) : list StageRow :=
  let total (c : counts3) := fst (fst c) + snd (fst c) + snd c in
  let revenue := fst (fst w) * 50000 + snd (fst w) * 15000 + snd w * 5000 in
  [ {| Stage := "Leads"; n_Enterprise := fst (fst l); n_Midmarket := snd (fst l);
       n_SMB := snd l; Total := total l;
       Conversion_Rate := Text "100%"; Estimated_Revenue := Text "$0" |};
    {| Stage := "Qualified"; n_Enterprise := fst (fst q); n_Midmarket := snd (fst q);
       n_SMB := snd q; Total := total q;
       Conversion_Rate := Percent1 qr; Estimated_Revenue := Text "$0" |};
    {| Stage := "Opportunities"; n_Enterprise := fst (fst o);
       n_Midmarket := snd (fst o); n_SMB := snd o; Total := total o;
       Conversion_Rate := Percent1 or; Estimated_Revenue := Text "$0" |};
    {| Stage := "Closed Won"; n_Enterprise := fst (fst w); n_Midmarket := snd (fst w);
       n_SMB := snd w; Total := total w;
       Conversion_Rate := Percent1 wr; Estimated_Revenue := Dollars0 revenue |} ].

(** The leads of the input with their partner, in the order in which the
    two nested loops visit them. *)
Definition tagged_leads (lp : list (string * list Lead)) : list (string * Lead) :=
  flat_map (fun pl => map (pair (fst pl)) (snd pl)) lp.

(** The report of an input without leads, for a target [t]. *)
Definition empty_report (t : Z) (progress : num) : FunnelResult :=
  {| funnel_stages :=
       stage_rows (0, 0, 0) (0, 0, 0) (0, 0, 0) (0, 0, 0)
                  (PyInt 0) (PyInt 0) (PyInt 0);
     summary :=
       {| Current_Quarter_Target := PyInt t; Total_Leads := 0;
          Enterprise_Leads := 0; Midmarket_Leads := 0; SMB_Leads := 0;
          Summary_Estimated_Revenue := 0;
          Target_Progress := Fixed1Pct progress;
          Gap_to_Target := PyInt t |};
     categorized_leads := [] |}.

(** The sample leads and one more Enterprise lead of another partner. *)
Definition more_leads : list (string * list Lead) :=
  (sample_leads ++ [("Mira"%string, [lead_with_mrr 2000])])%list.

End FunnelReport.

Module CodaSpec.
Import Py Http Coda Wire PaginationSpec BatchSpec.
Local Open Scope string_scope.
Local Open Scope list_scope.
Local Open Scope Z_scope.

(** No document id was given: the argument is [None] or empty. *)
Definition absent (doc_id : option string) : Prop :=
  doc_id = None \/ doc_id = Some ""%string.

(** The request of [upsert_row]. *)
Definition post_rows_request (self : CodaUpdater) (table_id : json) (d : string)
           (row_data : list (string * json)) (key_columns : list string)
  : request :=
  {| verb := POST;
     url := (base_url self ++ "/docs/" ++ d ++ "/tables/" ++ py_str table_id
             ++ "/rows")%string;
     headers := _get_headers self;
     params := [];
     body := Some (JObj [("rows", JList [JObj [("cells", JList (map cell_of row_data))]]);
                         ("keyColumns", JList (map JStr key_columns))]) |}.

(** The request of [list_rows]. *)
Definition get_rows_request (self : CodaUpdater) (table_id : json) (d : string)
  : request :=
  {| verb := GET;
     url := (base_url self ++ "/docs/" ++ d ++ "/tables/" ++ py_str table_id
             ++ "/rows")%string;
     headers := _get_headers self; params := []; body := None |}.

(** What [raise_for_status] followed by [json()] makes of a reply. *)
Definition json_of_reply (r : reply) : outcome json :=
  match r with
  | Unreachable msg => Raised (RequestException msg)
  | Response status content =>
      if (400 <=? status) && (status <? 600) then Raised (HTTPError status)
      else match content with
           | Some data => Return data
           | None => Raised JSONDecodeError
           end
  end.

(** The id of the first table of the listing that has the name. *)
Fixpoint first_named (tables : list (list (string * json))) (table_name : string)
  : json :=
  match tables with
  | [] => JNull
  | fields :: rest =>
      match lookup "name" fields with
      | Some (JStr n) =>
          if String.eqb n table_name
          then match lookup "id" fields with Some v => v | None => JNull end
          else first_named rest table_name
      | _ => first_named rest table_name
      end
  end.

(** Two tables of the same name on different pages. *)
Definition same_name_twice : world :=
  world_of
    [Response 200 (Some (JObj [("items",
        JList [JObj [("id", JStr "grid-1"); ("name", JStr "Accounts")];
               JObj [("id", JStr "grid-2"); ("name", JStr "Partner Status")]]);
        ("nextPageToken", JStr "page-2")]));
     Response 200 (Some (JObj [("items",
        JList [JObj [("id", JStr "grid-3"); ("name", JStr "Partner Status")]])]))].

(** The second page is refused. *)
Definition second_page_refused : world :=
  world_of
    [Response 200 (Some (JObj [("items", JList [JStr "t-1"]);
                               ("nextPageToken", JStr "page-2")]));
     Response 503 None;
     Response 200 (Some (JObj [("items", JList [JStr "t-3"])]))].

(** The row that [update_partner_status] writes. *)
Definition status_row (partner_name : string) (status_data : list (string * json))
           (date : string) : list (string * json) :=
  [("Partner", JStr partner_name);
   ("Platinum Status", get_or status_data "platinum_status" (JStr "Not Qualified"));
   ("Managed Revenue Gap", get_or status_data "managed_revenue_gap" (JNum (PyInt 0)));
   ("Referral Revenue Gap", get_or status_data "referral_revenue_gap" (JNum (PyInt 0)));
   ("Last Updated", JStr date)].

(** A document with the table "Partner Status"; the upsert is accepted. *)
Definition status_table_listed : world :=
  world_of
    [Response 200 (Some (JObj [("items",
        JList [JObj [("id", JStr "grid-2"); ("name", JStr "Partner Status")]])]));
     Response 202 (Some (JObj [("requestId", JStr "r-1")]))].

(** The table name that [update_accounts_table] looks for. *)
Definition accounts_table_name (partner_name : string) (table_name : option string)
  : string :=
  match table_name with
  | Some n => if String.eqb n "" then partner_name ++ " Accounts" else n
  | None => partner_name ++ " Accounts"
  end.

(** An account of the sample partner. *)
Definition account (id : string) (tasks : num) : AccountSnapshot :=
  {| account_id := id; owner_email := "owner@example.com";
     company_name := "Example"; plan_name := "Team"; plan_family := "team";
     plan_arr := PyInt 1200; upmarket_customer := "No"; role_vertical := "";
     role_clean := ""; company_size := "11-50"; apps_used_28d := PyInt 4;
     tasks_success_billable := tasks |}.

(** The accounts table is listed; the first upsert is accepted and the
    second refused. *)
Definition accounts_listed : world :=
  world_of
    [Response 200 (Some (JObj [("items",
        JList [JObj [("id", JStr "grid-7"); ("name", JStr "Pyxis Accounts")]])]));
     Response 200 (Some (JObj []));
     Response 400 None].

End CodaSpec.

Module LocatorSpec.
Import Py Re Coda UrlSpec.
Local Open Scope string_scope.
Local Open Scope list_scope.

(** The literal occurs somewhere in the text. *)
Fixpoint occurs (lit s : text) : bool :=
  match strip_prefix lit s with
  | Some _ => true
  | None =>
      match s with
      | [] => false
      | _ :: s' => occurs lit s'
      end
  end.

(** No character of the text is a slash. *)
Definition no_slash (s : text) : Prop :=
  Forall (fun x => other_than "/" x = true) s.

(** The text of a locator that names a document only. *)
Definition document_path (name doc : text) : text :=
  list_ascii_of_string "/d/" ++ name ++ "_"%char :: ("d"%char :: doc) ++ [].

End LocatorSpec.

Module DashboardSpec.
Import Py Http Coda Dashboard Wire PaginationSpec SingletonSpec CodaSpec.
Local Open Scope string_scope.
Local Open Scope list_scope.
Local Open Scope Z_scope.

(** The line that reports the row count once the row is seen. *)
Definition seen_report (table_name : string) (n : Z) : list event :=
  if n =? 1
  then [Printed "Updated '{table_name}' table (deleted old rows, inserted 1 new row)"
                [JStr table_name]]
  else [Printed "Updated '{table_name}' table (inserted new row, {final_count} total)"
                [JStr table_name; JNum (PyInt n)];
        Printed "Note: Some old rows may still be deleting (async). Run again to clean up." []].

(** The request that lists the tables of the dashboard's document. *)
Definition listing_request (self : CodaDashboardUpdater) : request :=
  page_request (updater self) (tables_url (updater self) (doc_id self))
               (first_params true).

Definition no_table_found : list event :=
  [Printed "Table 'Executive Summary' or 'Executive Summary Text' not found. Skipping text update." [];
   Printed "Create a table named 'Executive Summary' with a text column to enable auto-updates." []].

(** The row shows at the third poll. *)
Definition seen_at_third_poll : world :=
  world_of [Response 200 (Some (JObj [("items", JList [])]));
            Response 200 (Some (JObj [("items", JList [])]));
            Response 200 (Some (JObj [("items", JList [JObj [("id", JStr "i-1")]])]));
            Response 200 (Some (JObj [("items", JList [JObj [("id", JStr "i-1")]])]))].

(** A document that only has an accounts table. *)
Definition only_accounts : world :=
  world_of
    [Response 200 (Some (JObj [("items",
        JList [JObj [("id", JStr "grid-1"); ("name", JStr "Accounts")]])]));
     Response 200 (Some (JObj [("items",
        JList [JObj [("id", JStr "grid-1"); ("name", JStr "Accounts")]])]))].

(** The DELETE that the dashboard sends for a row. *)
Definition clear_request (self : CodaDashboardUpdater) (url : string)
           (row_id : json) : request :=
  {| verb := DELETE; url := (url ++ "/" ++ py_str row_id)%string;
     headers := headers_of self; params := []; body := None |}.

(** The dashboard counts a reply when its status is 200, 202 or 204. *)
Definition cleared (r : reply) : bool :=
  match r with
  | Response status _ => (status =? 200) || (status =? 202) || (status =? 204)
  | Unreachable _ => false
  end.

(** How many of the next [n] replies count. *)
Fixpoint clearances (w : world) (from n : nat) : Z :=
  match n with
  | O => 0
  | S n' => (if cleared (upcoming w from) then 1 else 0) + clearances w (S from) n'
  end.

(** What deleting the rows leaves in the trace: one DELETE per row, and a
    printed line after each one that could not be sent. *)
Fixpoint clear_events (self : CodaDashboardUpdater) (url : string)
         (row_ids : list json) (w : world) (from : nat) : list event :=
  match row_ids with
  | [] => []
  | row_id :: rest =>
      Sent (clear_request self url row_id)
      :: match upcoming w from with
         | Unreachable _ => [Printed "Could not delete row {row_id}: {e}" [row_id]]
         | Response _ _ => []
         end
      ++ clear_events self url rest w (S from)
  end.

End DashboardSpec.


(* ===================================================================== *)
(** * Facts about binary64 rounding                                     *)
(* ===================================================================== *)

Module Binary64Facts.
Import Py Binary64.
Local Open Scope Z_scope.

Lemma digits2_pos_size p : digits2_pos p = Pos.size p.
Proof. induction p; simpl; congruence. Qed.

Lemma Zdigits2_log2 p : Zdigits2 (Zpos p) = Z.log2 (Zpos p) + 1.
Proof.
  simpl. rewrite digits2_pos_size.
  destruct p; simpl; try reflexivity; rewrite Pos.add_1_r; reflexivity.
Qed.

Lemma Zdigits2_bounds p :
  2 ^ (Zdigits2 (Zpos p) - 1) <= Zpos p < 2 ^ Zdigits2 (Zpos p).
Proof.
  rewrite Zdigits2_log2.
  replace (Z.log2 (Zpos p) + 1 - 1) with (Z.log2 (Zpos p)) by lia.
  replace (Z.log2 (Zpos p) + 1) with (Z.succ (Z.log2 (Zpos p))) by lia.
  apply Z.log2_spec. lia.
Qed.

Lemma Zdigits2_pos p : 0 < Zdigits2 (Zpos p).
Proof. simpl. lia. Qed.

(** The number of digits is determined by the binade. *)
Lemma Zdigits2_unique p d :
  2 ^ (d - 1) <= Zpos p < 2 ^ d -> Zdigits2 (Zpos p) = d.
Proof.
  intros H. rewrite Zdigits2_log2.
  assert (0 < d).
  { destruct (Z_lt_le_dec 0 d) as [|Hd]; [assumption|].
    rewrite (Z.pow_neg_r 2 (d - 1)) in H by lia.
    destruct (Z.eq_dec d 0) as [->|]; [simpl in H; lia|].
    rewrite (Z.pow_neg_r 2 d) in H by lia. lia. }
  assert (Z.log2 (Zpos p) = d - 1); [|lia].
  apply Z.log2_unique; [lia|].
  replace (Z.succ (d - 1)) with d by lia. assumption.
Qed.

Lemma shr_1_nonneg m r s :
  0 <= m ->
  shr_1 {| shr_m := m; shr_r := r; shr_s := s |}
  = {| shr_m := m / 2; shr_r := Z.odd m; shr_s := r || s |}.
Proof.
  intros Hm. rewrite <- Z.div2_div.
  destruct m as [|[p|p|]|p]; try reflexivity; lia.
Qed.

Lemma iter_pos_nat {A} (f : A -> A) p x :
  iter_pos f p x = Nat.iter (Pos.to_nat p) f x.
Proof.
  revert x. induction p as [p IH|p IH|]; intros x; cbn [iter_pos].
  - rewrite !IH, Pos2Nat.inj_xI.
    replace (S (2 * Pos.to_nat p))%nat with (Pos.to_nat p + S (Pos.to_nat p))%nat by lia.
    rewrite Nat.iter_add. f_equal. now rewrite Nat.iter_succ_r.
  - rewrite !IH, Pos2Nat.inj_xO.
    replace (2 * Pos.to_nat p)%nat with (Pos.to_nat p + Pos.to_nat p)%nat by lia.
    now rewrite Nat.iter_add.
  - reflexivity.
Qed.

(** [k+1] one-bit shifts of an exact value leave the quotient, the last
    bit shifted out and whether anything lower was non-zero. *)
Lemma shr_1_iter m k :
  0 <= m ->
  Nat.iter (S k) shr_1 {| shr_m := m; shr_r := false; shr_s := false |}
  = {| shr_m := m / 2 ^ (Z.of_nat k + 1);
       shr_r := Z.odd (m / 2 ^ Z.of_nat k);
       shr_s := negb (m mod 2 ^ Z.of_nat k =? 0) |}.
Proof.
  intros Hm. induction k as [|k IH].
  - unfold Nat.iter; cbn [nat_rect]. rewrite shr_1_nonneg by assumption.
    simpl Z.of_nat. rewrite Z.pow_0_r, Z.div_1_r, Z.mod_1_r. reflexivity.
  - rewrite Nat.iter_succ, IH.
    assert (0 < 2 ^ Z.of_nat k) by (apply Z.pow_pos_nonneg; lia).
    rewrite shr_1_nonneg by (apply Z.div_pos; [assumption|apply Z.pow_pos_nonneg; lia]).
    replace (Z.of_nat (S k)) with (Z.of_nat k + 1) by lia.
    f_equal.
    + rewrite Z.div_div by lia. f_equal.
      rewrite (Z.pow_add_r 2 (Z.of_nat k + 1) 1) by lia. reflexivity.
    + rewrite (Z.pow_add_r 2 (Z.of_nat k) 1), Z.pow_1_r by lia.
      rewrite Z.rem_mul_r by lia.
      pose proof (Z.mod_pos_bound m (2 ^ Z.of_nat k) ltac:(lia)).
      pose proof (Z.mod_pos_bound (m / 2 ^ Z.of_nat k) 2 ltac:(lia)).
      rewrite (Zodd_mod (m / 2 ^ Z.of_nat k)).
      destruct (Z.eqb_spec ((m / 2 ^ Z.of_nat k) mod 2) 1);
        destruct (Z.eqb_spec (m mod 2 ^ Z.of_nat k) 0); simpl;
        symmetry; try (apply negb_true_iff, Z.eqb_neq; nia);
        apply negb_false_iff, Z.eqb_eq; nia.
Qed.

(** Rounding the shifted mantissa by its location is rounding the quotient
    to nearest, ties to even. *)
Lemma round_shr m p :
  0 <= m ->
  let mrs := iter_pos shr_1 p {| shr_m := m; shr_r := false; shr_s := false |} in
  round_nearest_even (shr_m mrs) (loc_of_shr_record mrs)
  = round_half_even_div m (2 ^ Zpos p).
Proof.
  intros Hm mrs. subst mrs. rewrite iter_pos_nat.
  destruct (Pos2Nat.is_succ p) as [k Hk]. rewrite Hk, shr_1_iter by assumption.
  assert (Zpos p = Z.of_nat k + 1) as -> by lia.
  set (K := Z.of_nat k). assert (0 <= K) by lia.
  assert (0 < 2 ^ K) by (apply Z.pow_pos_nonneg; lia).
  unfold round_half_even_div.
  rewrite (Z.pow_add_r 2 K 1), Z.pow_1_r by lia.
  rewrite Z.rem_mul_r by lia.
  pose proof (Z.mod_pos_bound m (2 ^ K) ltac:(lia)).
  pose proof (Z.mod_pos_bound (m / 2 ^ K) 2 ltac:(lia)).
  rewrite (Zodd_mod (m / 2 ^ K)).
  cbn [shr_m loc_of_shr_record].
  destruct (Z.eqb_spec ((m / 2 ^ K) mod 2) 1) as [E1|E1];
    destruct (Z.eqb_spec (m mod 2 ^ K) 0) as [E2|E2]; cbn [negb round_nearest_even].
  - rewrite E1, E2. replace (2 * (0 + 2 ^ K * 1) ?= 2 ^ K * 2) with Eq
      by (symmetry; apply Z.compare_eq_iff; lia). reflexivity.
  - replace (2 * (m mod 2 ^ K + 2 ^ K * ((m / 2 ^ K) mod 2)) ?= 2 ^ K * 2) with Gt
      by (symmetry; apply Z.compare_gt_iff; nia). reflexivity.
  - replace (2 * (m mod 2 ^ K + 2 ^ K * ((m / 2 ^ K) mod 2)) ?= 2 ^ K * 2) with Lt
      by (symmetry; apply Z.compare_lt_iff; nia). reflexivity.
  - replace (2 * (m mod 2 ^ K + 2 ^ K * ((m / 2 ^ K) mod 2)) ?= 2 ^ K * 2) with Lt
      by (symmetry; apply Z.compare_lt_iff; nia). reflexivity.
Qed.

Lemma fexp_eq x : fexp prec emax x = Z.max (x - 53) (-1074).
Proof. reflexivity. Qed.

Lemma round_half_even_div_bounds a b :
  0 < b ->
  a / b <= round_half_even_div a b <= a / b + 1.
Proof.
  intros Hb. unfold round_half_even_div.
  destruct (2 * (a mod b) ?= b); [destruct (Z.even (a / b))|..]; lia.
Qed.

(** The rounded quotient is within half a unit of the exact one. *)
Lemma round_half_even_div_error a b :
  0 < b ->
  2 * Z.abs (round_half_even_div a b * b - a) <= b.
Proof.
  intros Hb. unfold round_half_even_div.
  pose proof (Z.mod_pos_bound a b Hb).
  pose proof (Z.div_mod a b ltac:(lia)).
  destruct (Z.compare_spec (2 * (a mod b)) b);
    [destruct (Z.even (a / b))|..]; nia.
Qed.

Lemma shr_noop mrs e n : n <= 0 -> shr mrs e n = (mrs, e).
Proof. destruct n; [reflexivity| lia |reflexivity]. Qed.

Lemma shr_fexp_noop m e :
  fexp prec emax (Zdigits2 m + e) <= e ->
  shr_fexp prec emax m e loc_Exact
  = ({| shr_m := m; shr_r := false; shr_s := false |}, e).
Proof. intros H. unfold shr_fexp. apply shr_noop. lia. Qed.

Lemma shr_fexp_shift m e k :
  fexp prec emax (Zdigits2 m + e) - e = Zpos k ->
  shr_fexp prec emax m e loc_Exact
  = (iter_pos shr_1 k {| shr_m := m; shr_r := false; shr_s := false |},
     e + Zpos k).
Proof. intros H. unfold shr_fexp. rewrite H. reflexivity. Qed.

Lemma binary_round_aux_pos s p e :
  binary_round_aux prec emax s (Zpos p) e loc_Exact
  = pack s (round_pos (Zpos p) e).
Proof.
  unfold binary_round_aux, round_pos.
  set (m := Zpos p). set (e1 := fexp prec emax (Zdigits2 m + e)).
  destruct (Z.leb_spec e1 e) as [Hle|Hlt].
  - (* the mantissa already fits *)
    rewrite shr_fexp_noop by assumption.
    cbn [shr_m loc_of_shr_record round_nearest_even].
    rewrite shr_fexp_noop by assumption. reflexivity.
  - (* shift right by e1 - e > 0 and round *)
    destruct (e1 - e) as [|k|k] eqn:Hk; try lia.
    rewrite (shr_fexp_shift m e k) by assumption.
    rewrite (round_shr m k) by (subst m; lia).
    assert (e + Zpos k = e1) as -> by lia.
    set (m1 := round_half_even_div m (2 ^ Zpos k)).
    pose proof (Zdigits2_bounds p) as Hd. fold m in Hd.
    assert (emin : -1074 <= e1) by (subst e1; rewrite fexp_eq; lia).
    assert (Hk' : Zdigits2 m - 53 <= Zpos k) by (subst e1; rewrite fexp_eq in Hk; lia).
    assert (H2k : 0 < 2 ^ Zpos k) by (apply Z.pow_pos_nonneg; lia).
    assert (Hq : 0 <= m / 2 ^ Zpos k < 2 ^ 53).
    { split; [apply Z.div_pos; subst m; lia|].
      apply Z.div_lt_upper_bound; [assumption|].
      rewrite <- Z.pow_add_r by lia.
      apply Z.lt_le_trans with (1 := proj2 Hd).
      apply Z.pow_le_mono_r; lia. }
    pose proof (round_half_even_div_bounds m (2 ^ Zpos k) H2k) as Hm1. fold m1 in Hm1.
    destruct (Z.eqb_spec m1 (2 ^ prec)) as [E|E].
    + (* the rounded mantissa overflowed to 2^53: one more exact shift *)
      rewrite E. unfold shr_fexp.
      replace (fexp prec emax (Zdigits2 (2 ^ prec) + e1) - e1) with 1
        by (rewrite fexp_eq; change (Zdigits2 (2 ^ prec)) with 54; lia).
      reflexivity.
    + assert (Hfit : fexp prec emax (Zdigits2 m1 + e1) <= e1).
      { rewrite fexp_eq. destruct m1 as [|q|q] eqn:Eq; [simpl; lia| |lia].
        pose proof (Zdigits2_bounds q) as Hdq.
        assert (Zdigits2 (Zpos q) - 1 < 53).
        { apply (Z.pow_lt_mono_r_iff 2); [lia|lia|].
          change prec with 53 in E. lia. }
        lia. }
      rewrite shr_fexp_noop by assumption. reflexivity.
Qed.

Lemma bpow_pos e : (0 < bpow e)%R.
Proof. apply powerRZ_lt. lra. Qed.

Lemma bpow_add a b : bpow (a + b) = (bpow a * bpow b)%R.
Proof. apply powerRZ_add. lra. Qed.

Lemma bpow_IZR k : 0 <= k -> bpow k = IZR (2 ^ k).
Proof.
  intros Hk. unfold bpow.
  rewrite <- (Z2Nat.id k) by assumption.
  rewrite <- pow_powerRZ, pow_IZR. reflexivity.
Qed.

Lemma bpow_opp k : bpow (- k) = (/ bpow k)%R.
Proof. apply powerRZ_neg'. Qed.

Lemma bpow_1 : bpow 1 = 2%R.
Proof. rewrite bpow_IZR by lia. reflexivity. Qed.

Lemma bpow_m53 : bpow (-53) = (/ 9007199254740992)%R.
Proof. change (-53) with (- (53)). rewrite bpow_opp, bpow_IZR by lia. reflexivity. Qed.

Lemma bpow_le a b : a <= b -> (bpow a <= bpow b)%R.
Proof.
  intros H. replace b with (a + (b - a)) by lia.
  rewrite bpow_add, (bpow_IZR (b - a)) by lia.
  assert (1 <= 2 ^ (b - a)) by (pose proof (Z.pow_pos_nonneg 2 (b - a)); lia).
  apply IZR_le in H0. pose proof (bpow_pos a). nra.
Qed.

Lemma bpow_lt_inv a b : (bpow a < bpow b)%R -> a < b.
Proof.
  intros H. destruct (Z_lt_le_dec a b) as [|Hle]; [assumption|].
  apply bpow_le in Hle. lra.
Qed.

Lemma F2R_bounds p e :
  (bpow (Zdigits2 (Zpos p) - 1 + e) <= F2R (Zpos p) e < bpow (Zdigits2 (Zpos p) + e))%R.
Proof.
  pose proof (Zdigits2_bounds p) as [Hlo Hhi].
  pose proof (Zdigits2_pos p).
  apply IZR_le in Hlo. apply IZR_lt in Hhi.
  rewrite <- bpow_IZR in Hlo, Hhi by lia.
  unfold F2R. rewrite !bpow_add. pose proof (bpow_pos e). nra.
Qed.

(** Standard model of rounding to nearest: in the normal range the rounded
    value is within a relative [2^-53] of the exact one. *)
Lemma round_pos_error p e :
  (bpow (-1022) <= F2R (Zpos p) e)%R ->
  0 < fst (round_pos (Zpos p) e) /\
  (Rabs (F2R (fst (round_pos (Zpos p) e)) (snd (round_pos (Zpos p) e))
         - F2R (Zpos p) e)
   <= F2R (Zpos p) e * bpow (-53))%R.
Proof.
  intros Hnorm.
  pose proof (F2R_bounds p e) as [Hlo Hhi].
  pose proof (Zdigits2_bounds p) as [Hdlo Hdhi].
  set (m := Zpos p) in *. set (d := Zdigits2 m) in *.
  assert (Hd : -1022 < d + e) by (apply bpow_lt_inv; lra).
  unfold round_pos. fold d. rewrite fexp_eq.
  replace (Z.max (d + e - 53) (-1074)) with (d + e - 53) by lia.
  assert (HX : (0 < F2R m e)%R) by (pose proof (bpow_pos (-1022)); lra).
  destruct (Z.leb_spec (d + e - 53) e) as [Hle|Hlt]; cbn [fst snd].
  - split; [subst m; lia|].
    replace (F2R m e - F2R m e)%R with 0%R by ring.
    rewrite Rabs_R0. pose proof (bpow_pos (-53)). nra.
  - replace (d + e - 53 - e) with (d - 53) by lia.
    set (k := d - 53). assert (Hk : 0 < k) by lia.
    set (m1 := round_half_even_div m (2 ^ k)).
    assert (H2k : 0 < 2 ^ k) by (apply Z.pow_pos_nonneg; lia).
    pose proof (round_half_even_div_error m (2 ^ k) H2k) as Herr. fold m1 in Herr.
    pose proof (round_half_even_div_bounds m (2 ^ k) H2k) as Hb. fold m1 in Hb.
    assert (Hq : 2 ^ 52 <= m / 2 ^ k).
    { apply Z.div_le_lower_bound; [assumption|].
      rewrite Z.mul_comm, <- Z.pow_add_r by lia.
      replace (52 + k) with (d - 1) by lia. assumption. }
    assert (Hval : F2R (fst (if m1 =? 2 ^ prec then (2 ^ (prec - 1), d + e - 53 + 1)
                             else (m1, d + e - 53)))
                       (snd (if m1 =? 2 ^ prec then (2 ^ (prec - 1), d + e - 53 + 1)
                             else (m1, d + e - 53)))
                   = F2R m1 (d + e - 53)).
    { destruct (Z.eqb_spec m1 (2 ^ prec)) as [E|E]; cbn [fst snd]; [|reflexivity].
      rewrite E. unfold F2R. rewrite bpow_add.
      rewrite bpow_1. change (2 ^ (prec - 1)) with 4503599627370496.
      change (2 ^ prec) with 9007199254740992. lra. }
    split.
    + destruct (Z.eqb_spec m1 (2 ^ prec)); cbn [fst]; [reflexivity|lia].
    + rewrite Hval. unfold F2R.
      replace (d + e - 53) with (k + e) by lia. rewrite bpow_add, (bpow_IZR k) by lia.
      replace (IZR m1 * (IZR (2 ^ k) * bpow e) - IZR m * bpow e)%R
        with (IZR (m1 * 2 ^ k - m) * bpow e)%R
        by (rewrite minus_IZR, mult_IZR; ring).
      rewrite Rabs_mult, (Rabs_pos_eq (bpow e)) by (left; apply bpow_pos).
      rewrite <- abs_IZR.
      assert (Hm : 2 ^ k * 2 ^ 52 <= m).
      { rewrite <- Z.pow_add_r by lia. replace (k + 52) with (d - 1) by lia. assumption. }
      apply IZR_le in Herr, Hm.
      rewrite mult_IZR in Herr, Hm.
      rewrite bpow_m53.
      change (IZR (2 ^ 52)) with 4503599627370496%R in Hm.
      pose proof (bpow_pos e).
      set (A := IZR (Z.abs (m1 * 2 ^ k - m))) in *.
      set (B := IZR (2 ^ k)) in *.
      assert (A <= IZR m / 9007199254740992)%R by lra.
      unfold Rdiv in *. nra.
Qed.

Lemma pack_pos s me :
  0 < fst me ->
  pack s me = S754_infinity s
  \/ pack s me = S754_finite s (Z.to_pos (fst me)) (snd me).
Proof.
  destruct me as [m e]; cbn [fst snd]. intros Hm. unfold pack; cbn [fst snd].
  destruct m; try lia. destruct (e <=? emax - prec); [right|left]; reflexivity.
Qed.

(** A positive exact value in the normal range rounds to infinity or to a
    float within relative [2^-53]. *)
Lemma binary_round_aux_error s p e :
  (bpow (-1022) <= F2R (Zpos p) e)%R ->
  binary_round_aux prec emax s (Zpos p) e loc_Exact = S754_infinity s
  \/ exists m' e',
       binary_round_aux prec emax s (Zpos p) e loc_Exact = S754_finite s m' e'
       /\ (Rabs (F2R (Zpos m') e' - F2R (Zpos p) e)
           <= F2R (Zpos p) e * bpow (-53))%R.
Proof.
  intros Hn. rewrite binary_round_aux_pos.
  destruct (round_pos_error p e Hn) as [Hpos Herr].
  destruct (pack_pos s _ Hpos) as [->| ->]; [left; reflexivity|right].
  eexists _, _. split; [reflexivity|].
  rewrite Z2Pos.id by assumption. exact Herr.
Qed.

Lemma Pos_iter_xO m d : Zpos (Pos.iter xO m d) = Zpos m * 2 ^ Zpos d.
Proof.
  induction d as [|d IH] using Pos.peano_ind.
  - simpl. lia.
  - rewrite Pos.iter_succ, Pos2Z.inj_xO, IH, Pos2Z.inj_succ, Z.pow_succ_r by lia. ring.
Qed.

Lemma shl_align_value mx ex ex' :
  F2R (Zpos (fst (shl_align mx ex ex'))) (snd (shl_align mx ex ex'))
  = F2R (Zpos mx) ex.
Proof.
  unfold shl_align. destruct (ex' - ex) as [|d|d] eqn:E; cbn [fst snd]; try reflexivity.
  rewrite Pos_iter_xO. unfold F2R.
  replace ex with (Zpos d + ex') by lia.
  rewrite bpow_add, mult_IZR, <- bpow_IZR by lia. ring.
Qed.

Lemma F2R_int n : F2R n 0 = IZR n.
Proof. unfold F2R, bpow. simpl. ring. Qed.

(** [float(n)] for a positive int: [OverflowError], or a positive float
    within relative [2^-53] of [n]. *)
Lemma float_of_int_pos p :
  float_of_int (Zpos p) = Raise OverflowError
  \/ exists m e,
       float_of_int (Zpos p) = Ok (S754_finite false m e)
       /\ (Rabs (F2R (Zpos m) e - IZR (Zpos p)) <= IZR (Zpos p) * bpow (-53))%R.
Proof.
  unfold float_of_int, binary_normalize, binary_round.
  pose proof (shl_align_value p 0 (fexp prec emax (Zpos (digits2_pos p) + 0))) as Hv.
  destruct (shl_align p 0 (fexp prec emax (Zpos (digits2_pos p) + 0))) as [mz ez].
  cbn [fst snd] in Hv. rewrite F2R_int in Hv.
  assert (Hn : (bpow (-1022) <= F2R (Zpos mz) ez)%R).
  { rewrite Hv. pose proof (bpow_le (-1022) 0 ltac:(lia)) as H.
    change (bpow 0) with 1%R in H. assert (1 <= IZR (Zpos p))%R by (apply IZR_le; lia). lra. }
  destruct (binary_round_aux_error false mz ez Hn) as [->|(m' & e' & -> & Herr)].
  - left; reflexivity.
  - right. exists m', e'. split; [reflexivity|]. rewrite <- Hv. exact Herr.
Qed.

Lemma F2R_mul m1 e1 m2 e2 :
  F2R (m1 * m2) (e1 + e2) = (F2R m1 e1 * F2R m2 e2)%R.
Proof. unfold F2R. rewrite mult_IZR, bpow_add. ring. Qed.

(** Product of two positive floats whose exact product is in the normal
    range. *)
Lemma fmul_pos mx ex my ey :
  (bpow (-1022) <= F2R (Zpos mx) ex * F2R (Zpos my) ey)%R ->
  fmul (S754_finite false mx ex) (S754_finite false my ey) = S754_infinity false
  \/ exists m e,
       fmul (S754_finite false mx ex) (S754_finite false my ey)
       = S754_finite false m e
       /\ (Rabs (F2R (Zpos m) e - F2R (Zpos mx) ex * F2R (Zpos my) ey)
           <= F2R (Zpos mx) ex * F2R (Zpos my) ey * bpow (-53))%R.
Proof.
  intros Hn. unfold fmul, SFmul. cbn [xorb].
  rewrite <- F2R_mul in *. change (Zpos mx * Zpos my) with (Zpos (mx * my)) in *.
  apply binary_round_aux_error. assumption.
Qed.

(** [round] of a finite float is within one half of it. *)
Lemma round_float_error s m e :
  exists z, round_float (S754_finite s m e) = Ok z
            /\ (Rabs (IZR z - F2R (cond_Zopp s (Zpos m)) e) <= / 2)%R.
Proof.
  unfold round_float. set (sm := cond_Zopp s (Zpos m)).
  eexists; split; [reflexivity|].
  destruct (Z.leb_spec 0 e) as [He|He].
  - unfold F2R. rewrite bpow_IZR, <- mult_IZR by assumption.
    replace (IZR (sm * 2 ^ e) - IZR (sm * 2 ^ e))%R with 0%R by ring.
    rewrite Rabs_R0. lra.
  - set (k := - e). assert (Hk : 0 < k) by lia.
    assert (H2k : 0 < 2 ^ k) by (apply Z.pow_pos_nonneg; lia).
    pose proof (round_half_even_div_error sm (2 ^ k) H2k) as Herr.
    set (z := round_half_even_div sm (2 ^ k)) in *.
    unfold F2R. replace e with (- k) by lia. rewrite bpow_opp, bpow_IZR by lia.
    apply IZR_le in Herr. rewrite mult_IZR, abs_IZR, minus_IZR, mult_IZR in Herr.
    apply IZR_lt in H2k. set (B := IZR (2 ^ k)) in *.
    replace (IZR z - IZR sm * / B)%R with ((IZR z * B - IZR sm) * / B)%R
      by (field; lra).
    rewrite Rabs_mult, (Rabs_pos_eq (/ B)) by (left; apply Rinv_0_lt_compat; lra).
    apply Rmult_le_reg_r with B; [assumption|].
    rewrite Rmult_assoc, Rinv_l by lra. lra.
Qed.

End Binary64Facts.


(* ===================================================================== *)
(** * notebooks/upmarket_funnel.py: theorems                            *)
(* ===================================================================== *)

Module FunnelFacts.
Import Py Funnel Binary64 Binary64Facts FunnelSpec FunnelSamples.
Local Open Scope Z_scope.

Lemma Rabs_le_inv' x a : (Rabs x <= a)%R -> (- a <= x <= a)%R.
Proof. unfold Rabs. destruct (Rcase_abs x); lra. Qed.

Ltac bpow_const :=
  repeat match goal with
  | |- context [bpow (Zneg ?k)] =>
      change (Zneg k) with (- (Zpos k));
      rewrite (bpow_opp (Zpos k)), (bpow_IZR (Zpos k)) by lia;
      let v := eval vm_compute in (2 ^ Zpos k) in change (2 ^ Zpos k) with v
  end.

Lemma rate_cases t s :
  exists my ey,
    CONVERSION_RATES t s = S754_finite false my ey
    /\ (/ 8 <= F2R (Zpos my) ey <= 5 / 8)%R.
Proof.
  destruct t, s; eexists _, _; (split; [vm_compute; reflexivity|]);
    unfold F2R; bpow_const; lra.
Qed.

Lemma round_mul_bounds p my ey z :
  (/ 8 <= F2R (Zpos my) ey <= 5 / 8)%R ->
  (x <- mul (PyInt (Zpos p)) (PyFloat (S754_finite false my ey)) ;; round x)%py = Ok z ->
  0 <= z <= Zpos p.
Proof.
  intros Hr. unfold mul, to_float.
  destruct (float_of_int_pos p) as [->|(m & e & -> & Hn)]; [discriminate|].
  cbn [bind].
  apply Rabs_le_inv' in Hn. rewrite bpow_m53 in Hn.
  assert (HN : (1 <= IZR (Zpos p))%R) by (apply IZR_le; lia).
  set (N := IZR (Zpos p)) in *. set (Vn := F2R (Zpos m) e) in *.
  set (Rr := F2R (Zpos my) ey) in *.
  assert (HX : (Vn * / 8 <= Vn * Rr <= Vn * (5 / 8))%R).
  { split; apply Rmult_le_compat_l; lra. }
  assert (Hnorm : (bpow (-1022) <= Vn * Rr)%R).
  { pose proof (bpow_le (-1022) (-4) ltac:(lia)) as H.
    replace (bpow (-4)) with (/ 16)%R in H by (bpow_const; reflexivity). lra. }
  destruct (fmul_pos m e my ey Hnorm) as [->|(m' & e' & -> & Hv)]; [discriminate|].
  cbn [round]. destruct (round_float_error false m' e') as (z' & -> & Hz).
  intros [= <-]. cbn [cond_Zopp] in Hz.
  apply Rabs_le_inv' in Hv, Hz. rewrite bpow_m53 in Hv. fold Vn Rr in Hv.
  set (V := F2R (Zpos m') e') in *. set (X := (Vn * Rr)%R) in *.
  split.
  - assert (-1 < z'); [|lia]. apply lt_IZR. lra.
  - assert (z' < Zpos p + 1); [|lia]. apply lt_IZR. rewrite plus_IZR. fold N. lra.
Qed.

(** A stage never passes on more than it received, and never a negative
    count. *)
Lemma convert_bounds n t s z :
  0 <= n -> convert n t s = Ok z -> 0 <= z <= n.
Proof.
  intros Hn. unfold convert.
  destruct (rate_cases t s) as (my & ey & -> & Hr).
  destruct n as [|p|p]; [|apply round_mul_bounds; assumption|lia].
  intros H. vm_compute in H. injection H as <-. lia.
Qed.

Ltac inv_bind H :=
  match type of H with
  | Py.bind ?c _ = Ok _ =>
      let E := fresh "E" in
      destruct c eqn:E; [cbn [Py.bind] in H | discriminate H]
  end.

Lemma count_segment_nonneg s ls : 0 <= count_segment s ls.
Proof. unfold count_segment. lia. Qed.

(** What a successful run of [generate_funnel] went through. *)
Lemma generate_funnel_inv lp target res :
  generate_funnel lp target = Ok res ->
  exists cl qe qm qs oe om os we wm ws,
    categorize_all lp = Ok cl
    /\ convert (count_segment Enterprise cl) Leads_Qualified Enterprise = Ok qe
    /\ convert (count_segment Midmarket cl) Leads_Qualified Midmarket = Ok qm
    /\ convert (count_segment SMB cl) Leads_Qualified SMB = Ok qs
    /\ convert qe Qualified_Opportunity Enterprise = Ok oe
    /\ convert qm Qualified_Opportunity Midmarket = Ok om
    /\ convert qs Qualified_Opportunity SMB = Ok os
    /\ convert oe Opportunity_ClosedWon Enterprise = Ok we
    /\ convert om Opportunity_ClosedWon Midmarket = Ok wm
    /\ convert os Opportunity_ClosedWon SMB = Ok ws
    /\ map (fun row => (n_Enterprise row, n_Midmarket row, n_SMB row))
           (funnel_stages res)
       = [ (count_segment Enterprise cl, count_segment Midmarket cl,
            count_segment SMB cl);
           (qe, qm, qs); (oe, om, os); (we, wm, ws) ]
    /\ (gt target (PyInt 0) = false ->
        Target_Progress (summary res) = Fixed1Pct (PyInt 0)).
Proof.
  unfold generate_funnel. intros H.
  inv_bind H. cbv zeta in H.
  do 3 inv_bind H. inv_bind H. do 3 inv_bind H. inv_bind H. do 3 inv_bind H.
  do 3 inv_bind H.
  injection H as <-. cbn [funnel_stages summary Target_Progress map
    n_Enterprise n_Midmarket n_SMB].
  do 10 eexists. split; [reflexivity|]. repeat (split; [eassumption|]).
  split; [reflexivity|].
  intros Hgt. rewrite Hgt in *. congruence.
Qed.

Lemma rows_of_counts (rows : list StageRow) c0 c1 c2 c3 :
  map (fun row => (n_Enterprise row, n_Midmarket row, n_SMB row)) rows
  = [c0; c1; c2; c3] ->
  exists r0 r1 r2 r3,
    rows = [r0; r1; r2; r3]
    /\ (n_Enterprise r0, n_Midmarket r0, n_SMB r0) = c0
    /\ (n_Enterprise r1, n_Midmarket r1, n_SMB r1) = c1
    /\ (n_Enterprise r2, n_Midmarket r2, n_SMB r2) = c2
    /\ (n_Enterprise r3, n_Midmarket r3, n_SMB r3) = c3.
Proof.
  destruct rows as [|r0 [|r1 [|r2 [|r3 [|r4 rows]]]]]; try discriminate.
  cbn [map]. intros [= <- <- <- <-]. exists r0, r1, r2, r3. repeat split.
Qed.

(** Each stage row after the first is obtained from the row before it by
    [convert], segment by segment. *)
Lemma funnel_stage_step lp target res :
  generate_funnel lp target = Ok res ->
  List.length (funnel_stages res) = 4%nat
  /\ forall i parent child s,
       nth_error (funnel_stages res) i = Some parent ->
       nth_error (funnel_stages res) (S i) = Some child ->
       exists t,
         transition_at i = Some t
         /\ 0 <= segment_count parent s
         /\ convert (segment_count parent s) t s = Ok (segment_count child s).
Proof.
  intros H. apply generate_funnel_inv in H.
  destruct H as (cl & qe & qm & qs & oe & om & os & we & wm & ws & _ &
                 Hqe & Hqm & Hqs & Hoe & Hom & Hos & Hwe & Hwm & Hws & Hrows & _).
  apply rows_of_counts in Hrows.
  destruct Hrows as (r0 & r1 & r2 & r3 & -> & H0 & H1 & H2 & H3).
  injection H0 as E0 M0 S0. injection H1 as E1 M1 S1.
  injection H2 as E2 M2 S2. injection H3 as E3 M3 S3.
  split; [reflexivity|].
  pose proof (count_segment_nonneg Enterprise cl).
  pose proof (count_segment_nonneg Midmarket cl).
  pose proof (count_segment_nonneg SMB cl).
  pose proof (convert_bounds _ _ _ _ (count_segment_nonneg Enterprise cl) Hqe) as Bqe.
  pose proof (convert_bounds _ _ _ _ (count_segment_nonneg Midmarket cl) Hqm) as Bqm.
  pose proof (convert_bounds _ _ _ _ (count_segment_nonneg SMB cl) Hqs) as Bqs.
  pose proof (convert_bounds _ _ _ _ (proj1 Bqe) Hoe).
  pose proof (convert_bounds _ _ _ _ (proj1 Bqm) Hom).
  pose proof (convert_bounds _ _ _ _ (proj1 Bqs) Hos).
  intros i parent child s Hp Hc.
  destruct i as [|[|[|i]]]; cbn in Hp, Hc;
    try (destruct i; discriminate);
    injection Hp as <-; injection Hc as <-;
    (eexists; split; [reflexivity|]);
    destruct s; cbn [segment_count]; (split; [lia|congruence]).
Qed.

(** C1: whenever [generate_funnel] returns, it has four stage rows, and
    for every transition from a row to the next and every segment the
    later count is between zero and the earlier count. *)
Theorem funnel_counts_nonincreasing lp target res :
  generate_funnel lp target = Ok res ->
  List.length (funnel_stages res) = 4%nat
  /\ counts_nonincreasing (funnel_stages res).
Proof.
  intros H. destruct (funnel_stage_step lp target res H) as [Hlen Hstep].
  split; [exact Hlen|].
  intros i parent child s Hp Hc.
  destruct (Hstep i parent child s Hp Hc) as (t & _ & H0 & Hconv).
  exact (convert_bounds _ _ _ _ H0 Hconv).
Qed.

Lemma fin_compare_spec m1 e1 m2 e2 :
  CompareSpec (F2R m1 e1 = F2R m2 e2)
              (F2R m1 e1 < F2R m2 e2)%R
              (F2R m2 e2 < F2R m1 e1)%R
              (fin_compare m1 e1 m2 e2).
Proof.
  unfold fin_compare. set (e := Z.min e1 e2).
  assert (H : forall m x, e <= x -> F2R m x = (IZR (m * 2 ^ (x - e)) * bpow e)%R).
  { intros m x Hx. unfold F2R. rewrite mult_IZR, <- bpow_IZR by lia.
    rewrite Rmult_assoc, <- bpow_add. f_equal. f_equal. lia. }
  rewrite (H m1 e1), (H m2 e2) by (subst e; lia).
  pose proof (bpow_pos e).
  destruct (Z.compare_spec (m1 * 2 ^ (e1 - e)) (m2 * 2 ^ (e2 - e))) as [E|E|E];
    constructor.
  - now rewrite E.
  - apply IZR_lt in E. nra.
  - apply IZR_lt in E. nra.
Qed.

Lemma xle_trans a b c : xle a b -> xle b c -> xle a c.
Proof.
  destruct a, b, c; cbn; try tauto. intros; lra.
Qed.

Lemma le_xle a b : le a b = true <-> xle (value a) (value b).
Proof.
  unfold le, compare.
  destruct (value a) as [|m1 e1| |], (value b) as [|m2 e2| |]; cbn;
    try (split; [discriminate|tauto]); try tauto.
  destruct (fin_compare_spec m1 e1 m2 e2); split;
    try discriminate; try reflexivity; intros; lra.
Qed.

Lemma ge_xle a b : ge a b = true <-> xle (value b) (value a).
Proof.
  unfold ge, compare.
  destruct (value a) as [|m1 e1| |], (value b) as [|m2 e2| |]; cbn;
    try (split; [discriminate|tauto]); try tauto.
  destruct (fin_compare_spec m1 e1 m2 e2); split;
    try discriminate; try reflexivity; intros; lra.
Qed.

(** A threshold that was met stays met when the signal is raised. *)
Lemma ge_raise x y k : le x y = true -> ge x k = true -> ge y k = true.
Proof.
  rewrite le_xle, !ge_xle. intros Hxy Hkx. exact (xle_trans _ _ _ Hkx Hxy).
Qed.

Lemma ge_not_lowered x y k : not_lowered x y -> ge x k = true -> ge y k = true.
Proof. intros [<-|H]; [tauto|now apply ge_raise]. Qed.

Lemma classify_monotone m u a s m' u' a' s' :
  not_lowered m m' -> not_lowered u u' -> not_lowered a a' -> not_lowered s s' ->
  rank (classify m u a s) <= rank (classify m' u' a' s').
Proof.
  intros Hm Hu Ha Hs. unfold classify.
  set (E := ENTERPRISE_CRITERIA). set (M := MIDMARKET_CRITERIA).
  assert (HE : ge m (PyInt (mrr_threshold E)) || ge u (PyInt (user_threshold E))
               || ge a (PyInt (arr_threshold E)) || ge s (PyInt (lead_score_min E)) = true ->
               ge m' (PyInt (mrr_threshold E)) || ge u' (PyInt (user_threshold E))
               || ge a' (PyInt (arr_threshold E)) || ge s' (PyInt (lead_score_min E)) = true).
  { rewrite !orb_true_iff. intuition eauto using ge_not_lowered. }
  assert (HM : ge m (PyInt (mrr_threshold M)) || ge u (PyInt (user_threshold M))
               || ge a (PyInt (arr_threshold M)) || ge s (PyInt (lead_score_min M)) = true ->
               ge m' (PyInt (mrr_threshold M)) || ge u' (PyInt (user_threshold M))
               || ge a' (PyInt (arr_threshold M)) || ge s' (PyInt (lead_score_min M)) = true).
  { rewrite !orb_true_iff. intuition eauto using ge_not_lowered. }
  destruct (ge m (PyInt (mrr_threshold E)) || ge u (PyInt (user_threshold E))
            || ge a (PyInt (arr_threshold E)) || ge s (PyInt (lead_score_min E))).
  - rewrite HE by reflexivity. cbn. lia.
  - destruct (ge m (PyInt (mrr_threshold M)) || ge u (PyInt (user_threshold M))
              || ge a (PyInt (arr_threshold M)) || ge s (PyInt (lead_score_min M))).
    + rewrite HM by reflexivity.
      destruct (ge m' (PyInt (mrr_threshold E)) || ge u' (PyInt (user_threshold E))
                || ge a' (PyInt (arr_threshold E)) || ge s' (PyInt (lead_score_min E)));
        cbn; lia.
    + destruct (classify m' u' a' s') eqn:Ec; unfold classify in Ec; fold E M in Ec;
        rewrite Ec; cbn; lia.
Qed.

Lemma categorize_lead_segment lead partner c :
  categorize_lead lead partner = Ok c ->
  segment_of c = classify (signal_of Mrr lead) (signal_of Users lead)
                          (signal_of Arr lead) (signal_of Score lead).
Proof.
  unfold categorize_lead. intros H. cbv zeta in H.
  do 4 inv_bind H. injection H as <-. reflexivity.
Qed.

(** C2: raising one of the four signals of a lead, the other three kept,
    never moves the segment that [categorize_lead] assigns to a lower
    tier (Enterprise above Midmarket above SMB). *)
Theorem categorize_lead_monotone lead partner sg v c c' :
  le (signal_of sg lead) v = true ->
  categorize_lead lead partner = Ok c ->
  categorize_lead (with_signal sg v lead) partner = Ok c' ->
  rank (segment_of c) <= rank (segment_of c').
Proof.
  intros Hv Hc Hc'.
  rewrite (categorize_lead_segment _ _ _ Hc), (categorize_lead_segment _ _ _ Hc').
  apply classify_monotone; destruct sg; cbn [signal_of with_signal get];
    first [right; exact Hv | left; reflexivity].
Qed.

Lemma nzd_ok {A} (a : A) : no_zero_division (Ok a).
Proof. discriminate. Qed.

Lemma nzd_bind {A B} (c : result A) (k : A -> result B) :
  no_zero_division c -> (forall a, no_zero_division (k a)) ->
  no_zero_division (Py.bind c k).
Proof.
  destruct c as [a|e]; cbn; intros Hc Hk; [apply Hk|].
  intros [= ->]. now apply Hc.
Qed.

Lemma nzd_float_of_int n : no_zero_division (float_of_int n).
Proof. unfold float_of_int. destruct binary_normalize; discriminate. Qed.

Lemma nzd_to_float x : no_zero_division (to_float x).
Proof. destruct x; [apply nzd_float_of_int|discriminate]. Qed.

Lemma nzd_to_int x : no_zero_division (to_int x).
Proof. destruct x as [z|[]]; discriminate. Qed.

Lemma nzd_round x : no_zero_division (round x).
Proof. destruct x as [z|[]]; discriminate. Qed.

Lemma nzd_mul a b : no_zero_division (mul a b).
Proof.
  destruct a, b; cbn [mul]; try discriminate;
    repeat (apply nzd_bind; [apply nzd_to_float|intros]); discriminate.
Qed.

Lemma nzd_sub a b : no_zero_division (sub a b).
Proof.
  destruct a, b; cbn [sub]; try discriminate;
    repeat (apply nzd_bind; [apply nzd_to_float|intros]); discriminate.
Qed.

(** Division raises [ZeroDivisionError] only on a zero divisor. *)
Lemma nzd_truediv a b : is_zero b = false -> no_zero_division (truediv a b).
Proof.
  intros Hb. unfold truediv. rewrite Hb.
  destruct a as [x|fa], b as [y|fb];
    try (repeat (apply nzd_bind; [apply nzd_to_float|intros]); discriminate).
  destruct x; [discriminate| |]; destruct fdiv; discriminate.
Qed.

Lemma gt_zero_nonzero x : gt x (PyInt 0) = true -> is_zero x = false.
Proof.
  destruct x as [z|[s|s| |s m e]]; cbn; try reflexivity; try discriminate.
  unfold gt, compare; cbn. unfold fin_compare; cbn.
  destruct (Z.eqb_spec z 0) as [->|]; [discriminate|reflexivity].
Qed.

Lemma nzd_categorize_lead lead partner :
  no_zero_division (categorize_lead lead partner).
Proof.
  unfold categorize_lead; cbv zeta.
  repeat (apply nzd_bind; [first [apply nzd_to_float|apply nzd_to_int]|intros]).
  discriminate.
Qed.

Lemma nzd_categorize_partner partner leads :
  no_zero_division (categorize_partner partner leads).
Proof.
  induction leads as [|l leads IH]; cbn; [discriminate|].
  apply nzd_bind; [apply nzd_categorize_lead|intros].
  apply nzd_bind; [exact IH|intros]. discriminate.
Qed.

Lemma nzd_categorize_all lp : no_zero_division (categorize_all lp).
Proof.
  induction lp as [|[partner leads] lp IH]; cbn; [discriminate|].
  apply nzd_bind; [apply nzd_categorize_partner|intros].
  apply nzd_bind; [exact IH|intros]. discriminate.
Qed.

Lemma nzd_convert n t s : no_zero_division (convert n t s).
Proof. unfold convert. apply nzd_bind; [apply nzd_mul|intros; apply nzd_round]. Qed.

Lemma nzd_ratio_or_zero a b : no_zero_division (ratio_or_zero a b).
Proof.
  unfold ratio_or_zero. destruct (Z.ltb_spec 0 b); [|discriminate].
  apply nzd_truediv. cbn. apply Z.eqb_neq. lia.
Qed.

Lemma nzd_generate_funnel lp target :
  no_zero_division (generate_funnel lp target).
Proof.
  unfold generate_funnel; cbv zeta.
  apply nzd_bind; [apply nzd_categorize_all|intros].
  repeat (apply nzd_bind;
          [first [apply nzd_convert|apply nzd_ratio_or_zero|apply nzd_sub|idtac]
          |intros]); try discriminate.
  destruct (gt target (PyInt 0)) eqn:Hgt; [|discriminate].
  apply nzd_bind; [apply nzd_truediv, gt_zero_nonzero, Hgt|intros; apply nzd_mul].
Qed.

Lemma zero_not_gt x : is_zero x = true -> gt x (PyInt 0) = false.
Proof.
  intros Hz. destruct (gt x (PyInt 0)) eqn:Hgt; [|reflexivity].
  apply gt_zero_nonzero in Hgt. congruence.
Qed.

(** C4: [generate_funnel] never raises [ZeroDivisionError], and with a
    target equal to zero the target progress it reports is 0. *)
Theorem target_progress_guarded lp target :
  generate_funnel lp target <> Raise ZeroDivisionError
  /\ (is_zero target = true ->
      forall res, generate_funnel lp target = Ok res ->
                  Target_Progress (summary res) = Fixed1Pct (PyInt 0)).
Proof.
  split; [apply nzd_generate_funnel|].
  intros Hz res H. apply generate_funnel_inv in H.
  destruct H as (cl & qe & qm & qs & oe & om & os & we & wm & ws & H).
  apply H, zero_not_gt, Hz.
Qed.

Lemma round_half_even_div_scale a b c :
  0 < b -> 0 < c ->
  round_half_even_div (a * c) (b * c) = round_half_even_div a b.
Proof.
  intros Hb Hc. unfold round_half_even_div.
  rewrite Z.div_mul_cancel_r, Z.mul_mod_distr_r by lia.
  replace (2 * (a mod b * c) ?= b * c) with (2 * (a mod b) ?= b); [reflexivity|].
  rewrite Z.mul_assoc. apply Zmult_compare_compat_r. lia.
Qed.

Lemma round_half_even_div_1 a : round_half_even_div a 1 = a.
Proof.
  unfold round_half_even_div. rewrite Z.div_1_r, Z.mod_1_r. reflexivity.
Qed.

(** The result depends only on the quotient as a rational number. *)
Lemma round_half_even_div_cross a b a' b' :
  0 < b -> 0 < b' -> a * b' = a' * b ->
  round_half_even_div a b = round_half_even_div a' b'.
Proof.
  intros Hb Hb' E.
  rewrite <- (round_half_even_div_scale a b b'), E by assumption.
  rewrite (Z.mul_comm b b'). apply round_half_even_div_scale; assumption.
Qed.

(** [round] of a float whose value is [a / b]. *)
Lemma round_float_value s m e a b :
  0 < b ->
  (F2R (cond_Zopp s (Zpos m)) e * IZR b = IZR a)%R ->
  round_float (S754_finite s m e) = Ok (round_half_even_div a b).
Proof.
  intros Hb Hv. unfold round_float. set (sm := cond_Zopp s (Zpos m)) in *.
  f_equal. unfold F2R in Hv. destruct (Z.leb_spec 0 e) as [He|He].
  - rewrite bpow_IZR, <- !mult_IZR in Hv by assumption. apply eq_IZR in Hv.
    rewrite <- (round_half_even_div_1 (sm * 2 ^ e)).
    apply round_half_even_div_cross; lia.
  - assert (H2k : 0 < 2 ^ (- e)) by (apply Z.pow_pos_nonneg; lia).
    apply round_half_even_div_cross; try assumption.
    apply eq_IZR. rewrite !mult_IZR, <- Hv, <- (bpow_IZR (- e)) by lia.
    rewrite bpow_opp. field. pose proof (bpow_pos e). lra.
Qed.

(** A float exactly half-way between two ints rounds to the even one. *)
Lemma round_float_tie s m e k :
  F2R (cond_Zopp s (Zpos m)) e = (IZR k + / 2)%R ->
  round_float (S754_finite s m e) = Ok (if Z.even k then k else k + 1).
Proof.
  intros Hv.
  rewrite (round_float_value s m e (2 * k + 1) 2)
    by (try lia; rewrite Hv, plus_IZR, mult_IZR; lra).
  f_equal. unfold round_half_even_div.
  replace ((2 * k + 1) / 2) with k by (apply Z.div_unique with 1; lia).
  replace ((2 * k + 1) mod 2) with 1 by (apply Z.mod_unique with k; lia).
  reflexivity.
Qed.

Lemma round_error x z :
  round (PyFloat x) = Ok z -> (Rabs (IZR z - FR x) <= / 2)%R.
Proof.
  destruct x as [s|s| |s m e]; cbn [round round_float FR]; try discriminate.
  - intros [= <-]. replace (0 - 0)%R with 0%R by ring. rewrite Rabs_R0. lra.
  - intros H. destruct (round_float_error s m e) as (z' & Hz & Herr).
    cbn [round_float] in Hz. rewrite Hz in H. injection H as <-. exact Herr.
Qed.

Lemma mul_int_float n r y :
  mul (PyInt n) (PyFloat r) = Ok y -> exists x, y = PyFloat x.
Proof.
  cbn [mul to_float]. destruct (float_of_int n); cbn; [|discriminate].
  intros [= <-]. eexists; reflexivity.
Qed.

Lemma convert_inv n t s z :
  convert n t s = Ok z ->
  exists x, mul (PyInt n) (PyFloat (CONVERSION_RATES t s)) = Ok (PyFloat x)
            /\ round (PyFloat x) = Ok z
            /\ (Rabs (IZR z - FR x) <= / 2)%R.
Proof.
  unfold convert. intros H.
  destruct (mul (PyInt n) (PyFloat (CONVERSION_RATES t s))) as [y|] eqn:E;
    [|discriminate].
  destruct (mul_int_float _ _ _ E) as [x ->]. cbn [Py.bind] in H.
  exists x. repeat split; [assumption|]. now apply round_error.
Qed.

Lemma round_half_even_div_exact a b :
  0 < b -> round_half_even_div (a * b) b = a.
Proof.
  intros Hb. replace b with (1 * b) at 2 by lia.
  rewrite round_half_even_div_scale by lia. apply round_half_even_div_1.
Qed.

(** The nearest integer is the only one closer than one half. *)
Lemma round_half_even_div_near a b t :
  0 < b -> 2 * Z.abs (t * b - a) < b -> round_half_even_div a b = t.
Proof.
  intros Hb Ht. unfold round_half_even_div.
  pose proof (Z.mod_pos_bound a b Hb).
  pose proof (Z.div_mod a b ltac:(lia)).
  destruct (Z.compare_spec (2 * (a mod b)) b);
    [destruct (Z.even (a / b))|..]; nia.
Qed.

(** Value of a rounded mantissa that had to be shifted, in the normal
    range. *)
Lemma round_pos_shift p e :
  let d := Zdigits2 (Zpos p) in
  -1074 <= d + e - 53 -> 53 < d ->
  F2R (fst (round_pos (Zpos p) e)) (snd (round_pos (Zpos p) e))
  = F2R (round_half_even_div (Zpos p) (2 ^ (d - 53))) (d + e - 53)
  /\ 0 < fst (round_pos (Zpos p) e)
  /\ snd (round_pos (Zpos p) e) <= d + e - 52.
Proof.
  intros d Hn Hd.
  pose proof (Zdigits2_bounds p) as [Hdlo Hdhi]. fold d in Hdlo, Hdhi.
  unfold round_pos. fold d. rewrite fexp_eq.
  replace (Z.max (d + e - 53) (-1074)) with (d + e - 53) by lia.
  destruct (Z.leb_spec (d + e - 53) e) as [Hle|Hlt]; [lia|].
  replace (d + e - 53 - e) with (d - 53) by lia.
  set (k := d - 53). set (m1 := round_half_even_div (Zpos p) (2 ^ k)).
  assert (H2k : 0 < 2 ^ k) by (apply Z.pow_pos_nonneg; lia).
  pose proof (round_half_even_div_bounds (Zpos p) (2 ^ k) H2k) as Hb. fold m1 in Hb.
  assert (Hq : 2 ^ 52 <= Zpos p / 2 ^ k).
  { apply Z.div_le_lower_bound; [assumption|].
    rewrite Z.mul_comm, <- Z.pow_add_r by lia.
    replace (52 + k) with (d - 1) by lia. assumption. }
  destruct (Z.eqb_spec m1 (2 ^ prec)) as [E|E]; cbn [fst snd].
  - split; [|split; [reflexivity|lia]].
    rewrite E. unfold F2R. replace (d + e - 53 + 1) with (1 + (d + e - 53)) by lia.
    rewrite bpow_add, bpow_1.
    change (2 ^ (prec - 1)) with 4503599627370496.
    change (2 ^ prec) with 9007199254740992. lra.
  - split; [reflexivity|split; lia].
Qed.

Lemma fmul_value mx ex my ey :
  let m := Zpos (mx * my) in
  let d := Zdigits2 m in
  -1074 <= d + (ex + ey) - 53 -> 53 < d -> d + (ex + ey) - 52 <= 971 ->
  exists m' e',
    fmul (S754_finite false mx ex) (S754_finite false my ey)
    = S754_finite false m' e'
    /\ F2R (Zpos m') e'
       = F2R (round_half_even_div m (2 ^ (d - 53))) (d + (ex + ey) - 53).
Proof.
  intros m d Hn Hd Hmax. unfold fmul, SFmul. cbn [xorb].
  rewrite binary_round_aux_pos.
  destruct (round_pos_shift (mx * my) (ex + ey) Hn Hd) as (Hv & Hpos & Hexp).
  unfold pack. subst m d.
  destruct (round_pos (Zpos (mx * my)) (ex + ey)) as [m' e']. cbn [fst snd] in *.
  destruct m' as [|q|q]; try lia.
  replace (e' <=? emax - prec) with true
    by (symmetry; apply Z.leb_le; change (emax - prec) with 971; lia).
  exists q, e'. split; [reflexivity|exact Hv].
Qed.

(** An int below [2^53] converts to float exactly, with a full mantissa. *)
Lemma float_of_int_exact p :
  Zpos p < 2 ^ 53 ->
  exists j,
    0 <= j <= 52
    /\ 2 ^ 52 <= Zpos p * 2 ^ j < 2 ^ 53
    /\ float_of_int (Zpos p)
       = Ok (S754_finite false (Z.to_pos (Zpos p * 2 ^ j)) (- j)).
Proof.
  intros Hp.
  pose proof (Zdigits2_bounds p) as [Hlo Hhi].
  pose proof (Zdigits2_pos p) as Hd0.
  set (d := Zdigits2 (Zpos p)) in *.
  assert (Hd : d <= 53).
  { destruct (Z_le_gt_dec d 53) as [|Hgt]; [assumption|].
    assert (2 ^ 53 <= 2 ^ (d - 1)) by (apply Z.pow_le_mono_r; lia). lia. }
  exists (53 - d).
  assert (Hrange : 2 ^ 52 <= Zpos p * 2 ^ (53 - d) < 2 ^ 53).
  { assert (E1 : 2 ^ 52 = 2 ^ (d - 1) * 2 ^ (53 - d))
      by (rewrite <- Z.pow_add_r by lia; f_equal; lia).
    assert (E2 : 2 ^ 53 = 2 ^ d * 2 ^ (53 - d))
      by (rewrite <- Z.pow_add_r by lia; f_equal; lia).
    assert (0 < 2 ^ (53 - d)) by (apply Z.pow_pos_nonneg; lia).
    rewrite E1, E2.
    split; [apply Z.mul_le_mono_nonneg_r|apply Z.mul_lt_mono_pos_r]; lia. }
  split; [lia|]. split; [exact Hrange|].
  unfold float_of_int, binary_normalize, binary_round.
  change (Zpos (digits2_pos p)) with d. rewrite Z.add_0_r, fexp_eq.
  replace (Z.max (d - 53) (-1074)) with (d - 53) by lia.
  assert (Hal : shl_align p 0 (d - 53)
                = (Z.to_pos (Zpos p * 2 ^ (53 - d)), - (53 - d))).
  { unfold shl_align. rewrite Z.sub_0_r.
    destruct (d - 53) as [|q|q] eqn:E; try lia.
    - replace (53 - d) with 0 by lia. cbn. f_equal. lia.
    - f_equal; [|lia].
      apply Pos2Z.inj. rewrite Pos_iter_xO, Z2Pos.id by lia.
      f_equal. f_equal. lia. }
  rewrite Hal, binary_round_aux_pos.
  set (mz := Z.to_pos (Zpos p * 2 ^ (53 - d))).
  assert (Hmz : Zpos mz = Zpos p * 2 ^ (53 - d)) by (subst mz; apply Z2Pos.id; lia).
  assert (Hdz : Zdigits2 (Zpos mz) = 53)
    by (apply Zdigits2_unique; rewrite Hmz; exact Hrange).
  unfold round_pos. rewrite Hdz, fexp_eq.
  replace (Z.max (53 + - (53 - d) - 53) (-1074) <=? - (53 - d)) with true
    by (symmetry; apply Z.leb_le; lia).
  unfold pack. cbn [fst snd].
  replace (- (53 - d) <=? emax - prec) with true
    by (symmetry; apply Z.leb_le; change (emax - prec) with 971; lia).
  reflexivity.
Qed.

Lemma digits_of_product mx my :
  2 ^ 52 <= Zpos mx < 2 ^ 53 -> 2 ^ 52 <= Zpos my < 2 ^ 53 ->
  105 <= Zdigits2 (Zpos (mx * my)) <= 106.
Proof.
  intros Hx Hy. pose proof (Zdigits2_bounds (mx * my)) as [Hlo Hhi].
  set (d := Zdigits2 (Zpos (mx * my))) in *.
  rewrite Pos2Z.inj_mul in Hlo, Hhi.
  assert (H104 : 2 ^ 104 <= Zpos mx * Zpos my).
  { change (2 ^ 104) with (2 ^ 52 * 2 ^ 52). apply Z.mul_le_mono_nonneg; lia. }
  assert (H106 : Zpos mx * Zpos my < 2 ^ 106).
  { change (2 ^ 106) with (2 ^ 53 * 2 ^ 53). apply Z.mul_lt_mono_nonneg; lia. }
  split.
  - destruct (Z_le_gt_dec 105 d) as [|Hgt]; [assumption|].
    assert (2 ^ d <= 2 ^ 104) by (apply Z.pow_le_mono_r; lia). lia.
  - destruct (Z_le_gt_dec d 106) as [|Hgt]; [assumption|].
    assert (2 ^ 106 <= 2 ^ (d - 1)) by (apply Z.pow_le_mono_r; lia). lia.
Qed.

(** The product of an int below [2^53] and a rate is a finite float:
    the exact product [n * my * 2^ey] with its mantissa rounded to 53
    bits. *)
Lemma mul_rate_value p my ey :
  Zpos p < 2 ^ 53 ->
  2 ^ 52 <= Zpos my < 2 ^ 53 -> -55 <= ey <= -53 ->
  exists j k m' e',
    0 <= j <= 52 /\ 52 <= k <= 53
    /\ 2 ^ 52 <= Zpos p * 2 ^ j < 2 ^ 53
    /\ mul (PyInt (Zpos p)) (PyFloat (S754_finite false my ey))
       = Ok (PyFloat (S754_finite false m' e'))
    /\ F2R (Zpos m') e'
       = F2R (round_half_even_div (Zpos p * 2 ^ j * Zpos my) (2 ^ k))
             (k + (- j + ey))
    /\ 2 ^ (k + 52) <= Zpos p * 2 ^ j * Zpos my < 2 ^ (k + 53).
Proof.
  intros Hp Hmy Hey.
  destruct (float_of_int_exact p Hp) as (j & Hj & Hmx & Hconv).
  set (mx := Z.to_pos (Zpos p * 2 ^ j)) in *.
  assert (Emx : Zpos mx = Zpos p * 2 ^ j) by (subst mx; apply Z2Pos.id; lia).
  pose proof (digits_of_product mx my ltac:(rewrite Emx; exact Hmx) Hmy) as Hd.
  pose proof (Zdigits2_bounds (mx * my)) as Hb.
  destruct (fmul_value mx (- j) my ey) as (m' & e' & Hmul & Hv); try lia.
  set (d := Zdigits2 (Zpos (mx * my))) in *.
  exists j, (d - 53), m', e'.
  rewrite Pos2Z.inj_mul, Emx in Hv, Hb.
  repeat split; try lia.
  - cbn [mul to_float]. rewrite Hconv. cbn [Py.bind]. now rewrite Hmul.
  - rewrite Hv. f_equal. lia.
  - replace (d - 53 + 52) with (d - 1) by lia. apply Hb.
  - replace (d - 53 + 53) with d by lia. apply Hb.
Qed.

Lemma F2R_scale m j e : 0 <= j -> F2R (m * 2 ^ j) (e - j) = F2R m e.
Proof.
  intros Hj. unfold F2R. rewrite mult_IZR, <- bpow_IZR by assumption.
  rewrite Rmult_assoc, <- bpow_add. f_equal. f_equal. lia.
Qed.

(** A rate that is a power of two: the product is exact. *)
Lemma round_mul_exact_pow2 p ey pct :
  Zpos p < 2 ^ 53 -> -55 <= ey <= -53 ->
  (F2R (2 ^ 52) ey * 100 = IZR pct)%R ->
  (x <- mul (PyInt (Zpos p)) (PyFloat (S754_finite false (Z.to_pos (2 ^ 52)) ey)) ;;
   round x)%py
  = Ok (round_half_even_div (Zpos p * pct) 100).
Proof.
  intros Hp Hey Hpct.
  destruct (mul_rate_value p (Z.to_pos (2 ^ 52)) ey Hp ltac:(cbn; lia) Hey)
    as (j & k & m' & e' & Hj & Hk & Hmx & -> & Hv & Hm).
  cbn [Py.bind round].
  change (Zpos (Z.to_pos (2 ^ 52))) with (2 ^ 52) in *.
  assert (k = 52).
  { destruct (Z.eq_dec k 52) as [|]; [assumption|]. assert (k = 53) by lia. subst k.
    change (2 ^ (53 + 52)) with (2 ^ 53 * 2 ^ 52) in Hm. nia. }
  subst k. rewrite round_half_even_div_exact in Hv by lia.
  apply (round_float_value false m' e'); [lia|].
  cbn [cond_Zopp]. rewrite Hv.
  replace (52 + (- j + ey)) with ((52 + ey) - j) by lia.
  rewrite F2R_scale by lia. rewrite mult_IZR, <- Hpct.
  unfold F2R. rewrite bpow_add, <- (bpow_IZR 52) by lia. ring.
Qed.

(** Away from a tie, the two roundings of the float product cannot move
    the result off the nearest integer of the exact product. *)
Lemma round_mul_exact_away p my ey pct :
  Zpos p < 2 ^ 45 ->
  2 ^ 52 <= Zpos my < 2 ^ 53 -> -55 <= ey <= -53 ->
  0 <= pct <= 100 ->
  (Rabs (F2R (Zpos my) ey - IZR pct / 100) <= / 18014398509481984)%R ->
  2 * ((Zpos p * pct) mod 100) <> 100 ->
  (x <- mul (PyInt (Zpos p)) (PyFloat (S754_finite false my ey)) ;; round x)%py
  = Ok (round_half_even_div (Zpos p * pct) 100).
Proof.
  intros Hp Hmy Hey Hpct Hrate Htie.
  destruct (mul_rate_value p my ey ltac:(lia) Hmy Hey)
    as (j & k & m' & e' & Hj & Hk & Hmx & -> & Hv & Hm).
  cbn [Py.bind round].
  destruct (round_float_error false m' e') as (z & -> & Hz). f_equal.
  cbn [cond_Zopp] in Hz. rewrite Hv in Hz. clear Hv.
  set (m := Zpos p * 2 ^ j * Zpos my) in *.
  set (m1 := round_half_even_div m (2 ^ k)) in *.
  set (A := Zpos p * pct).
  set (zs := round_half_even_div A 100).
  (* the float product against the exact one *)
  assert (H2k : 0 < 2 ^ k) by (apply Z.pow_pos_nonneg; lia).
  pose proof (round_half_even_div_error m (2 ^ k) H2k) as Hm1. fold m1 in Hm1.
  assert (HX : F2R m (- j + ey) = (IZR (Zpos p) * F2R (Zpos my) ey)%R).
  { subst m. rewrite F2R_mul.
    replace (- j) with (0 - j) by lia. rewrite F2R_scale, F2R_int by lia.
    reflexivity. }
  assert (HV : (Rabs (F2R m1 (k + (- j + ey)) - F2R m (- j + ey))
                <= F2R m (- j + ey) * / 9007199254740992)%R).
  { unfold F2R. rewrite bpow_add, (bpow_IZR k) by lia.
    replace (IZR m1 * (IZR (2 ^ k) * bpow (- j + ey)) - IZR m * bpow (- j + ey))%R
      with (IZR (m1 * 2 ^ k - m) * bpow (- j + ey))%R
      by (rewrite minus_IZR, mult_IZR; ring).
    rewrite Rabs_mult, (Rabs_pos_eq (bpow _)) by (left; apply bpow_pos).
    rewrite <- abs_IZR.
    destruct Hm as [Hm _]. rewrite Z.pow_add_r in Hm by lia.
    apply IZR_le in Hm1, Hm. rewrite mult_IZR in Hm1, Hm.
    change (IZR (2 ^ 52)) with 4503599627370496%R in Hm.
    pose proof (bpow_pos (- j + ey)).
    set (a := IZR (Z.abs (m1 * 2 ^ k - m))) in *.
    set (B := IZR (2 ^ k)) in *.
    assert (a <= IZR m / 9007199254740992)%R by lra.
    unfold Rdiv in *. nra. }
  rewrite HX in HV.
  (* the exact product against its nearest integer *)
  pose proof (Z.mod_pos_bound A 100 ltac:(lia)) as Hmod.
  pose proof (Z.div_mod A 100 ltac:(lia)) as Hdiv.
  assert (Hzs : Z.abs (zs * 100 - A) <= 49).
  { subst zs. unfold round_half_even_div.
    destruct (Z.compare_spec (2 * (A mod 100)) 100) as [E|E|E];
      [subst A; contradiction|lia|lia]. }
  apply IZR_le in Hzs. rewrite abs_IZR, minus_IZR, mult_IZR in Hzs.
  subst A. rewrite mult_IZR in Hzs.
  (* both are within less than one of each other *)
  apply Rabs_le_inv' in Hz, HV, Hrate, Hzs.
  assert (HN : (1 <= IZR (Zpos p) < 35184372088832)%R).
  { split; [apply IZR_le; lia|]. apply IZR_lt in Hp. exact Hp. }
  assert (Hpc : (0 <= IZR pct <= 100)%R) by (split; apply IZR_le; lia).
  set (N := IZR (Zpos p)) in *. set (Rr := F2R (Zpos my) ey) in *.
  set (V := F2R m1 (k + (- j + ey))) in *. set (P := IZR pct) in *.
  assert (HND : (- (N * / 18014398509481984) <= N * (Rr - P / 100)
                 <= N * / 18014398509481984)%R).
  { assert (N * - / 18014398509481984 <= N * (Rr - P / 100))%R
      by (apply Rmult_le_compat_l; lra).
    assert (N * (Rr - P / 100) <= N * / 18014398509481984)%R
      by (apply Rmult_le_compat_l; lra).
    lra. }
  assert (HNR : (0 <= N * Rr <= 2 * N)%R).
  { assert (0 <= Rr)%R.
    { subst Rr. unfold F2R. apply Rmult_le_pos;
        [apply IZR_le; lia|left; apply bpow_pos]. }
    assert (Rr <= 2)%R by (unfold Rdiv in *; lra).
    split; [apply Rmult_le_pos; lra|].
    rewrite (Rmult_comm 2 N). apply Rmult_le_compat_l; lra. }
  assert (HNP : (N * (Rr - P / 100) = N * Rr - N * P / 100)%R) by (field).
  assert (-1 < z - zs < 1); [|lia].
  split; apply lt_IZR; rewrite minus_IZR; lra.
Qed.

(** The one rate with ties that is not a power of two: [0.30] is stored
    slightly low, and the float product still lands on the tie. *)
Lemma round_mul_exact_tie30 p :
  Zpos p < 2 ^ 53 ->
  (Zpos p * 30) mod 100 = 50 ->
  (x <- mul (PyInt (Zpos p))
            (PyFloat (S754_finite false 5404319552844595 (-54))) ;;
   round x)%py
  = Ok (round_half_even_div (Zpos p * 30) 100).
Proof.
  intros Hp Htie.
  destruct (mul_rate_value p 5404319552844595 (-54) Hp ltac:(cbn; lia) ltac:(lia))
    as (j & k & m' & e' & Hj & Hk & Hmx & -> & Hv & Hm).
  cbn [Py.bind round].
  (* n = 10 q + 5 *)
  pose proof (Z.div_mod (Zpos p * 30) 100 ltac:(lia)) as Hdiv. rewrite Htie in Hdiv.
  set (c := (Zpos p * 30) / 100) in *.
  assert (Hq : exists q, Zpos p = 10 * q + 5 /\ 0 <= q).
  { exists ((c - 1) / 3).
    assert (c = 3 * ((c - 1) / 3) + 1); [|lia].
    pose proof (Z.div_mod (c - 1) 3 ltac:(lia)).
    pose proof (Z.mod_pos_bound (c - 1) 3 ltac:(lia)).
    assert ((c - 1) mod 3 = 0); [|lia].
    assert (H3 : (3 * Zpos p) mod 3 = 0) by (rewrite Z.mul_comm; apply Z.mod_mul; lia).
    lia. }
  destruct Hq as (q & Hn & Hq0).
  set (T := 3 * (2 * q + 1) * 2 ^ (j + 53 - k)).
  assert (H2j : 0 < 2 ^ j) by (apply Z.pow_pos_nonneg; lia).
  assert (H2k : 0 < 2 ^ k) by (apply Z.pow_pos_nonneg; lia).
  assert (Hpow : 2 ^ (j + 53 - k) * 2 ^ k = 2 ^ j * 2 ^ 53).
  { rewrite <- !Z.pow_add_r by lia. f_equal. lia. }
  assert (Hk52 : 2 ^ 52 <= 2 ^ k) by (apply Z.pow_le_mono_r; lia).
  assert (HT : round_half_even_div (Zpos p * 2 ^ j * 5404319552844595) (2 ^ k) = T).
  { apply round_half_even_div_near; [assumption|].
    assert (E : T * 2 ^ k - Zpos p * 2 ^ j * 5404319552844595 = (2 * q + 1) * 2 ^ j).
    { subst T. rewrite <- Z.mul_assoc, Hpow, Hn.
      change (2 ^ 53) with 9007199254740992. ring. }
    rewrite E. rewrite Z.abs_eq by (apply Z.mul_nonneg_nonneg; lia).
    assert (H5 : 5 * ((2 * q + 1) * 2 ^ j) < 2 ^ 53) by (rewrite Hn in Hmx; lia).
    clear - H5 Hk52.
    change (2 ^ 53) with 9007199254740992 in *.
    change (2 ^ 52) with 4503599627370496 in *. lia. }
  rewrite HT in Hv.
  apply (round_float_value false m' e'); [lia|].
  cbn [cond_Zopp]. rewrite Hv. subst T.
  unfold F2R. rewrite !mult_IZR, <- (bpow_IZR (j + 53 - k)) by lia.
  assert (Hb : (bpow (j + 53 - k) * bpow (k + (- j + -54)) = / 2)%R).
  { rewrite <- bpow_add.
    replace (j + 53 - k + (k + (- j + -54))) with (- (1)) by lia.
    now rewrite bpow_opp, bpow_1. }
  rewrite !Rmult_assoc, <- (Rmult_assoc (bpow _) (bpow _)), Hb.
  rewrite Hn, !plus_IZR, !mult_IZR. field.
Qed.

Lemma convert_zero t s : convert 0 t s = Ok 0.
Proof. destruct t, s; vm_compute; reflexivity. Qed.

Ltac rate_facts :=
  first [ lia
        | cbn; lia
        | unfold F2R; bpow_const; apply Rabs_le; lra
        | Z.div_mod_to_equations; lia ].

(** For fewer than [2^45] leads the float computation is the exact one. *)
Lemma convert_exact n t s :
  0 <= n < 2 ^ 45 -> convert n t s = Ok (exact_round n t s).
Proof.
  intros [Hn0 Hn]. destruct n as [|p|p]; [|clear Hn0|lia].
  { rewrite convert_zero. unfold exact_round. reflexivity. }
  unfold convert, exact_round.
  destruct t, s; cbn [percent];
    match goal with
    | |- context [CONVERSION_RATES ?t ?s] =>
        let v := eval vm_compute in (CONVERSION_RATES t s) in
        change (CONVERSION_RATES t s) with v
    end.
  - apply round_mul_exact_away; rate_facts.
  - destruct (Z.eq_dec ((Zpos p * 30) mod 100) 50) as [E|E].
    + apply round_mul_exact_tie30; [lia|exact E].
    + apply round_mul_exact_away; rate_facts.
  - apply round_mul_exact_away; rate_facts.
  - apply round_mul_exact_away; rate_facts.
  - apply (round_mul_exact_pow2 p (-53) 50); [lia|lia|].
    unfold F2R; bpow_const; change (2 ^ 52) with 4503599627370496; lra.
  - apply round_mul_exact_away; rate_facts.
  - destruct (Z.eq_dec ((Zpos p * 30) mod 100) 50) as [E|E].
    + apply round_mul_exact_tie30; [lia|exact E].
    + apply round_mul_exact_away; rate_facts.
  - apply (round_mul_exact_pow2 p (-54) 25); [lia|lia|].
    unfold F2R; bpow_const; change (2 ^ 52) with 4503599627370496; lra.
  - apply round_mul_exact_away; rate_facts.
Qed.

(** C3: every stage count after the first is Python's
    [round(previous count * rate)]: the float product is formed, and the
    count is an integer within one half of it (so never the truncation of
    a product whose fraction is above one half); for fewer than [2^45]
    leads it is the exact product of the count and the decimal rate,
    rounded to the nearest integer. *)
Theorem stage_counts_are_rounded_products lp target res :
  generate_funnel lp target = Ok res ->
  forall i parent child s,
    nth_error (funnel_stages res) i = Some parent ->
    nth_error (funnel_stages res) (S i) = Some child ->
    exists t x,
      transition_at i = Some t
      /\ mul (PyInt (segment_count parent s)) (PyFloat (CONVERSION_RATES t s))
         = Ok (PyFloat x)
      /\ round (PyFloat x) = Ok (segment_count child s)
      /\ (Rabs (IZR (segment_count child s) - FR x) <= / 2)%R
      /\ (segment_count parent s < 2 ^ 45 ->
          segment_count child s = exact_round (segment_count parent s) t s).
Proof.
  intros H i parent child s Hp Hc.
  destruct (funnel_stage_step lp target res H) as [_ Hstep].
  destruct (Hstep i parent child s Hp Hc) as (t & Ht & H0 & Hconv).
  destruct (convert_inv _ _ _ _ Hconv) as (x & Hmul & Hround & Herr).
  exists t, x. repeat (split; [assumption|]).
  intros Hlt. rewrite convert_exact in Hconv by lia. congruence.
Qed.

Lemma stage_counts_are_rounded_products_witness :
  exists res parent child t x,
    generate_funnel sample_leads (PyInt 20000) = Ok res
    /\ nth_error (funnel_stages res) 0 = Some parent
    /\ nth_error (funnel_stages res) 1 = Some child
    /\ transition_at 0 = Some t
    /\ mul (PyInt (segment_count parent Midmarket))
           (PyFloat (CONVERSION_RATES t Midmarket)) = Ok (PyFloat x)
    /\ round (PyFloat x) = Ok (segment_count child Midmarket)
    /\ (Rabs (IZR (segment_count child Midmarket) - FR x) <= / 2)%R
    /\ (segment_count parent Midmarket < 2 ^ 45 ->
        segment_count child Midmarket
        = exact_round (segment_count parent Midmarket) t Midmarket).
Proof.
  destruct (generate_funnel sample_leads (PyInt 20000)) as [res|e] eqn:E;
    [|vm_compute in E; discriminate E].
  destruct (funnel_stage_step _ _ _ E) as [Hlen _].
  destruct (funnel_stages res) as [|parent [|child rows]] eqn:Hrows;
    try discriminate Hlen.
  assert (Hp : nth_error (funnel_stages res) 0 = Some parent)
    by (rewrite Hrows; reflexivity).
  assert (Hc : nth_error (funnel_stages res) 1 = Some child)
    by (rewrite Hrows; reflexivity).
  destruct (stage_counts_are_rounded_products
              sample_leads (PyInt 20000) res E 0%nat parent child Midmarket Hp Hc)
    as (t & x & Ht & Hmul & Hround & Herr & Hexact).
  exists res, parent, child, t, x. rewrite Hrows in *. repeat split; assumption.
Defined.

(** C10: the rounding of the stage counts is Python's built-in [round],
    ties to even: a product that lands exactly on [k + 1/2] gives [k]
    when [k] is even and [k + 1] when it is odd; one qualified Midmarket
    lead gives [round(1 * 0.50) = 0] opportunities, and this happens on
    an input of [generate_funnel]. *)
Theorem round_is_half_even :
  (forall n t s x k,
      mul (PyInt n) (PyFloat (CONVERSION_RATES t s)) = Ok (PyFloat x) ->
      FR x = (IZR k + / 2)%R ->
      convert n t s = Ok (if Z.even k then k else k + 1))
  /\ convert 1 Qualified_Opportunity Midmarket = Ok 0
  /\ exists lp target res qualified opportunities,
       generate_funnel lp target = Ok res
       /\ nth_error (funnel_stages res) 1 = Some qualified
       /\ nth_error (funnel_stages res) 2 = Some opportunities
       /\ n_Midmarket qualified = 1
       /\ n_Midmarket opportunities = 0.
Proof.
  split; [|split].
  - intros n t s x k Hmul Hx. unfold convert. rewrite Hmul. cbn [Py.bind round].
    destruct x as [sg|sg| |sg m e]; cbn [FR] in Hx.
    + exfalso. assert (Hk : (IZR (2 * k + 1) = 0)%R)
        by (rewrite plus_IZR, mult_IZR; lra).
      apply eq_IZR in Hk. lia.
    + exfalso. assert (Hk : (IZR (2 * k + 1) = 0)%R)
        by (rewrite plus_IZR, mult_IZR; lra).
      apply eq_IZR in Hk. lia.
    + exfalso. assert (Hk : (IZR (2 * k + 1) = 0)%R)
        by (rewrite plus_IZR, mult_IZR; lra).
      apply eq_IZR in Hk. lia.
    + now apply round_float_tie.
  - vm_compute. reflexivity.
  - exists sample_leads, (PyInt 20000).
    destruct (generate_funnel sample_leads (PyInt 20000)) as [res|e] eqn:E;
      [|vm_compute in E; discriminate E].
    assert (Hrows : map (fun row => n_Midmarket row) (funnel_stages res)
                    = [3; 1; 0; 0]).
    { apply (f_equal (fun r => match r with
                               | Ok res => map (fun row => n_Midmarket row)
                                               (funnel_stages res)
                               | Raise _ => []
                               end)) in E.
      rewrite <- E. vm_compute. reflexivity. }
    destruct (funnel_stages res) as [|r0 [|r1 [|r2 rows]]] eqn:Hst;
      try discriminate Hrows.
    injection Hrows as H0 H1 H2 H3.
    exists res, r1, r2. rewrite Hst. repeat split; assumption.
Qed.

End FunnelFacts.

Module FunnelExamples.
Import Py Funnel Binary64 Binary64Facts FunnelSpec FunnelSamples FunnelFacts.
Local Open Scope string_scope.
Local Open Scope list_scope.
Local Open Scope Z_scope.

Lemma funnel_counts_nonincreasing_witness :
  exists res,
    generate_funnel sample_leads (PyInt 20000) = Ok res
    /\ List.length (funnel_stages res) = 4%nat
    /\ counts_nonincreasing (funnel_stages res).
Proof.
  destruct (generate_funnel sample_leads (PyInt 20000)) as [res|e] eqn:E;
    [|vm_compute in E; discriminate E].
  exists res. split; [reflexivity|].
  exact (funnel_counts_nonincreasing sample_leads (PyInt 20000) res E).
Defined.

Lemma categorize_lead_monotone_witness :
  exists c c',
    le (signal_of Mrr (lead_with_mrr 50)) (PyInt 150) = true
    /\ categorize_lead (lead_with_mrr 50) "Pyxis" = Ok c
    /\ categorize_lead (with_signal Mrr (PyInt 150) (lead_with_mrr 50)) "Pyxis" = Ok c'
    /\ rank (segment_of c) <= rank (segment_of c').
Proof.
  destruct (categorize_lead (lead_with_mrr 50) "Pyxis") as [c|e] eqn:E;
    [|vm_compute in E; discriminate E].
  destruct (categorize_lead (with_signal Mrr (PyInt 150) (lead_with_mrr 50)) "Pyxis")
    as [c'|e] eqn:E'; [|vm_compute in E'; discriminate E'].
  exists c, c'. repeat split.
  exact (categorize_lead_monotone (lead_with_mrr 50) "Pyxis" Mrr (PyInt 150) c c'
           eq_refl E E').
Defined.

Lemma target_progress_guarded_witness :
  exists res,
    is_zero (PyInt 0) = true
    /\ generate_funnel sample_leads (PyInt 0) = Ok res
    /\ Target_Progress (summary res) = Fixed1Pct (PyInt 0).
Proof.
  destruct (generate_funnel sample_leads (PyInt 0)) as [res|e] eqn:E;
    [|vm_compute in E; discriminate E].
  exists res. repeat split.
  exact (proj2 (target_progress_guarded sample_leads (PyInt 0)) eq_refl res E).
Defined.

End FunnelExamples.

Module FunnelReportFacts.
Import Py Funnel Binary64 Binary64Facts FunnelSpec FunnelSamples FunnelFacts FunnelReport.
Local Open Scope Z_scope.

Lemma count_segment_partition cl :
  count_segment Enterprise cl + count_segment Midmarket cl + count_segment SMB cl
  = Z.of_nat (List.length cl).
Proof.
  unfold count_segment. induction cl as [|c cl IH]; [reflexivity|].
  cbn [filter List.length]. destruct (segment_of c); cbn [segment_eqb List.length]; lia.
Qed.

Lemma categorize_partner_length partner leads cl :
  categorize_partner partner leads = Ok cl -> List.length cl = List.length leads.
Proof.
  revert cl. induction leads as [|l leads IH]; intros cl H; cbn in H.
  - injection H as <-. reflexivity.
  - do 2 inv_bind H. injection H as <-. cbn. f_equal. now apply IH.
Qed.

Lemma categorize_all_length lp cl :
  categorize_all lp = Ok cl -> List.length cl = List.length (all_leads lp).
Proof.
  revert cl. induction lp as [|[partner leads] lp IH]; intros cl H; cbn in H.
  - injection H as <-. reflexivity.
  - do 2 inv_bind H. injection H as <-. unfold all_leads. cbn [map snd List.concat].
    rewrite !length_app. f_equal; [eapply categorize_partner_length; eassumption|].
    now apply IH.
Qed.

(** Everything that a run of [generate_funnel] that returns went
    through, and what it returns. *)
Lemma generate_funnel_run lp target res :
  generate_funnel lp target = Ok res ->
  exists cl qe qm qs oe om os we wm ws qr or wr gap,
    categorize_all lp = Ok cl
    /\ convert (count_segment Enterprise cl) Leads_Qualified Enterprise = Ok qe
    /\ convert (count_segment Midmarket cl) Leads_Qualified Midmarket = Ok qm
    /\ convert (count_segment SMB cl) Leads_Qualified SMB = Ok qs
    /\ convert qe Qualified_Opportunity Enterprise = Ok oe
    /\ convert qm Qualified_Opportunity Midmarket = Ok om
    /\ convert qs Qualified_Opportunity SMB = Ok os
    /\ convert oe Opportunity_ClosedWon Enterprise = Ok we
    /\ convert om Opportunity_ClosedWon Midmarket = Ok wm
    /\ convert os Opportunity_ClosedWon SMB = Ok ws
    /\ ratio_or_zero (qe + qm + qs) (Z.of_nat (List.length cl)) = Ok qr
    /\ ratio_or_zero (oe + om + os) (qe + qm + qs) = Ok or
    /\ ratio_or_zero (we + wm + ws) (oe + om + os) = Ok wr
    /\ sub target (PyInt (we * 50000 + wm * 15000 + ws * 5000)) = Ok gap
    /\ funnel_stages res
       = stage_rows (count_segment Enterprise cl, count_segment Midmarket cl,
                     count_segment SMB cl)
                    (qe, qm, qs) (oe, om, os) (we, wm, ws) qr or wr
    /\ Total_Leads (summary res) = Z.of_nat (List.length cl)
    /\ Enterprise_Leads (summary res) = count_segment Enterprise cl
    /\ Midmarket_Leads (summary res) = count_segment Midmarket cl
    /\ SMB_Leads (summary res) = count_segment SMB cl
    /\ Summary_Estimated_Revenue (summary res) = we * 50000 + wm * 15000 + ws * 5000
    /\ Current_Quarter_Target (summary res) = target
    /\ Gap_to_Target (summary res) = gap
    /\ categorized_leads res = cl.
Proof.
  unfold generate_funnel. intros H.
  inv_bind H. cbv zeta in H.
  do 3 inv_bind H. inv_bind H. do 3 inv_bind H. inv_bind H. do 3 inv_bind H.
  do 3 inv_bind H.
  injection H as <-.
  do 14 eexists. split; [reflexivity|]. repeat (split; [eassumption|]).
  unfold stage_rows.
  cbn [funnel_stages summary Total_Leads Enterprise_Leads Midmarket_Leads
       SMB_Leads Summary_Estimated_Revenue
       Current_Quarter_Target Gap_to_Target categorized_leads fst snd
       conversion_rate ESTIMATED_ACV].
  rewrite count_segment_partition. repeat split.
Qed.

Ltac funnel_run H :=
  apply generate_funnel_run in H;
  destruct H as (cl & qe & qm & qs & oe & om & os & we & wm & ws & qr & or & wr
                 & gap & Hcl & Hqe & Hqm & Hqs & Hoe & Hom & Hos & Hwe & Hwm
                 & Hws & Hqr & Hor & Hwr & Hgap & Hrows & Htotal & HE & HM & HS
                 & Hrev & Htarget & Hgapv & Hcat).

Lemma categorize_partner_each partner leads cl :
  categorize_partner partner leads = Ok cl ->
  Forall2 (fun pl c => categorize_lead (snd pl) (fst pl) = Ok c)
          (map (pair partner) leads) cl.
Proof.
  revert cl. induction leads as [|l leads IH]; intros cl H; cbn in H.
  - injection H as <-. constructor.
  - do 2 inv_bind H. injection H as <-. cbn [map]. constructor; [assumption|].
    now apply IH.
Qed.

Lemma categorize_all_each lp cl :
  categorize_all lp = Ok cl ->
  Forall2 (fun pl c => categorize_lead (snd pl) (fst pl) = Ok c)
          (tagged_leads lp) cl.
Proof.
  revert cl. induction lp as [|[partner leads] lp IH]; intros cl H; cbn in H.
  - injection H as <-. constructor.
  - do 2 inv_bind H. injection H as <-. unfold tagged_leads. cbn [flat_map fst snd].
    apply Forall2_app; [now apply categorize_partner_each|now apply IH].
Qed.

(** The totals of the report add up: every stage row's total is the sum
    of its three segment counts, the three lead counts of the summary add
    up to its total, and that total is the number of leads in the input. *)
Theorem funnel_totals_add_up lp target res :
  generate_funnel lp target = Ok res ->
  Forall (fun row => Total row = n_Enterprise row + n_Midmarket row + n_SMB row)
         (funnel_stages res)
  /\ Enterprise_Leads (summary res) + Midmarket_Leads (summary res)
     + SMB_Leads (summary res) = Total_Leads (summary res)
  /\ Total_Leads (summary res) = Z.of_nat (List.length (all_leads lp)).
Proof.
  intros H. funnel_run H.
  rewrite Hrows, Htotal, HE, HM, HS, count_segment_partition.
  split; [|split; [reflexivity|f_equal; now apply categorize_all_length]].
  unfold stage_rows. repeat constructor.
Qed.

Lemma funnel_totals_add_up_witness :
  exists res,
    generate_funnel sample_leads (PyInt 20000) = Ok res
    /\ Total_Leads (summary res) = 5.
Proof.
  destruct (generate_funnel sample_leads (PyInt 20000)) as [res|e] eqn:E;
    [|vm_compute in E; discriminate E].
  exists res. split; [reflexivity|].
  exact (proj2 (proj2 (funnel_totals_add_up sample_leads (PyInt 20000) res E))).
Defined.

(** The categorized leads of the report are the leads of the input, in
    order, each one categorized with the partner it is listed under. *)
Theorem every_lead_is_categorized_once lp target res :
  generate_funnel lp target = Ok res ->
  Forall2 (fun pl c => categorize_lead (snd pl) (fst pl) = Ok c)
          (tagged_leads lp) (categorized_leads res).
Proof.
  intros H. funnel_run H. rewrite Hcat. now apply categorize_all_each.
Qed.

Lemma every_lead_is_categorized_once_witness :
  exists res,
    generate_funnel sample_leads (PyInt 20000) = Ok res
    /\ Forall2 (fun pl c => categorize_lead (snd pl) (fst pl) = Ok c)
               (tagged_leads sample_leads) (categorized_leads res).
Proof.
  destruct (generate_funnel sample_leads (PyInt 20000)) as [res|e] eqn:E;
    [|vm_compute in E; discriminate E].
  exists res. split; [reflexivity|].
  exact (every_lead_is_categorized_once sample_leads (PyInt 20000) res E).
Defined.

(** The estimated revenue is the number of won deals of each segment
    times the segment's contract value; it is shown in the last row, it
    is never negative and never more than 50000 per lead, and with an
    integer target the gap is the exact difference. *)
Theorem estimated_revenue_bounds lp target res :
  generate_funnel lp target = Ok res ->
  (exists won,
      nth_error (funnel_stages res) 3 = Some won
      /\ Summary_Estimated_Revenue (summary res)
         = n_Enterprise won * 50000 + n_Midmarket won * 15000 + n_SMB won * 5000
      /\ Estimated_Revenue won = Dollars0 (Summary_Estimated_Revenue (summary res)))
  /\ 0 <= Summary_Estimated_Revenue (summary res)
       <= 50000 * Total_Leads (summary res)
  /\ (forall t, target = PyInt t ->
        Gap_to_Target (summary res)
        = PyInt (t - Summary_Estimated_Revenue (summary res))).
Proof.
  intros H. funnel_run H. rewrite Hrows, Hrev, Htotal, Hgapv.
  split; [|split].
  - eexists. split; [reflexivity|]. split; reflexivity.
  - rewrite <- count_segment_partition.
    pose proof (convert_bounds _ _ _ _ (count_segment_nonneg Enterprise cl) Hqe) as Bqe.
    pose proof (convert_bounds _ _ _ _ (count_segment_nonneg Midmarket cl) Hqm) as Bqm.
    pose proof (convert_bounds _ _ _ _ (count_segment_nonneg SMB cl) Hqs) as Bqs.
    pose proof (convert_bounds _ _ _ _ (proj1 Bqe) Hoe) as Boe.
    pose proof (convert_bounds _ _ _ _ (proj1 Bqm) Hom) as Bom.
    pose proof (convert_bounds _ _ _ _ (proj1 Bqs) Hos) as Bos.
    pose proof (convert_bounds _ _ _ _ (proj1 Boe) Hwe).
    pose proof (convert_bounds _ _ _ _ (proj1 Bom) Hwm).
    pose proof (convert_bounds _ _ _ _ (proj1 Bos) Hws).
    lia.
  - intros t ->. cbn [sub] in Hgap. congruence.
Qed.

Lemma estimated_revenue_bounds_witness :
  exists res,
    generate_funnel sample_leads (PyInt 20000) = Ok res
    /\ 0 <= Summary_Estimated_Revenue (summary res) <= 50000 * Total_Leads (summary res)
    /\ Gap_to_Target (summary res)
       = PyInt (20000 - Summary_Estimated_Revenue (summary res)).
Proof.
  destruct (generate_funnel sample_leads (PyInt 20000)) as [res|e] eqn:E;
    [|vm_compute in E; discriminate E].
  exists res. split; [reflexivity|].
  destruct (estimated_revenue_bounds sample_leads (PyInt 20000) res E)
    as (_ & Hb & Hg).
  split; [exact Hb|exact (Hg 20000 eq_refl)].
Defined.

Lemma ge_int a b : ge (PyInt a) (PyInt b) = (b <=? a).
Proof.
  unfold ge, compare, value, xcompare, fin_compare.
  rewrite Z.min_id, Z.sub_diag, !Z.mul_1_r.
  destruct (Z.compare_spec a b), (Z.leb_spec b a); try reflexivity; lia.
Qed.

(** Segments are assigned by an or-rule per tier, on the signals with
    absent keys read as 0: for integer signals a lead is Enterprise when
    one signal reaches its Enterprise threshold, SMB when every signal is
    below its Midmarket threshold, and Midmarket otherwise. *)
Theorem segment_is_or_of_signals lead partner c mrr users arr score :
  get (d_current_mrr lead) (PyInt 0) = PyInt mrr ->
  get (d_user_count lead) (PyInt 0) = PyInt users ->
  get (d_referral_arr lead) (PyInt 0) = PyInt arr ->
  get (d_lead_score lead) (PyInt 0) = PyInt score ->
  categorize_lead lead partner = Ok c ->
  (segment_of c = Enterprise <->
   1000 <= mrr \/ 50 <= users \/ 12000 <= arr \/ 80 <= score)
  /\ (segment_of c = SMB <->
      mrr < 100 /\ users < 10 /\ arr < 1200 /\ score < 60)
  /\ ESTIMATED_ACV (segment_of c)
     = (if (1000 <=? mrr) || (50 <=? users) || (12000 <=? arr) || (80 <=? score)
        then 50000
        else if (100 <=? mrr) || (10 <=? users) || (1200 <=? arr) || (60 <=? score)
        then 15000 else 5000).
Proof.
  intros Hm Hu Ha Hs H. apply categorize_lead_segment in H.
  unfold signal_of in H. rewrite Hm, Hu, Ha, Hs in H. rewrite H.
  unfold classify. rewrite !ge_int.
  cbn [mrr_threshold user_threshold arr_threshold lead_score_min
       ENTERPRISE_CRITERIA MIDMARKET_CRITERIA].
  destruct (Z.leb_spec 1000 mrr), (Z.leb_spec 50 users), (Z.leb_spec 12000 arr),
    (Z.leb_spec 80 score); cbn [orb];
    try (split; [split; [lia|reflexivity]|split; [split; [discriminate|lia]|reflexivity]]);
  destruct (Z.leb_spec 100 mrr), (Z.leb_spec 10 users), (Z.leb_spec 1200 arr),
    (Z.leb_spec 60 score); cbn [orb ESTIMATED_ACV];
    (split; [split; [discriminate|lia]|]);
    (split; [split; [try discriminate; try lia|try discriminate; try lia;
                     try reflexivity]|reflexivity]).
Qed.

Lemma segment_is_or_of_signals_witness :
  exists c,
    categorize_lead (lead_with_mrr 150) "Pyxis" = Ok c
    /\ (segment_of c = SMB <-> 150 < 100 /\ 0 < 10 /\ 0 < 1200 /\ 0 < 60)
    /\ ESTIMATED_ACV (segment_of c) = 15000.
Proof.
  destruct (categorize_lead (lead_with_mrr 150) "Pyxis") as [c|e] eqn:E;
    [|vm_compute in E; discriminate E].
  exists c. split; [reflexivity|].
  destruct (segment_is_or_of_signals (lead_with_mrr 150) "Pyxis" c 150 0 0 0
              eq_refl eq_refl eq_refl eq_refl E) as (_ & Hsmb & Hacv).
  split; [exact Hsmb|exact Hacv].
Defined.

Lemma categorize_all_no_leads lp :
  Forall (fun pl => snd pl = []) lp -> categorize_all lp = Ok [].
Proof.
  induction 1 as [|[partner leads] lp Hl _ IH]; [reflexivity|].
  cbn in Hl. subst leads. cbn. rewrite IH. reflexivity.
Qed.

(** Without leads (no partner, or partners without leads) nothing is
    divided by zero and nothing is raised: every count and every
    conversion rate of the report is 0, the revenue is 0 and the gap is
    the whole target; the progress is the float 0.0 for a positive target
    and the int 0 otherwise. *)
Theorem no_leads_gives_zero_report lp t :
  Forall (fun pl => snd pl = []) lp ->
  generate_funnel lp (PyInt t)
  = Ok (empty_report t (if 0 <? t then PyFloat (S754_zero false) else PyInt 0)).
Proof.
  intros Hlp. unfold generate_funnel.
  rewrite (categorize_all_no_leads lp Hlp). cbn [Py.bind]. cbv zeta.
  change (count_segment Enterprise []) with 0.
  change (count_segment Midmarket []) with 0.
  change (count_segment SMB []) with 0.
  change (Z.of_nat (List.length (@nil LeadCategory))) with 0.
  repeat first [ rewrite convert_zero
               | progress change (0 + 0 + 0) with 0
               | progress change (ratio_or_zero 0 0) with (Ok (PyInt 0))
               | progress cbn [Py.bind] ].
  change (0 * ESTIMATED_ACV Enterprise + 0 * ESTIMATED_ACV Midmarket
          + 0 * ESTIMATED_ACV SMB) with 0.
  assert (Hgt : gt (PyInt t) (PyInt 0) = (0 <? t)).
  { unfold gt, compare, value, xcompare, fin_compare.
    rewrite Z.min_id, Z.sub_diag, !Z.mul_1_r.
    destruct (Z.compare_spec t 0), (Z.ltb_spec 0 t); try reflexivity; lia. }
  rewrite Hgt. unfold empty_report, stage_rows. cbn [fst snd conversion_rate].
  destruct (Z.ltb_spec 0 t) as [Ht|Ht].
  - destruct t as [|p|p]; try lia. cbn [sub Py.bind Z.sub Z.opp Z.add]. reflexivity.
  - cbn [sub Py.bind]. rewrite Z.sub_0_r. reflexivity.
Qed.

Lemma no_leads_gives_zero_report_witness :
  Forall (fun pl : string * list Lead => snd pl = []) [("Pyxis"%string, [])]
  /\ generate_funnel [("Pyxis"%string, [])] (PyInt 20000)
     = Ok (empty_report 20000 (PyFloat (S754_zero false))).
Proof.
  assert (H : Forall (fun pl : string * list Lead => snd pl = [])
                     [("Pyxis"%string, [])]) by (repeat constructor).
  split; [exact H|].
  exact (no_leads_gives_zero_report [("Pyxis"%string, [])] 20000 H).
Defined.

(** Rounding to the nearest integer is monotone. *)
Lemma round_half_even_div_monotone a a' b :
  0 < b -> a <= a' -> round_half_even_div a b <= round_half_even_div a' b.
Proof.
  intros Hb Ha.
  pose proof (round_half_even_div_error a b Hb) as E.
  pose proof (round_half_even_div_error a' b Hb) as E'.
  set (r := round_half_even_div a b) in *.
  set (r' := round_half_even_div a' b) in *.
  destruct (Z_le_gt_dec r r') as [|Hgt]; [assumption|exfalso].
  assert (Hstep : r' * b + b <= r * b) by nia.
  assert (Haa : a = a') by lia.
  subst r r'. rewrite Haa in Hgt. lia.
Qed.

(** More leads at a stage never give fewer at the next one. *)
Lemma convert_monotone n n' t s z z' :
  0 <= n <= n' -> n' < 2 ^ 45 ->
  convert n t s = Ok z -> convert n' t s = Ok z' -> z <= z'.
Proof.
  intros Hn Hn' Hz Hz'.
  rewrite convert_exact in Hz, Hz' by lia.
  injection Hz as <-. injection Hz' as <-. unfold exact_round.
  apply round_half_even_div_monotone; [lia|].
  apply Z.mul_le_mono_nonneg_r; [destruct t, s; cbn; lia|lia].
Qed.

(** The funnel is monotone in its leads: of two inputs of which the
    second has at least as many leads in every segment (and fewer than
    [2^45] in each), the second has at least as many in every segment at
    every stage, and at least the estimated revenue. *)
Theorem funnel_is_monotone_in_leads lp lp' target target' res res' :
  generate_funnel lp target = Ok res ->
  generate_funnel lp' target' = Ok res' ->
  (forall s first first',
      nth_error (funnel_stages res) 0 = Some first ->
      nth_error (funnel_stages res') 0 = Some first' ->
      segment_count first s <= segment_count first' s < 2 ^ 45) ->
  (forall i row row' s,
      nth_error (funnel_stages res) i = Some row ->
      nth_error (funnel_stages res') i = Some row' ->
      segment_count row s <= segment_count row' s)
  /\ Summary_Estimated_Revenue (summary res)
     <= Summary_Estimated_Revenue (summary res').
Proof.
  intros H H' Hfirst.
  apply generate_funnel_run in H, H'.
  destruct H as (cl & qe & qm & qs & oe & om & os & we & wm & ws & qr & or & wr
                 & gap & _ & Hqe & Hqm & Hqs & Hoe & Hom & Hos & Hwe & Hwm
                 & Hws & _ & _ & _ & _ & Hrows & _ & _ & _ & _ & Hrev & _).
  destruct H' as (cl' & qe' & qm' & qs' & oe' & om' & os' & we' & wm' & ws' & qr'
                  & or' & wr' & gap' & _ & Hqe' & Hqm' & Hqs' & Hoe' & Hom' & Hos'
                  & Hwe' & Hwm' & Hws' & _ & _ & _ & _ & Hrows' & _ & _ & _ & _
                  & Hrev' & _).
  rewrite Hrows, Hrows' in *. rewrite Hrev, Hrev'.
  pose proof (Hfirst Enterprise _ _ eq_refl eq_refl) as HE.
  pose proof (Hfirst Midmarket _ _ eq_refl eq_refl) as HM.
  pose proof (Hfirst SMB _ _ eq_refl eq_refl) as HS.
  cbn [segment_count n_Enterprise n_Midmarket n_SMB fst snd] in HE, HM, HS.
  pose proof (count_segment_nonneg Enterprise cl) as PE.
  pose proof (count_segment_nonneg Midmarket cl) as PM.
  pose proof (count_segment_nonneg SMB cl) as PS.
  pose proof (count_segment_nonneg Enterprise cl') as PE'.
  pose proof (count_segment_nonneg Midmarket cl') as PM'.
  pose proof (count_segment_nonneg SMB cl') as PS'.
  pose proof (convert_bounds _ _ _ _ PE Hqe) as Bqe.
  pose proof (convert_bounds _ _ _ _ PM Hqm) as Bqm.
  pose proof (convert_bounds _ _ _ _ PS Hqs) as Bqs.
  pose proof (convert_bounds _ _ _ _ PE' Hqe') as Bqe'.
  pose proof (convert_bounds _ _ _ _ PM' Hqm') as Bqm'.
  pose proof (convert_bounds _ _ _ _ PS' Hqs') as Bqs'.
  pose proof (convert_bounds _ _ _ _ (proj1 Bqe) Hoe) as Boe.
  pose proof (convert_bounds _ _ _ _ (proj1 Bqm) Hom) as Bom.
  pose proof (convert_bounds _ _ _ _ (proj1 Bqs) Hos) as Bos.
  pose proof (convert_bounds _ _ _ _ (proj1 Bqe') Hoe') as Boe'.
  pose proof (convert_bounds _ _ _ _ (proj1 Bqm') Hom') as Bom'.
  pose proof (convert_bounds _ _ _ _ (proj1 Bqs') Hos') as Bos'.
  pose proof (convert_monotone _ _ _ _ _ _ (conj PE (proj1 HE)) (proj2 HE) Hqe Hqe') as Mqe.
  pose proof (convert_monotone _ _ _ _ _ _ (conj PM (proj1 HM)) (proj2 HM) Hqm Hqm') as Mqm.
  pose proof (convert_monotone _ _ _ _ _ _ (conj PS (proj1 HS)) (proj2 HS) Hqs Hqs') as Mqs.
  pose proof (convert_monotone _ _ _ _ _ _ (conj (proj1 Bqe) Mqe) ltac:(lia) Hoe Hoe') as Moe.
  pose proof (convert_monotone _ _ _ _ _ _ (conj (proj1 Bqm) Mqm) ltac:(lia) Hom Hom') as Mom.
  pose proof (convert_monotone _ _ _ _ _ _ (conj (proj1 Bqs) Mqs) ltac:(lia) Hos Hos') as Mos.
  pose proof (convert_monotone _ _ _ _ _ _ (conj (proj1 Boe) Moe) ltac:(lia) Hwe Hwe') as Mwe.
  pose proof (convert_monotone _ _ _ _ _ _ (conj (proj1 Bom) Mom) ltac:(lia) Hwm Hwm') as Mwm.
  pose proof (convert_monotone _ _ _ _ _ _ (conj (proj1 Bos) Mos) ltac:(lia) Hws Hws') as Mws.
  split; [|lia].
  intros i row row' s Hr Hr'. unfold stage_rows in Hr, Hr'.
  destruct i as [|[|[|[|i]]]]; cbn in Hr, Hr';
    try (destruct i; discriminate);
    injection Hr as <-; injection Hr' as <-;
    destruct s; cbn [segment_count n_Enterprise n_Midmarket n_SMB]; lia.
Qed.

Lemma first_row_counts lp target res cs first s :
  generate_funnel lp target = Ok res ->
  categorize_all lp = Ok cs ->
  nth_error (funnel_stages res) 0 = Some first ->
  segment_count first s = count_segment s cs.
Proof.
  intros H Hc Hf. funnel_run H.
  assert (Ecs : cl = cs) by congruence.
  rewrite Hrows in Hf. injection Hf as Hfirst.
  rewrite <- Hfirst, <- Ecs. destruct s; reflexivity.
Qed.

Lemma funnel_is_monotone_in_leads_witness :
  exists res res',
    generate_funnel sample_leads (PyInt 20000) = Ok res
    /\ generate_funnel more_leads (PyInt 20000) = Ok res'
    /\ Summary_Estimated_Revenue (summary res)
       <= Summary_Estimated_Revenue (summary res').
Proof.
  destruct (generate_funnel sample_leads (PyInt 20000)) as [res|e] eqn:E;
    [|vm_compute in E; discriminate E].
  destruct (generate_funnel more_leads (PyInt 20000)) as [res'|e] eqn:E';
    [|vm_compute in E'; discriminate E'].
  destruct (categorize_all sample_leads) as [cl|e] eqn:C;
    [|vm_compute in C; discriminate C].
  destruct (categorize_all more_leads) as [cl'|e] eqn:C';
    [|vm_compute in C'; discriminate C'].
  assert (Hn : map (fun s => count_segment s cl) [Enterprise; Midmarket; SMB]
               = [1; 3; 1]).
  { apply (f_equal (fun r => match r with
                             | Ok cl => map (fun s => count_segment s cl)
                                            [Enterprise; Midmarket; SMB]
                             | Raise _ => []
                             end)) in C.
    rewrite <- C. vm_compute. reflexivity. }
  assert (Hn' : map (fun s => count_segment s cl') [Enterprise; Midmarket; SMB]
                = [2; 3; 1]).
  { apply (f_equal (fun r => match r with
                             | Ok cl => map (fun s => count_segment s cl)
                                            [Enterprise; Midmarket; SMB]
                             | Raise _ => []
                             end)) in C'.
    rewrite <- C'. vm_compute. reflexivity. }
  injection Hn as HE HM HS. injection Hn' as HE' HM' HS'.
  exists res, res'. split; [reflexivity|]. split; [reflexivity|].
  refine (proj2 (funnel_is_monotone_in_leads
                   sample_leads more_leads (PyInt 20000) (PyInt 20000) res res'
                   E E' _)).
  intros s first first' Hf Hf'.
  rewrite (first_row_counts _ _ _ _ _ s E C Hf).
  rewrite (first_row_counts _ _ _ _ _ s E' C' Hf').
  destruct s; rewrite ?HE, ?HM, ?HS, ?HE', ?HM', ?HS'; lia.
Defined.

Lemma second_half_target month :
  7 <= month <= 12 -> get_current_quarter_target 2026 month = 0.
Proof.
  intros H. unfold get_current_quarter_target. cbn [Z.eqb Pos.eqb orb andb].
  destruct (Z.leb_spec month 3); [lia|].
  destruct (Z.leb_spec 4 month); [|lia].
  destruct (Z.leb_spec month 6); [lia|]. cbn [andb].
  destruct (Z.leb_spec 7 month); [|lia].
  destruct (Z.leb_spec month 9); [reflexivity|]. cbn [andb].
  destruct (Z.leb_spec 10 month); [|lia].
  destruct (Z.leb_spec month 12); [reflexivity|lia].
Qed.

(** From July to December 2026 the quarter target is 0, and the funnel
    generated for it reports a progress of 0 (nothing is divided) and a
    gap that is the estimated revenue, negated. *)
Theorem second_half_of_2026_has_no_target lp month res :
  7 <= month <= 12 ->
  generate_funnel lp (PyInt (get_current_quarter_target 2026 month)) = Ok res ->
  Current_Quarter_Target (summary res) = PyInt 0
  /\ Target_Progress (summary res) = Fixed1Pct (PyInt 0)
  /\ Gap_to_Target (summary res)
     = PyInt (- Summary_Estimated_Revenue (summary res)).
Proof.
  intros Hm H. rewrite (second_half_target month Hm) in H.
  pose proof (generate_funnel_inv _ _ _ H) as Hinv.
  destruct Hinv as (? & ? & ? & ? & ? & ? & ? & ? & ? & ? & Hinv).
  assert (Hp : Target_Progress (summary res) = Fixed1Pct (PyInt 0))
    by (apply Hinv; reflexivity).
  funnel_run H. rewrite Htarget, Hgapv, Hrev. repeat split; try assumption.
  cbn [sub] in Hgap. injection Hgap as <-. f_equal.
Qed.

Lemma second_half_of_2026_has_no_target_witness :
  exists res,
    7 <= 8 <= 12
    /\ generate_funnel sample_leads (PyInt (get_current_quarter_target 2026 8))
       = Ok res
    /\ Target_Progress (summary res) = Fixed1Pct (PyInt 0).
Proof.
  destruct (generate_funnel sample_leads (PyInt (get_current_quarter_target 2026 8)))
    as [res|e] eqn:E; [|vm_compute in E; discriminate E].
  exists res. split; [lia|]. split; [reflexivity|].
  exact (proj1 (proj2 (second_half_of_2026_has_no_target
                         sample_leads 8 res ltac:(lia) E))).
Defined.

End FunnelReportFacts.


(* ===================================================================== *)
(** * notebooks/coda_updater.py: theorems                               *)
(* ===================================================================== *)

Module WireFacts.
Import Py Http Wire.
Local Open Scope string_scope.
Local Open Scope list_scope.
Local Open Scope Z_scope.

Lemma after_requests_nil w : after_requests w [] = w.
Proof.
  destruct w. unfold after_requests; cbn.
  now rewrite Nat.add_0_r, app_nil_r.
Qed.

Lemma after_requests_app w rs rs' :
  after_requests (after_requests w rs) rs' = after_requests w (rs ++ rs').
Proof.
  unfold after_requests; cbn.
  rewrite length_app, map_app, app_assoc, Nat.add_assoc. reflexivity.
Qed.

Lemma upcoming_after w rs i :
  upcoming (after_requests w rs) i = upcoming w (List.length rs + i).
Proof. unfold upcoming; cbn. now rewrite Nat.add_assoc. Qed.

Lemma send_eq r w :
  send r w
  = (match upcoming w 0 with
     | Unreachable msg => Raised (RequestException msg)
     | Response status content => Return (status, content)
     end, after_requests w [r]).
Proof.
  unfold send, upcoming, after_requests. rewrite Nat.add_0_r.
  cbn [List.length map]. rewrite Nat.add_1_r.
  destruct (replies w (served w)); reflexivity.
Qed.

Ltac io_simpl :=
  cbv beta iota delta [Http.bind Http.ret Http.raise Http.try_except
                       Http.lift Http.out_of_fuel fst snd].

Lemma resolve_doc_id_eq self doc_id_arg w :
  Coda.resolve_doc_id self doc_id_arg w
  = (match chosen_doc_id self doc_id_arg with
     | Some d => Return d
     | None => Raised (ValueError "Document ID required")
     end, w).
Proof.
  unfold Coda.resolve_doc_id, chosen_doc_id.
  destruct doc_id_arg as [d|]; [destruct (String.eqb d "") eqn:E|];
    try rewrite E; try reflexivity;
    destruct (Coda.doc_id self) as [d'|]; try reflexivity;
    destruct (String.eqb d' ""); reflexivity.
Qed.

Lemma chosen_doc_id_explicit self d :
  d <> ""%string -> chosen_doc_id self (Some d) = Some d.
Proof.
  intros Hd. unfold chosen_doc_id.
  destruct (String.eqb_spec d ""); [contradiction|].
  destruct (String.eqb_spec d ""); [contradiction|reflexivity].
Qed.

Lemma after_nil w : after w [] = w.
Proof. destruct w. unfold after; cbn. now rewrite Nat.add_0_r, app_nil_r. Qed.

Lemma after_app w evs evs' : after (after w evs) evs' = after w (evs ++ evs').
Proof.
  unfold after; cbn.
  rewrite filter_app, length_app, app_assoc, Nat.add_assoc. reflexivity.
Qed.

Lemma after_requests_after w rs : after_requests w rs = after w (map Sent rs).
Proof.
  unfold after_requests, after. f_equal.
  f_equal. induction rs; cbn; congruence.
Qed.

Lemma upcoming_after_events w evs i :
  upcoming (after w evs) i = upcoming w (List.length (filter is_sent evs) + i).
Proof. unfold upcoming; cbn. now rewrite Nat.add_assoc. Qed.

Lemma sleep_eq s w : sleep s w = (Return tt, after w [Slept s]).
Proof.
  unfold sleep, record, after; cbn. now rewrite Nat.add_0_r.
Qed.

Lemma print_eq t args w : print t args w = (Return tt, after w [Printed t args]).
Proof.
  unfold print, record, after; cbn. now rewrite Nat.add_0_r.
Qed.

Lemma send_after r w :
  send r w
  = (match upcoming w 0 with
     | Unreachable msg => Raised (RequestException msg)
     | Response status content => Return (status, content)
     end, after w [Sent r]).
Proof. rewrite send_eq, after_requests_after. reflexivity. Qed.

End WireFacts.

Module DeleteRows.
Import Py Http Coda Wire WireFacts DeleteRowsSpec.
Local Open Scope string_scope.
Local Open Scope list_scope.
Local Open Scope Z_scope.

Lemma deletions_after w r from n :
  deletions (after_requests w [r]) from n = deletions w (S from) n.
Proof.
  revert from. induction n as [|n IH]; intros from; cbn [deletions]; [reflexivity|].
  rewrite IH, upcoming_after. reflexivity.
Qed.

Lemma delete_each_spec self url row_ids count w :
  delete_each self url row_ids count w
  = (Return (count + deletions w 0 (List.length row_ids)),
     after_requests w (map (delete_request self url) row_ids)).
Proof.
  revert count w. induction row_ids as [|row_id rest IH]; intros count w.
  - cbn. rewrite Z.add_0_r, after_requests_nil. reflexivity.
  - cbn [delete_each]. unfold Http.bind at 1, try_except, Http.bind at 1.
    unfold requests_delete. rewrite send_eq.
    fold (delete_request self url row_id).
    cbn [List.length map deletions].
    destruct (upcoming w 0) as [msg|status content]; cbn [deleted].
    + io_simpl. rewrite IH, after_requests_app, deletions_after. cbn [app].
      f_equal.
    + io_simpl. destruct ((status =? 200) || (status =? 204)); io_simpl;
        rewrite IH, after_requests_app, deletions_after; cbn [app];
        f_equal; f_equal; lia.
Qed.

Lemma deletions_bounds w from n : 0 <= deletions w from n <= Z.of_nat n.
Proof.
  revert from. induction n as [|n IH]; intros from; cbn [deletions]; [lia|].
  specialize (IH (S from)). destruct (deleted (upcoming w from)); lia.
Qed.

Lemma deletions_all w from n :
  deletions w from n = Z.of_nat n <->
  (forall i, (i < n)%nat -> deleted (upcoming w (from + i)) = true).
Proof.
  revert from. induction n as [|n IH]; intros from; cbn [deletions].
  - split; [intros _ i Hi; lia|reflexivity].
  - pose proof (deletions_bounds w (S from) n).
    destruct (deleted (upcoming w from)) eqn:E.
    + split.
      * intros H0 [|i] Hi; [now rewrite Nat.add_0_r|].
        replace (from + S i)%nat with (S from + i)%nat by lia.
        apply IH; lia.
      * intros Hall. assert (deletions w (S from) n = Z.of_nat n); [|lia].
        apply IH. intros i Hi.
        replace (S from + i)%nat with (from + S i)%nat by lia. apply Hall. lia.
    + split; [lia|]. intros Hall. specialize (Hall 0%nat ltac:(lia)).
      rewrite Nat.add_0_r in Hall. congruence.
Qed.

(** C5, as the code has it: [delete_rows] sends one DELETE per row id, in
    order, whatever the earlier ones were answered, and returns the
    boolean [deleted_count == len(row_ids)]: [True] exactly when every
    row id was answered with status 200 or 204. *)
Theorem delete_rows_best_effort self table_id row_ids doc_id_arg d w :
  chosen_doc_id self doc_id_arg = Some d ->
  delete_rows self table_id row_ids doc_id_arg w
  = (Return (deletions w 0 (List.length row_ids)
             =? Z.of_nat (List.length row_ids)),
     after_requests w
       (map (delete_request self (table_rows_url self d table_id)) row_ids))
  /\ ((deletions w 0 (List.length row_ids) =? Z.of_nat (List.length row_ids))
      = true <->
      forall i, (i < List.length row_ids)%nat -> deleted (upcoming w i) = true).
Proof.
  intros Hd. split.
  - unfold delete_rows.
    unfold Http.bind at 1. rewrite resolve_doc_id_eq, Hd.
    destruct row_ids as [|row_id rest].
    + cbn [map]. rewrite after_requests_nil. reflexivity.
    + fold (table_rows_url self d table_id).
      unfold Http.bind. rewrite delete_each_spec.
      rewrite Z.add_0_l. reflexivity.
  - rewrite Z.eqb_eq. apply (deletions_all w 0).
Qed.

(** Three row ids, the second one refused: all three are sent, and the
    answer is [False]. *)
Lemma delete_rows_best_effort_witness :
  chosen_doc_id sample_updater None = Some "AbCd1234"%string
  /\ fst (delete_rows sample_updater "grid-1" ["i-1"; "i-2"; "i-3"] None
            (world_of [Response 200 None; Response 404 None; Response 204 None]))
     = Return false
  /\ served (snd (delete_rows sample_updater "grid-1" ["i-1"; "i-2"; "i-3"] None
            (world_of [Response 200 None; Response 404 None; Response 204 None])))
     = 3%nat.
Proof.
  split; [reflexivity|].
  rewrite (proj1 (delete_rows_best_effort sample_updater "grid-1"
                    ["i-1"; "i-2"; "i-3"] None "AbCd1234"
                    (world_of [Response 200 None; Response 404 None;
                               Response 204 None]) eq_refl)).
  split; reflexivity.
Defined.

(** What the function returns is not the number of deleted rows: with
    two row ids, both deleted, it returns [True], which as a number is 1. *)
Lemma delete_rows_returns_no_count :
  fst (delete_rows sample_updater "grid-1" ["i-1"; "i-2"] None
         (world_of [Response 200 None; Response 204 None]))
  = Return true
  /\ deletions (world_of [Response 200 None; Response 204 None]) 0 2 = 2
  /\ Z.b2z true <> 2.
Proof.
  split; [vm_compute; reflexivity|].
  split; [vm_compute; reflexivity|discriminate].
Qed.

End DeleteRows.

Module Pagination.
Import Py Http Coda Wire WireFacts PaginationSpec.
Local Open Scope string_scope.
Local Open Scope list_scope.
Local Open Scope Z_scope.

Lemma serves_after w r from pages :
  serves (after_requests w [r]) from pages <-> serves w (S from) pages.
Proof.
  revert from. induction pages as [|p pages IH]; intros from; cbn [serves];
    [tauto|].
  rewrite IH, upcoming_after. reflexivity.
Qed.

(** One turn of the loop on a well-formed page. *)
Lemma page_turn self url params w items token :
  as_page (upcoming w 0) = Some (items, token) ->
  (response <- requests_get url (_get_headers self) params ;;
   raise_for_status response ;;
   data <- response_json response ;;
   items <- get_items data ;;
   page_token <- dict_get data "nextPageToken" JNull ;;
   ret (items, page_token))%io w
  = (Return (items, token), after_requests w [page_request self url params]).
Proof.
  intros Hp. unfold requests_get. unfold Http.bind at 1. rewrite send_eq.
  fold (page_request self url params).
  unfold as_page in Hp.
  destruct (upcoming w 0) as [|status [[| | | | |fields]|]]; try discriminate.
  unfold raise_for_status, response_json, get_items, iterate, dict_get. io_simpl.
  destruct ((400 <=? status) && (status <? 600)); [discriminate|]. io_simpl.
  destruct (lookup "items" fields) as [[| | | |l|]|]; try discriminate;
    io_simpl; congruence.
Qed.

Lemma list_tables_loop_unfold fuel self url params all_items page_token w :
  list_tables_loop (S fuel) self url params all_items page_token w
  = match (response <- requests_get url (_get_headers self)
                         (next_params params page_token) ;;
           raise_for_status response ;;
           data <- response_json response ;;
           items <- get_items data ;;
           page_token <- dict_get data "nextPageToken" JNull ;;
           ret (items, page_token))%io w with
    | (Return (items, token), w') =>
        if negb (truthy token) then (Return (all_items ++ items), w')
        else list_tables_loop fuel self url (next_params params page_token)
                              (all_items ++ items) token w'
    | (Raised e, w') => (Raised e, w')
    | (OutOfFuel, w') => (OutOfFuel, w')
    end.
Proof.
  cbn [list_tables_loop]. fold (next_params params page_token).
  unfold Http.bind, Http.ret.
  destruct (requests_get url (_get_headers self) (next_params params page_token) w)
    as [[r| |] w1]; try reflexivity.
  destruct (raise_for_status r w1) as [[[]| |] w2]; try reflexivity.
  destruct (response_json r w2) as [[data| |] w3]; try reflexivity.
  destruct (get_items data w3) as [[items| |] w4]; try reflexivity.
  destruct (dict_get data "nextPageToken" JNull w4) as [[token| |] w5];
    try reflexivity.
  destruct (negb (truthy token)); reflexivity.
Qed.

(** While pages carry a token the loop keeps asking; it returns on the
    first page without one, with the items of all pages in order. *)
Lemma list_tables_loop_pages self url pages :
  forall fuel params all_items page_token w last,
    serves w 0 (pages ++ [last]) ->
    Forall (fun page => truthy (snd page) = true) pages ->
    truthy (snd last) = false ->
    list_tables_loop fuel self url params all_items page_token w
    = if (List.length pages <? fuel)%nat
      then (Return (all_items ++ items_of (pages ++ [last])),
            after_requests w
              (page_requests self url params page_token (pages ++ [last])))
      else (OutOfFuel,
            after_requests w
              (page_requests self url params page_token (firstn fuel pages))).
Proof.
  induction pages as [|[items token] pages IH];
    intros fuel params all_items page_token w [last_items last_token] Hs Hall Hlast.
  - destruct fuel as [|fuel].
    + cbn. rewrite after_requests_nil. reflexivity.
    + rewrite list_tables_loop_unfold. cbn [app serves] in Hs.
      rewrite (page_turn _ _ _ _ _ _ (proj1 Hs)).
      cbn [snd] in Hlast. rewrite Hlast. cbn [negb].
      cbn. rewrite app_nil_r. reflexivity.
  - destruct fuel as [|fuel].
    + cbn. rewrite after_requests_nil. reflexivity.
    + rewrite list_tables_loop_unfold. cbn [app serves] in Hs.
      destruct Hs as [Hp Hs]. rewrite (page_turn _ _ _ _ _ _ Hp).
      inversion Hall as [|? ? Htok Hall']; subst. cbn [snd] in Htok.
      rewrite Htok. cbn [negb].
      rewrite (IH fuel _ _ _ _ (last_items, last_token)); try assumption;
        [|now apply serves_after].
      cbn [List.length]. change (S (List.length pages) <? S fuel)%nat
        with (List.length pages <? fuel)%nat.
      destruct (List.length pages <? fuel)%nat;
        rewrite after_requests_app; cbn [app firstn page_requests snd];
        unfold items_of; cbn [map concat fst]; rewrite <- ?app_assoc; reflexivity.
Qed.

(** C8: when the service answers with pages of which all but the last
    carry a continuation token, [list_tables] requests every page, each
    request carrying the token of the page before it, stops after the
    first page without a token, and returns the items of all pages in
    order; a loop that is still running when the fuel ends has not
    returned. *)
Theorem list_tables_follows_pagination
        fuel self doc_id_arg include_views d w pages last :
  chosen_doc_id self doc_id_arg = Some d ->
  serves w 0 (pages ++ [last]) ->
  Forall (fun page => truthy (snd page) = true) pages ->
  truthy (snd last) = false ->
  ((List.length pages < fuel)%nat ->
   list_tables fuel self doc_id_arg include_views w
   = (Return (items_of (pages ++ [last])),
      after_requests w
        (page_requests self (tables_url self d) (first_params include_views)
                       JNull (pages ++ [last]))))
  /\ ((fuel <= List.length pages)%nat ->
      fst (list_tables fuel self doc_id_arg include_views w) = OutOfFuel).
Proof.
  intros Hd Hs Hall Hlast.
  assert (E : list_tables fuel self doc_id_arg include_views w
              = list_tables_loop fuel self (tables_url self d)
                                 (first_params include_views) [] JNull w).
  { unfold list_tables. unfold Http.bind at 1. rewrite resolve_doc_id_eq, Hd.
    destruct include_views; reflexivity. }
  rewrite E, (list_tables_loop_pages _ _ pages _ _ _ _ _ last Hs Hall Hlast).
  split; intros Hf.
  - apply Nat.ltb_lt in Hf. rewrite Hf. reflexivity.
  - apply Nat.ltb_ge in Hf. rewrite Hf. reflexivity.
Qed.

Lemma list_tables_follows_pagination_witness :
  chosen_doc_id sample_updater None = Some "AbCd1234"%string
  /\ serves two_pages 0
       ([([JStr "t-1"; JStr "t-2"], JStr "page-2")] ++ [([JStr "t-3"], JNull)])
  /\ fst (list_tables 3 sample_updater None false two_pages)
     = Return [JStr "t-1"; JStr "t-2"; JStr "t-3"]
  /\ map (fun e => match e with Sent r => params r | _ => [] end)
         (trace (snd (list_tables 3 sample_updater None false two_pages)))
     = [[("limit", JNum (PyInt 100))];
        [("limit", JNum (PyInt 100)); ("pageToken", JStr "page-2")]].
Proof.
  assert (Hs : serves two_pages 0
                 ([([JStr "t-1"; JStr "t-2"], JStr "page-2")]
                  ++ [([JStr "t-3"], JNull)]))
    by (repeat split).
  assert (Hall : Forall (fun page : list json * json => truthy (snd page) = true)
                        [([JStr "t-1"; JStr "t-2"], JStr "page-2")])
    by (repeat constructor).
  split; [reflexivity|]. split; [exact Hs|].
  destruct (list_tables_follows_pagination
              3 sample_updater None false "AbCd1234" two_pages
              [([JStr "t-1"; JStr "t-2"], JStr "page-2")] ([JStr "t-3"], JNull)
              eq_refl Hs Hall eq_refl)
    as [Hrun _].
  rewrite (Hrun ltac:(cbn; lia)). split; reflexivity.
Defined.

End Pagination.

Module Batch.
Import Py Http Coda Wire WireFacts BatchSpec.
Local Open Scope string_scope.
Local Open Scope list_scope.
Local Open Scope Z_scope.

Lemma upsert_row_spec self table_id row_data d w :
  d <> ""%string ->
  upsert_row self table_id row_data ["Account ID"] (Some d) w
  = (match failure (upcoming w 0) with
     | Some e => Raised e
     | None => match upcoming w 0 with
               | Response _ (Some data) => Return data
               | _ => Raised JSONDecodeError
               end
     end, after_requests w [upsert_request self table_id d row_data]).
Proof.
  intros Hd. unfold upsert_row. unfold Http.bind at 1.
  rewrite resolve_doc_id_eq, chosen_doc_id_explicit by assumption.
  unfold requests_post. unfold Http.bind at 1. rewrite send_eq.
  fold (upsert_request self table_id d row_data).
  unfold failure. destruct (upcoming w 0) as [msg|status content]; [reflexivity|].
  unfold raise_for_status, response_json. io_simpl.
  destruct ((400 <=? status) && (status <? 600)); [reflexivity|]. io_simpl.
  destruct content; reflexivity.
Qed.

Lemma successes_after w r from n :
  successes (after_requests w [r]) from n = successes w (S from) n.
Proof.
  revert from. induction n as [|n IH]; intros from; cbn [successes]; [reflexivity|].
  rewrite upcoming_after, IH. reflexivity.
Qed.

Lemma failures_after w r from rows :
  failures (after_requests w [r]) from rows = failures w (S from) rows.
Proof.
  revert from. induction rows as [|x rows IH]; intros from; cbn [failures];
    [reflexivity|].
  rewrite upcoming_after, IH. reflexivity.
Qed.

Lemma upsert_each_spec self table_id d rows :
  d <> ""%string ->
  forall c errs w,
    upsert_each self table_id d rows c errs w
    = (Return (c + successes w 0 (List.length rows), errs ++ failures w 0 rows),
       after_requests w (map (upsert_request self table_id d) rows)).
Proof.
  intros Hd. induction rows as [|row_data rows IH]; intros c errs w.
  - cbn. rewrite after_requests_nil, Z.add_0_r, app_nil_r. reflexivity.
  - cbn [upsert_each successes failures map List.length].
    unfold Http.bind at 1, try_except, Http.bind at 1.
    rewrite upsert_row_spec by assumption.
    destruct (failure (upcoming w 0)) as [e|] eqn:Ef.
    + io_simpl. rewrite IH, after_requests_app, successes_after, failures_after.
      rewrite <- app_assoc. reflexivity.
    + unfold failure in Ef.
      destruct (upcoming w 0) as [msg|status [data|]]; try discriminate;
        [|destruct ((400 <=? status) && (status <? 600)); discriminate].
      io_simpl. rewrite IH, after_requests_app, successes_after, failures_after.
      rewrite Z.add_assoc. reflexivity.
Qed.

(** Every row is either counted or has its error entry. *)
Lemma successes_failures w from rows :
  successes w from (List.length rows)
  + Z.of_nat (List.length (failures w from rows))
  = Z.of_nat (List.length rows).
Proof.
  revert from. induction rows as [|x rows IH]; intros from;
    cbn [successes failures List.length]; [reflexivity|].
  specialize (IH (S from)).
  destruct (failure (upcoming w from)); cbn [List.length]; lia.
Qed.

(** C6: the batch loop posts every row, whatever happened to the rows
    before it; the report holds the number of rows whose upsert returned,
    the number of rows, and one error entry, with the row's key, for each
    row whose upsert raised, in order; each row is in exactly one of the
    two.  With five rows of which only the third fails the report is
    4, 5 and the one entry of the third row. *)
Theorem upsert_accounts_partial_success self table_id d rows w :
  d <> ""%string ->
  upsert_accounts self table_id d rows w
  = (Return {| updated := successes w 0 (List.length rows);
               total := Z.of_nat (List.length rows);
               errors := failures w 0 rows |},
     after_requests w (map (upsert_request self table_id d) rows))
  /\ successes w 0 (List.length rows)
     + Z.of_nat (List.length (failures w 0 rows))
     = Z.of_nat (List.length rows)
  /\ (forall r1 r2 r3 r4 r5 e,
        rows = [r1; r2; r3; r4; r5] ->
        failure (upcoming w 0) = None ->
        failure (upcoming w 1) = None ->
        failure (upcoming w 2) = Some e ->
        failure (upcoming w 3) = None ->
        failure (upcoming w 4) = None ->
        fst (upsert_accounts self table_id d rows w)
        = Return {| updated := 4; total := 5;
                    errors := [{| error_key := row_key r3;
                                  error_exn := e |}] |}).
Proof.
  intros Hd.
  assert (Hrun : upsert_accounts self table_id d rows w
                 = (Return {| updated := successes w 0 (List.length rows);
                              total := Z.of_nat (List.length rows);
                              errors := failures w 0 rows |},
                    after_requests w (map (upsert_request self table_id d) rows))).
  { unfold upsert_accounts, Http.bind.
    rewrite upsert_each_spec by assumption. reflexivity. }
  split; [exact Hrun|]. split; [apply successes_failures|].
  intros r1 r2 r3 r4 r5 e -> H0 H1 H2 H3 H4. rewrite Hrun.
  cbn [fst List.length successes failures].
  rewrite H0, H1, H2, H3, H4. reflexivity.
Qed.

Lemma upsert_accounts_partial_success_witness :
  "AbCd1234"%string <> ""%string
  /\ fst (upsert_accounts sample_updater (JStr "grid-7") "AbCd1234"
            sample_rows third_refused)
     = Return {| updated := 4; total := 5;
                 errors := [{| error_key := JStr "a-3";
                               error_exn := HTTPError 500 |}] |}
  /\ served (snd (upsert_accounts sample_updater (JStr "grid-7") "AbCd1234"
                    sample_rows third_refused)) = 5%nat.
Proof.
  assert (Hd : "AbCd1234"%string <> ""%string) by discriminate.
  split; [exact Hd|].
  destruct (upsert_accounts_partial_success
              sample_updater (JStr "grid-7") "AbCd1234" sample_rows
              third_refused Hd) as (Hrun & _ & Hfive).
  split.
  - exact (Hfive _ _ _ _ _ (HTTPError 500) eq_refl eq_refl eq_refl eq_refl
             eq_refl eq_refl).
  - rewrite Hrun. reflexivity.
Defined.

End Batch.

Module ReFacts.
Import Py Re UrlSpec.
Local Open Scope string_scope.
Local Open Scope list_scope.

Lemma star_stop {A} class (k : text -> option A) s :
  stops class s -> star class s k = k s.
Proof. destruct s as [|x s]; cbn; [reflexivity|]. now intros ->. Qed.

(** Greedy: when the rest of the pattern accepts what follows the whole
    run, the run is taken whole. *)
Lemma star_greedy {A} class (k : text -> option A) a rest r :
  Forall (fun x => class x = true) a ->
  stops class rest ->
  k rest = Some r ->
  star class (a ++ rest) k = Some r.
Proof.
  intros Ha Hstop Hk. induction Ha as [|x a Hx Ha IH]; cbn [app star].
  - now rewrite star_stop.
  - now rewrite Hx, IH.
Qed.

(** Backtracking: when the rest of the pattern needs the character [c]
    next, a run that contains [c] is cut at its last [c]. *)
Lemma star_until {A} class (k : text -> option A) c a b rest r :
  Forall (fun x => class x = true) a ->
  Forall (fun x => class x = true /\ x <> c) b ->
  stops class rest ->
  hd_error rest <> Some c ->
  (forall s, hd_error s <> Some c -> k s = None) ->
  class c = true ->
  k (c :: b ++ rest) = Some r ->
  star class (a ++ c :: b ++ rest) k = Some r.
Proof.
  intros Ha Hb Hstop Hrest Hk Hc Hr.
  assert (Hfail : star class (b ++ rest) k = None).
  { clear Hr. induction Hb as [|x b [Hx Hne] Hb IH]; cbn [app star].
    - rewrite star_stop by assumption. now apply Hk.
    - rewrite Hx, IH. apply Hk. cbn. congruence. }
  induction Ha as [|x a Hx Ha IH]; cbn [app star].
  - now rewrite Hc, Hfail.
  - now rewrite Hx, IH.
Qed.

Lemma consumed_app a s' : consumed (a ++ s') s' = a.
Proof.
  unfold consumed. rewrite length_app.
  replace (List.length a + List.length s' - List.length s')%nat
    with (List.length a) by lia.
  rewrite firstn_app, firstn_all, Nat.sub_diag. cbn. apply app_nil_r.
Qed.

Lemma run_plus class x a rest c k r :
  class x = true ->
  Forall (fun y => class y = true) a ->
  stops class rest ->
  k rest c = Some r ->
  run (Plus class) (x :: a ++ rest) c k = Some r.
Proof.
  intros Hx Ha Hstop Hk. cbn [run]. rewrite Hx. now apply star_greedy.
Qed.

(** A capturing group around a greedy run captures the run. *)
Lemma run_group_plus n class x a rest c k r :
  class x = true ->
  Forall (fun y => class y = true) a ->
  stops class rest ->
  k rest (set_group n (x :: a) c) = Some r ->
  run (Group n (Plus class)) (x :: a ++ rest) c k = Some r.
Proof.
  intros Hx Ha Hstop Hk. cbn [run]. rewrite Hx.
  apply star_greedy; try assumption.
  change (x :: a ++ rest) with ((x :: a) ++ rest). now rewrite consumed_app.
Qed.

Lemma search_text_skip r x s :
  match_here r (x :: s) = None -> search_text r (x :: s) = search_text r s.
Proof. intros H. cbn [search_text]. now rewrite H. Qed.

Lemma search_text_here r s c :
  match_here r s = Some c -> search_text r s = Some c.
Proof. intros H. destruct s; cbn [search_text]; now rewrite H. Qed.

Lemma list_ascii_of_string_app a b :
  list_ascii_of_string (a ++ b)%string
  = list_ascii_of_string a ++ list_ascii_of_string b.
Proof. induction a as [|x a IH]; cbn; [reflexivity|now rewrite IH]. Qed.

Lemma alnum_classes x :
  alnum x = true ->
  other_than "/" x = true /\ other_than "#" x = true /\ x <> "_"%char.
Proof.
  destruct x as [[] [] [] [] [] [] [] []]; cbn; intros H;
    try discriminate; repeat split; discriminate.
Qed.

End ReFacts.

Module ParseUrl.
Import Py Re Coda UrlSpec ReFacts.
Local Open Scope string_scope.
Local Open Scope list_scope.

Lemma Forall_alnum_slash a :
  Forall (fun x => alnum x = true) a ->
  Forall (fun x => other_than "/" x = true) a.
Proof. apply Forall_impl. intros x H. now apply alnum_classes. Qed.

Lemma Forall_alnum_hash_underscore a :
  Forall (fun x => alnum x = true) a ->
  Forall (fun x => other_than "#" x = true /\ x <> "_"%char) a.
Proof. apply Forall_impl. intros x H. split; now apply alnum_classes. Qed.

Lemma Forall_alnum_slash_underscore a :
  Forall (fun x => alnum x = true) a ->
  Forall (fun x => other_than "/" x = true /\ x <> "_"%char) a.
Proof. apply Forall_impl. intros x H. split; now apply alnum_classes. Qed.

Lemma run_seq r1 r2 s c k :
  run (Seq r1 r2) s c k = run r1 s c (fun s' c' => run r2 s' c' k).
Proof. reflexivity. Qed.

Lemma run_char x s c k : run (Str (String x "")) (x :: s) c k = k s c.
Proof. cbn [run list_ascii_of_string strip_prefix]. now rewrite Ascii.eqb_refl. Qed.

Lemma run_char_fail x lit s c k :
  hd_error s <> Some x -> run (Str (String x lit)) s c k = None.
Proof.
  intros H. cbn [run list_ascii_of_string].
  destruct s as [|y s]; [reflexivity|]. cbn [strip_prefix].
  destruct (Ascii.eqb_spec x y) as [<-|]; [now elim H|reflexivity].
Qed.

Lemma strip_prefix_app lit s : strip_prefix lit (lit ++ s) = Some s.
Proof.
  induction lit as [|x lit IH]; cbn [strip_prefix app]; [reflexivity|].
  now rewrite Ascii.eqb_refl.
Qed.

Lemma run_str lit s c k : run (Str lit) (list_ascii_of_string lit ++ s) c k = k s c.
Proof. cbn [run]. now rewrite strip_prefix_app. Qed.

Lemma run_opt_taken r1 s c k res :
  run r1 s c k = Some res -> run (Opt r1) s c k = Some res.
Proof. intros H. cbn [run]. now rewrite H. Qed.

(** [class]+ followed by something that needs [c0]: cut at the last [c0]. *)
Lemma run_plus_until class x a c0 b rest c k r :
  class x = true ->
  Forall (fun y => class y = true) a ->
  Forall (fun y => class y = true /\ y <> c0) b ->
  stops class rest ->
  hd_error rest <> Some c0 ->
  (forall s, hd_error s <> Some c0 -> k s c = None) ->
  class c0 = true ->
  k (c0 :: b ++ rest) c = Some r ->
  run (Plus class) (x :: a ++ c0 :: b ++ rest) c k = Some r.
Proof.
  intros Hx Ha Hb Hstop Hrest Hk Hc Hr. cbn [run]. rewrite Hx.
  now apply (star_until class (fun s'' => k s'' c) c0).
Qed.

Lemma anchored_stops_alnum suffix : anchored suffix -> stops alnum suffix.
Proof. intros [->|[rest ->]]; reflexivity. Qed.

Lemma anchored_stops_hash suffix :
  anchored suffix -> stops (other_than "#") suffix.
Proof. intros [->|[rest ->]]; reflexivity. Qed.

Lemma anchored_no_underscore suffix :
  anchored suffix -> hd_error suffix <> Some "_"%char.
Proof. intros [->|[rest ->]]; discriminate. Qed.

(** The table segment: [(?:[^#]+_)?([A-Za-z0-9]+)] *)
Lemma table_part t tn y tb suffix c :
  Forall (fun x => other_than "#" x = true) (t :: tn) ->
  Forall (fun x => alnum x = true) (y :: tb) ->
  anchored suffix ->
  run (Seq (Opt (Seq (Plus (other_than "#")) (Str "_")))
           (Group 2 (Plus alnum)))
      ((t :: tn) ++ "_"%char :: (y :: tb) ++ suffix) c (fun _ c' => Some c')
  = Some (set_group 2 (y :: tb) c).
Proof.
  intros Htn Htb Hsuf.
  inversion Htn as [|? ? Ht Htn']; subst.
  inversion Htb as [|? ? Hy Htb']; subst.
  rewrite run_seq. apply run_opt_taken. rewrite run_seq.
  cbn [app].
  change (y :: tb ++ suffix) with ((y :: tb) ++ suffix).
  apply run_plus_until; try assumption.
  - now apply Forall_alnum_hash_underscore.
  - now apply anchored_stops_hash.
  - now apply anchored_no_underscore.
  - intros s Hs. now apply run_char_fail.
  - reflexivity.
  - rewrite run_char. cbn [app].
    apply run_group_plus; try assumption.
    + now apply anchored_stops_alnum.
    + reflexivity.
Qed.

Lemma url_pattern_here n nm b bs t tn y tb suffix :
  Forall (fun x => other_than "/" x = true) (n :: nm) ->
  Forall (fun x => alnum x = true) (b :: bs) ->
  Forall (fun x => other_than "#" x = true) (t :: tn) ->
  Forall (fun x => alnum x = true) (y :: tb) ->
  anchored suffix ->
  match_here url_pattern (locator_path (n :: nm) (b :: bs) (t :: tn) (y :: tb) suffix)
  = Some (found (b :: bs) (y :: tb)).
Proof.
  intros Hname Hdoc Htn Htb Hsuf.
  inversion Hname as [|? ? Hn Hnm]; subst.
  inversion Hdoc as [|? ? Hb Hbs]; subst.
  unfold match_here, url_pattern, locator_path.
  set (table_segment := (t :: tn) ++ "_"%char :: (y :: tb) ++ suffix).
  rewrite run_seq.
  change ("/"%char :: "d"%char :: "/"%char
          :: (n :: nm) ++ "_"%char :: "d"%char :: (b :: bs) ++ "/"%char :: table_segment)
    with (list_ascii_of_string "/d/"
          ++ n :: nm ++ "_"%char
               :: ("d"%char :: b :: bs) ++ "/"%char :: table_segment).
  rewrite run_str, run_seq.
  apply run_plus_until; try assumption.
  - constructor; [split; [reflexivity|discriminate]|].
    now apply Forall_alnum_slash_underscore.
  - reflexivity.
  - discriminate.
  - intros s Hs. rewrite run_seq. now apply run_char_fail.
  - reflexivity.
  - rewrite run_seq, run_char, run_seq. apply run_opt_taken.
    cbn [app]. rewrite run_char, run_seq.
    apply run_group_plus; try assumption; [reflexivity|].
    rewrite run_seq, run_char.
    apply (table_part t tn y tb suffix (set_group 1 (b :: bs) no_captures));
      assumption.
Qed.

Lemma search_locator n nm b bs t tn y tb suffix :
  Forall (fun x => other_than "/" x = true) (n :: nm) ->
  Forall (fun x => alnum x = true) (b :: bs) ->
  Forall (fun x => other_than "#" x = true) (t :: tn) ->
  Forall (fun x => alnum x = true) (y :: tb) ->
  anchored suffix ->
  search_text url_pattern
    (list_ascii_of_string "https://coda.io"
     ++ locator_path (n :: nm) (b :: bs) (t :: tn) (y :: tb) suffix)
  = Some (found (b :: bs) (y :: tb)).
Proof.
  intros. cbn [list_ascii_of_string app].
  do 15 (rewrite search_text_skip by reflexivity).
  now apply search_text_here, url_pattern_here.
Qed.

Lemma anchor_anchored suffix : anchor suffix -> anchored (list_ascii_of_string suffix).
Proof.
  intros [->|[rest ->]]; [left; reflexivity|right; eexists; reflexivity].
Qed.

Lemma nonempty_text s :
  s <> ""%string -> exists x xs, list_ascii_of_string s = x :: xs.
Proof. destruct s as [|x s]; [congruence|]. intros _. now exists x, (list_ascii_of_string s). Qed.

Lemma locator_text name doc table_name table suffix :
  list_ascii_of_string
    ("https://coda.io/d/" ++ name ++ "_d" ++ doc ++ "/" ++ table_name ++ "_"
     ++ table ++ suffix)%string
  = list_ascii_of_string "https://coda.io"
    ++ locator_path (list_ascii_of_string name) (list_ascii_of_string doc)
                    (list_ascii_of_string table_name) (list_ascii_of_string table)
                    (list_ascii_of_string suffix).
Proof.
  unfold locator_path. rewrite !list_ascii_of_string_app.
  cbn [list_ascii_of_string app]. reflexivity.
Qed.

(** C9: a locator whose document segment is a name, [_d] and an
    alphanumeric id, and whose table segment is a name, [_] and an
    alphanumeric id (followed by nothing or by a [#] anchor), parses to
    the document id without its [d] and to the table id. *)
Theorem parse_coda_url_locator name doc table_name table suffix :
  name <> ""%string -> all_in (other_than "/") name ->
  doc <> ""%string -> all_in alnum doc ->
  table_name <> ""%string -> all_in (other_than "#") table_name ->
  table <> ""%string -> all_in alnum table ->
  anchor suffix ->
  parse_coda_url
    ("https://coda.io/d/" ++ name ++ "_d" ++ doc ++ "/" ++ table_name ++ "_"
     ++ table ++ suffix)%string
  = Ok (doc, Some table).
Proof.
  intros Hn0 Hn Hd0 Hd Ht0 Ht Hy0 Hy Hs.
  unfold parse_coda_url, search. rewrite locator_text.
  unfold all_in in *.
  destruct (nonempty_text name Hn0) as (n & nm & En).
  destruct (nonempty_text doc Hd0) as (b & bs & Ed).
  destruct (nonempty_text table_name Ht0) as (t & tn & Et).
  destruct (nonempty_text table Hy0) as (y & tb & Ey).
  rewrite En, Ed, Et, Ey in *.
  rewrite search_locator by (try assumption; now apply anchor_anchored).
  unfold group, found, set_group; cbn [Nat.eqb].
  rewrite <- Ed, <- Ey, !string_of_list_ascii_of_string.
  destruct (String.eqb_spec table ""); [contradiction|reflexivity].
Qed.

Lemma parse_coda_url_locator_witness :
  parse_coda_url "https://coda.io/d/Partner-WBR_dAbCd1234/Accounts_tuXyZ9#view"
  = Ok ("AbCd1234"%string, Some "tuXyZ9"%string).
Proof.
  apply (parse_coda_url_locator "Partner-WBR" "AbCd1234" "Accounts" "tuXyZ9" "#view");
    try discriminate;
    try (right; eexists; reflexivity);
    unfold all_in; cbn [list_ascii_of_string]; repeat constructor.
Defined.

End ParseUrl.

Module CodaFacts.
Import Py Http Coda Wire WireFacts PaginationSpec Pagination BatchSpec Batch CodaSpec.
Local Open Scope string_scope.
Local Open Scope list_scope.
Local Open Scope Z_scope.

Lemma absent_chosen self doc_id_arg :
  absent doc_id_arg -> absent (doc_id self) -> chosen_doc_id self doc_id_arg = None.
Proof.
  unfold chosen_doc_id. intros [->| ->] [->| ->]; reflexivity.
Qed.

(** Without a document id, neither passed nor held by the client, the
    calls raise [ValueError] before any request is made. *)
Theorem no_document_id_no_request
        fuel self doc_id_arg table_id table_name row_data key_columns row_ids w :
  absent doc_id_arg -> absent (doc_id self) ->
  let refused {A} : outcome A * world :=
    (Raised (ValueError "Document ID required"), w) in
  list_tables fuel self doc_id_arg true w = refused
  /\ find_table_by_name fuel self table_name doc_id_arg w = refused
  /\ list_rows self table_id doc_id_arg w = refused
  /\ upsert_row self table_id row_data key_columns doc_id_arg w = refused
  /\ delete_rows self table_name row_ids doc_id_arg w = refused.
Proof.
  intros Ha Hs. pose proof (absent_chosen self doc_id_arg Ha Hs) as Hc.
  cbv zeta.
  assert (Hl : list_tables fuel self doc_id_arg true w
               = (Raised (ValueError "Document ID required"), w)).
  { unfold list_tables. unfold Http.bind at 1.
    rewrite resolve_doc_id_eq, Hc. reflexivity. }
  repeat split.
  - exact Hl.
  - unfold find_table_by_name. unfold Http.bind at 1. rewrite Hl. reflexivity.
  - unfold list_rows. unfold Http.bind at 1.
    rewrite resolve_doc_id_eq, Hc. reflexivity.
  - unfold upsert_row. unfold Http.bind at 1.
    rewrite resolve_doc_id_eq, Hc. reflexivity.
  - unfold delete_rows. unfold Http.bind at 1.
    rewrite resolve_doc_id_eq, Hc. reflexivity.
Qed.

Lemma no_document_id_no_request_witness :
  delete_rows {| api_token := "token"; doc_id := None;
                 base_url := "https://coda.io/apis/v1";
                 default_table_id := None |}
              "grid-1" ["i-1"] (Some "") (world_of [])
  = (Raised (ValueError "Document ID required"), world_of []).
Proof.
  exact (proj2 (proj2 (proj2 (proj2
    (no_document_id_no_request
       0 {| api_token := "token"; doc_id := None;
            base_url := "https://coda.io/apis/v1"; default_table_id := None |}
       (Some "") JNull "grid-1" [] [] ["i-1"] (world_of [])
       (or_intror eq_refl) (or_introl eq_refl)))))).
Defined.

Lemma upsert_row_run self table_id row_data key_columns doc_id_arg d w :
  chosen_doc_id self doc_id_arg = Some d ->
  upsert_row self table_id row_data key_columns doc_id_arg w
  = (json_of_reply (upcoming w 0),
     after_requests w [post_rows_request self table_id d row_data key_columns]).
Proof.
  intros Hd. unfold upsert_row. unfold Http.bind at 1.
  rewrite resolve_doc_id_eq, Hd.
  unfold requests_post. unfold Http.bind at 1. rewrite send_eq.
  fold (post_rows_request self table_id d row_data key_columns).
  unfold json_of_reply. destruct (upcoming w 0) as [msg|status content];
    [reflexivity|].
  unfold raise_for_status, response_json. io_simpl.
  destruct ((400 <=? status) && (status <? 600)); [reflexivity|]. io_simpl.
  destruct content; reflexivity.
Qed.

(** [upsert_row] makes exactly one POST, with the cells of the row and
    the key columns; it raises on a failed connection, on a status from
    400 to 599 and on a body that is not JSON, and returns the parsed
    body otherwise. *)
Theorem upsert_row_single_post self table_id row_data key_columns doc_id_arg d w :
  chosen_doc_id self doc_id_arg = Some d ->
  upsert_row self table_id row_data key_columns doc_id_arg w
  = (json_of_reply (upcoming w 0),
     after_requests w [post_rows_request self table_id d row_data key_columns]).
Proof. apply upsert_row_run. Qed.

Lemma upsert_row_single_post_witness :
  chosen_doc_id sample_updater None = Some "AbCd1234"%string
  /\ fst (upsert_row sample_updater (JStr "grid-7") [("Partner", JStr "Pyxis")]
            ["Partner"] None (world_of [Response 429 None]))
     = Raised (HTTPError 429)
  /\ served (snd (upsert_row sample_updater (JStr "grid-7")
                    [("Partner", JStr "Pyxis")] ["Partner"] None
                    (world_of [Response 429 None]))) = 1%nat.
Proof.
  split; [reflexivity|].
  rewrite (upsert_row_single_post sample_updater (JStr "grid-7")
             [("Partner", JStr "Pyxis")] ["Partner"] None "AbCd1234"
             (world_of [Response 429 None]) eq_refl).
  split; reflexivity.
Defined.

(** [list_rows] makes exactly one GET and treats the reply in the same
    way. *)
Theorem list_rows_single_get self table_id doc_id_arg d w :
  chosen_doc_id self doc_id_arg = Some d ->
  list_rows self table_id doc_id_arg w
  = (json_of_reply (upcoming w 0),
     after_requests w [get_rows_request self table_id d]).
Proof.
  intros Hd. unfold list_rows. unfold Http.bind at 1.
  rewrite resolve_doc_id_eq, Hd.
  unfold requests_get. unfold Http.bind at 1. rewrite send_eq.
  fold (get_rows_request self table_id d).
  unfold json_of_reply. destruct (upcoming w 0) as [msg|status content];
    [reflexivity|].
  unfold raise_for_status, response_json. io_simpl.
  destruct ((400 <=? status) && (status <? 600)); [reflexivity|]. io_simpl.
  destruct content; reflexivity.
Qed.

Lemma list_rows_single_get_witness :
  chosen_doc_id sample_updater None = Some "AbCd1234"%string
  /\ fst (list_rows sample_updater (JStr "grid-7") None
            (world_of [Response 200 (Some (JObj [("items", JList [])]))]))
     = Return (JObj [("items", JList [])]).
Proof.
  split; [reflexivity|].
  rewrite (list_rows_single_get sample_updater (JStr "grid-7") None "AbCd1234"
             (world_of [Response 200 (Some (JObj [("items", JList [])]))])
             eq_refl).
  reflexivity.
Defined.

Lemma find_in_tables_first_named tables table_name w :
  find_in_tables (map JObj tables) table_name w
  = (Return (first_named tables table_name), w).
Proof.
  induction tables as [|fields tables IH]; [reflexivity|].
  cbn [map find_in_tables first_named]. unfold dict_get at 1. io_simpl.
  destruct (lookup "name" fields) as [[| | |n| |]|]; try exact IH.
  destruct (String.eqb n table_name); [|exact IH].
  unfold dict_get. io_simpl. reflexivity.
Qed.

Lemma find_table_by_name_run
      fuel self table_name doc_id_arg d w pages last tables :
  chosen_doc_id self doc_id_arg = Some d ->
  serves w 0 (pages ++ [last]) ->
  Forall (fun page => truthy (snd page) = true) pages ->
  truthy (snd last) = false ->
  (List.length pages < fuel)%nat ->
  items_of (pages ++ [last]) = map JObj tables ->
  find_table_by_name fuel self table_name doc_id_arg w
  = (Return (first_named tables table_name),
     after_requests w
       (page_requests self (tables_url self d) (first_params true) JNull
                      (pages ++ [last]))).
Proof.
  intros Hd Hs Hall Hlast Hfuel Hitems.
  unfold find_table_by_name. unfold Http.bind.
  assert (E : list_tables fuel self doc_id_arg true w
              = list_tables_loop fuel self (tables_url self d)
                                 (first_params true) [] JNull w).
  { unfold list_tables. unfold Http.bind at 1.
    rewrite resolve_doc_id_eq, Hd. reflexivity. }
  rewrite E, (list_tables_loop_pages _ _ pages _ _ _ _ _ last Hs Hall Hlast).
  apply Nat.ltb_lt in Hfuel. rewrite Hfuel. cbn [app].
  rewrite Hitems. apply find_in_tables_first_named.
Qed.

Lemma first_named_none tables table_name :
  (forall fields, In fields tables ->
                  lookup "name" fields <> Some (JStr table_name)) ->
  first_named tables table_name = JNull.
Proof.
  intros Hno. induction tables as [|fields tables IH]; [reflexivity|].
  cbn [first_named].
  pose proof (Hno fields (or_introl eq_refl)) as Hf.
  assert (IH' : first_named tables table_name = JNull)
    by (apply IH; intros f Hin; apply Hno; now right).
  destruct (lookup "name" fields) as [[| | |n| |]|]; try exact IH'.
  destruct (String.eqb_spec n table_name); [congruence|exact IH'].
Qed.

(** [find_table_by_name] reads every page of the listing (views
    included) and returns the id of the first table with the name, or
    [None] when no table has it. *)
Theorem find_table_by_name_first_match
        fuel self table_name doc_id_arg d w pages last tables :
  chosen_doc_id self doc_id_arg = Some d ->
  serves w 0 (pages ++ [last]) ->
  Forall (fun page => truthy (snd page) = true) pages ->
  truthy (snd last) = false ->
  (List.length pages < fuel)%nat ->
  items_of (pages ++ [last]) = map JObj tables ->
  find_table_by_name fuel self table_name doc_id_arg w
  = (Return (first_named tables table_name),
     after_requests w
       (page_requests self (tables_url self d) (first_params true) JNull
                      (pages ++ [last])))
  /\ ((forall fields, In fields tables ->
                      lookup "name" fields <> Some (JStr table_name)) ->
      first_named tables table_name = JNull).
Proof.
  intros Hd Hs Hall Hlast Hfuel Hitems.
  split; [now apply find_table_by_name_run|apply first_named_none].
Qed.

Lemma find_table_by_name_first_match_witness :
  fst (find_table_by_name 3 sample_updater "Partner Status" None same_name_twice)
  = Return (JStr "grid-2")
  /\ served (snd (find_table_by_name 3 sample_updater "Partner Status" None
                    same_name_twice)) = 2%nat.
Proof.
  assert (Hs : serves same_name_twice 0
                 ([([JObj [("id", JStr "grid-1"); ("name", JStr "Accounts")];
                     JObj [("id", JStr "grid-2"); ("name", JStr "Partner Status")]],
                    JStr "page-2")]
                  ++ [([JObj [("id", JStr "grid-3");
                              ("name", JStr "Partner Status")]], JNull)]))
    by (repeat split).
  assert (Hall : Forall (fun page : list json * json => truthy (snd page) = true)
                   [([JObj [("id", JStr "grid-1"); ("name", JStr "Accounts")];
                      JObj [("id", JStr "grid-2"); ("name", JStr "Partner Status")]],
                     JStr "page-2")])
    by (repeat constructor).
  destruct (find_table_by_name_first_match
              3 sample_updater "Partner Status" None "AbCd1234" same_name_twice
              _ _
              [[("id", JStr "grid-1"); ("name", JStr "Accounts")];
               [("id", JStr "grid-2"); ("name", JStr "Partner Status")];
               [("id", JStr "grid-3"); ("name", JStr "Partner Status")]]
              eq_refl Hs Hall eq_refl ltac:(cbn; lia) eq_refl) as [Hrun _].
  rewrite Hrun. split; reflexivity.
Defined.

Lemma list_tables_loop_error self url pages :
  forall fuel params all_items page_token w status content,
    serves w 0 pages ->
    Forall (fun page => truthy (snd page) = true) pages ->
    upcoming w (List.length pages) = Response status content ->
    400 <= status < 600 ->
    (List.length pages < fuel)%nat ->
    list_tables_loop fuel self url params all_items page_token w
    = (Raised (HTTPError status),
       after_requests w
         (page_requests self url params page_token (pages ++ [([], JNull)]))).
Proof.
  induction pages as [|[items token] pages IH];
    intros fuel params all_items page_token w status content Hs Hall Hup Hst Hfuel.
  - destruct fuel as [|fuel]; [cbn in Hfuel; lia|].
    cbn [list_tables_loop]. fold (next_params params page_token).
    unfold requests_get. unfold Http.bind at 1. rewrite send_eq.
    fold (page_request self url (next_params params page_token)).
    cbn [List.length] in Hup. rewrite Hup.
    unfold raise_for_status. io_simpl.
    replace ((400 <=? status) && (status <? 600)) with true
      by (symmetry; apply andb_true_iff; split;
          [apply Z.leb_le|apply Z.ltb_lt]; lia).
    reflexivity.
  - destruct fuel as [|fuel]; [cbn in Hfuel; lia|].
    rewrite list_tables_loop_unfold. cbn [serves] in Hs.
    destruct Hs as [Hp Hs]. rewrite (page_turn _ _ _ _ _ _ Hp).
    inversion Hall as [|? ? Htok Hall']; subst. cbn [snd] in Htok.
    rewrite Htok. cbn [negb].
    rewrite (IH fuel _ _ _ _ status content); try assumption.
    + rewrite after_requests_app. reflexivity.
    + now apply serves_after.
    + rewrite upcoming_after. exact Hup.
    + cbn [List.length] in Hfuel. lia.
Qed.

(** A page that is answered with an error status ends [list_tables] with
    [HTTPError]: the items of the pages read before it are not returned,
    and no further page is requested. *)
Theorem list_tables_stops_at_error
        fuel self doc_id_arg include_views d w pages status content :
  chosen_doc_id self doc_id_arg = Some d ->
  serves w 0 pages ->
  Forall (fun page => truthy (snd page) = true) pages ->
  upcoming w (List.length pages) = Response status content ->
  400 <= status < 600 ->
  (List.length pages < fuel)%nat ->
  list_tables fuel self doc_id_arg include_views w
  = (Raised (HTTPError status),
     after_requests w
       (page_requests self (tables_url self d) (first_params include_views)
                      JNull (pages ++ [([], JNull)]))).
Proof.
  intros Hd Hs Hall Hup Hst Hfuel.
  assert (E : list_tables fuel self doc_id_arg include_views w
              = list_tables_loop fuel self (tables_url self d)
                                 (first_params include_views) [] JNull w).
  { unfold list_tables. unfold Http.bind at 1. rewrite resolve_doc_id_eq, Hd.
    destruct include_views; reflexivity. }
  rewrite E. now apply list_tables_loop_error with (content := content).
Qed.

Lemma list_tables_stops_at_error_witness :
  fst (list_tables 5 sample_updater None true second_page_refused)
  = Raised (HTTPError 503)
  /\ served (snd (list_tables 5 sample_updater None true second_page_refused))
     = 2%nat.
Proof.
  assert (Hs : serves second_page_refused 0 [([JStr "t-1"], JStr "page-2")])
    by (repeat split).
  assert (Hall : Forall (fun page : list json * json => truthy (snd page) = true)
                        [([JStr "t-1"], JStr "page-2")])
    by (repeat constructor).
  rewrite (list_tables_stops_at_error
             5 sample_updater None true "AbCd1234" second_page_refused
             [([JStr "t-1"], JStr "page-2")] 503 None
             eq_refl Hs Hall eq_refl ltac:(lia) ltac:(cbn; lia)).
  split; reflexivity.
Defined.

Lemma is_set_or_else a b : is_set a = true -> or_else a b = a.
Proof.
  destruct a as [s|]; cbn; [|discriminate].
  destruct (String.eqb s ""); [discriminate|reflexivity].
Qed.

Lemma is_set_some s : s <> ""%string -> is_set (Some s) = true.
Proof. intros H. cbn. now destruct (String.eqb_spec s ""). Qed.

(** A client that [__init__] returns has a token, the one passed or else
    the one of the environment, and the address of the service's API. *)
Theorem init_client_has_token env api_token_arg doc_id_arg doc_url self :
  init env api_token_arg doc_id_arg doc_url = Ok self ->
  api_token self <> ""%string
  /\ Some (api_token self)
     = or_else api_token_arg (env_get env "CODA_API_TOKEN")
  /\ base_url self = "https://coda.io/apis/v1"%string.
Proof.
  unfold init. intros H.
  destruct (if is_set doc_url && negb (is_set doc_id_arg) then _ else _)
    as [parsed|e]; [|discriminate H].
  cbn [Py.bind] in H.
  destruct (or_else api_token_arg (env_get env "CODA_API_TOKEN")) as [t|];
    cbn [is_set negb] in H; [|discriminate H].
  destruct (String.eqb_spec t ""); cbn [negb] in H; [discriminate H|].
  injection H as <-. cbn. repeat split. assumption.
Qed.

Lemma init_client_has_token_witness :
  exists self,
    init [("CODA_API_TOKEN", "from-env")] None (Some "AbCd1234") None = Ok self
    /\ api_token self = "from-env"%string.
Proof.
  destruct (init [("CODA_API_TOKEN", "from-env")] None (Some "AbCd1234") None)
    as [self|e] eqn:E; [|vm_compute in E; discriminate E].
  exists self. split; [reflexivity|].
  destruct (init_client_has_token _ _ _ _ _ E) as (_ & Ht & _).
  cbn in Ht. now injection Ht.
Defined.

(** With a token and a document id passed, [__init__] does not look at
    the locator (it may be unparsable) nor at the environment. *)
Theorem init_explicit_arguments_win env token d doc_url :
  token <> ""%string -> d <> ""%string ->
  init env (Some token) (Some d) doc_url
  = Ok {| api_token := token; doc_id := Some d;
          base_url := "https://coda.io/apis/v1"; default_table_id := None |}.
Proof.
  intros Ht Hd. unfold init.
  rewrite (is_set_some d Hd), andb_false_r. cbn [Py.bind fst snd].
  rewrite !is_set_or_else by now apply is_set_some.
  rewrite (is_set_some token Ht). reflexivity.
Qed.

Lemma init_explicit_arguments_win_witness :
  init [("CODA_DOC_ID", "other")] (Some "token") (Some "AbCd1234")
       (Some "not a locator")
  = Ok {| api_token := "token"; doc_id := Some "AbCd1234"%string;
          base_url := "https://coda.io/apis/v1"; default_table_id := None |}.
Proof.
  apply (init_explicit_arguments_win [("CODA_DOC_ID", "other")] "token"
           "AbCd1234" (Some "not a locator")); discriminate.
Defined.

(** Without a document id, [__init__] takes the document id and the
    default table id from the locator, whatever the environment holds;
    a locator that does not parse makes it raise the parser's error. *)
Theorem init_reads_locator env token doc_id_arg url :
  token <> ""%string -> url <> ""%string -> is_set doc_id_arg = false ->
  (forall doc table,
      parse_coda_url url = Ok (doc, table) -> doc <> ""%string ->
      init env (Some token) doc_id_arg (Some url)
      = Ok {| api_token := token; doc_id := Some doc;
              base_url := "https://coda.io/apis/v1";
              default_table_id := if is_set table then table else None |})
  /\ (forall e, parse_coda_url url = Raise e ->
                init env (Some token) doc_id_arg (Some url) = Raise e).
Proof.
  intros Ht Hu Hd. unfold init.
  rewrite (is_set_some url Hu), Hd. cbn [andb negb]. split.
  - intros doc table -> Hdoc. cbn [Py.bind fst snd].
    rewrite !is_set_or_else by now apply is_set_some.
    rewrite (is_set_some token Ht). reflexivity.
  - intros e ->. reflexivity.
Qed.

Lemma init_reads_locator_witness :
  init [("CODA_DOC_ID", "other")] (Some "token") None
       (Some "https://coda.io/d/Partner-WBR_dAbCd1234/Accounts_tuXyZ9#view")
  = Ok {| api_token := "token"; doc_id := Some "AbCd1234"%string;
          base_url := "https://coda.io/apis/v1";
          default_table_id := Some "tuXyZ9"%string |}.
Proof.
  assert (Ht : "token"%string <> ""%string) by discriminate.
  assert (Hu : "https://coda.io/d/Partner-WBR_dAbCd1234/Accounts_tuXyZ9#view"%string
               <> ""%string) by discriminate.
  destruct (init_reads_locator [("CODA_DOC_ID", "other")] "token" None
              "https://coda.io/d/Partner-WBR_dAbCd1234/Accounts_tuXyZ9#view"
              Ht Hu eq_refl) as [Hok _].
  apply (Hok "AbCd1234" (Some "tuXyZ9")); [vm_compute; reflexivity|discriminate].
Defined.

(** [update_partner_status] looks the table up by name through all pages
    of the listing; when no table has the name it raises [ValueError]
    and posts nothing; otherwise it makes one POST to that table, keyed
    by the partner, with the defaults filled in for absent entries, and
    returns or raises as [upsert_row] does. *)
Theorem update_partner_status_upserts
        fuel self partner_name status_data table_name doc_id_arg d w pages last
        tables :
  chosen_doc_id self doc_id_arg = Some d ->
  serves w 0 (pages ++ [last]) ->
  Forall (fun page => truthy (snd page) = true) pages ->
  truthy (snd last) = false ->
  (List.length pages < fuel)%nat ->
  items_of (pages ++ [last]) = map JObj tables ->
  let listed :=
    after_requests w
      (page_requests self (tables_url self d) (first_params true) JNull
                     (pages ++ [last])) in
  let table_id := first_named tables table_name in
  update_partner_status fuel self partner_name status_data table_name doc_id_arg w
  = if truthy table_id
    then (json_of_reply (upcoming listed 0),
          after_requests listed
            [post_rows_request self table_id d
               (status_row partner_name status_data (today w)) ["Partner"]])
    else (Raised (ValueError ("Table '" ++ table_name ++ "' not found in document")),
          listed).
Proof.
  intros Hd Hs Hall Hlast Hfuel Hitems. cbv zeta.
  assert (Hd0 : d <> ""%string).
  { unfold chosen_doc_id in Hd.
    destruct (match doc_id_arg with
              | Some d0 => if String.eqb d0 "" then doc_id self else Some d0
              | None => doc_id self
              end) as [d0|]; [|discriminate].
    destruct (String.eqb_spec d0 ""); [discriminate|]. congruence. }
  unfold update_partner_status. unfold Http.bind at 1.
  rewrite resolve_doc_id_eq, Hd. unfold Http.bind at 1.
  rewrite (find_table_by_name_run fuel self table_name (Some d) d w pages last
             tables (chosen_doc_id_explicit self d Hd0) Hs Hall Hlast Hfuel Hitems).
  destruct (truthy (first_named tables table_name)); cbn [negb]; [|reflexivity].
  unfold Http.bind at 1, strftime_today.
  rewrite (upsert_row_run self _ _ _ (Some d) d _
             (chosen_doc_id_explicit self d Hd0)).
  reflexivity.
Qed.

Lemma update_partner_status_upserts_witness :
  fst (update_partner_status 3 sample_updater "Pyxis"
         [("platinum_status", JStr "Qualified")] "Partner Status" None
         status_table_listed)
  = Return (JObj [("requestId", JStr "r-1")])
  /\ fst (update_partner_status 3 sample_updater "Pyxis"
            [("platinum_status", JStr "Qualified")] "Partner Metrics" None
            status_table_listed)
     = Raised (ValueError "Table 'Partner Metrics' not found in document").
Proof.
  assert (Hs : serves status_table_listed 0
                 ([] ++ [([JObj [("id", JStr "grid-2");
                                 ("name", JStr "Partner Status")]], JNull)]))
    by (repeat split).
  split.
  - rewrite (update_partner_status_upserts
               3 sample_updater "Pyxis" [("platinum_status", JStr "Qualified")]
               "Partner Status" None "AbCd1234" status_table_listed [] _
               [[("id", JStr "grid-2"); ("name", JStr "Partner Status")]]
               eq_refl Hs (Forall_nil _) eq_refl ltac:(cbn; lia) eq_refl).
    reflexivity.
  - rewrite (update_partner_status_upserts
               3 sample_updater "Pyxis" [("platinum_status", JStr "Qualified")]
               "Partner Metrics" None "AbCd1234" status_table_listed [] _
               [[("id", JStr "grid-2"); ("name", JStr "Partner Status")]]
               eq_refl Hs (Forall_nil _) eq_refl ltac:(cbn; lia) eq_refl).
    reflexivity.
Defined.

Lemma format_row_pure partner_name acc w :
  snd (format_row partner_name acc w) = w.
Proof.
  unfold format_row, Http.bind, lift, strftime_today, Http.ret.
  destruct (to_float (plan_arr acc)); [|reflexivity].
  destruct (to_int (apps_used_28d acc)); [|reflexivity].
  destruct (to_int (tasks_success_billable acc)); reflexivity.
Qed.

Lemma format_rows_pure partner_name accounts w :
  snd (format_rows partner_name accounts w) = w.
Proof.
  induction accounts as [|acc accounts IH]; [reflexivity|].
  cbn [format_rows]. unfold Http.bind at 1.
  pose proof (format_row_pure partner_name acc w) as H1.
  destruct (format_row partner_name acc w) as [[row| |] w1]; cbn [snd] in *;
    subst w1; try reflexivity.
  unfold Http.bind at 1.
  destruct (format_rows partner_name accounts w) as [[rows| |] w2];
    cbn [snd] in *; subst w2; reflexivity.
Qed.

Lemma chosen_nonempty self doc_id_arg d :
  chosen_doc_id self doc_id_arg = Some d -> d <> ""%string.
Proof.
  unfold chosen_doc_id.
  destruct (match doc_id_arg with
            | Some d0 => if String.eqb d0 "" then doc_id self else Some d0
            | None => doc_id self
            end) as [d0|]; [|discriminate].
  destruct (String.eqb_spec d0 ""); [discriminate|]. congruence.
Qed.

(** [update_accounts_table], from the lookup of the table to the report:
    the table is looked up under the given name or under
    "<partner> Accounts"; every account is formatted before the first
    row is written, so an account that cannot be formatted makes the
    call raise with no row written; otherwise every row is posted and
    the report counts the rows that were accepted and lists the others. *)
Theorem update_accounts_table_end_to_end
        fuel self partner_name accounts table_name doc_id_arg d w pages last tables :
  chosen_doc_id self doc_id_arg = Some d ->
  serves w 0 (pages ++ [last]) ->
  Forall (fun page => truthy (snd page) = true) pages ->
  truthy (snd last) = false ->
  (List.length pages < fuel)%nat ->
  items_of (pages ++ [last]) = map JObj tables ->
  let listed :=
    after_requests w
      (page_requests self (tables_url self d) (first_params true) JNull
                     (pages ++ [last])) in
  let table_id :=
    first_named tables (accounts_table_name partner_name table_name) in
  truthy table_id = true ->
  update_accounts_table fuel self partner_name accounts table_name doc_id_arg w
  = match fst (format_rows partner_name accounts listed) with
    | Return rows =>
        (Return {| updated := successes listed 0 (List.length rows);
                   total := Z.of_nat (List.length rows);
                   errors := failures listed 0 rows |},
         after_requests listed (map (upsert_request self table_id d) rows))
    | Raised e => (Raised e, listed)
    | OutOfFuel => (OutOfFuel, listed)
    end.
Proof.
  intros Hd Hs Hall Hlast Hfuel Hitems. cbv zeta. intros Hfound.
  pose proof (chosen_nonempty _ _ _ Hd) as Hd0.
  unfold update_accounts_table. unfold Http.bind at 1.
  rewrite resolve_doc_id_eq, Hd.
  fold (accounts_table_name partner_name table_name).
  unfold Http.bind at 1.
  rewrite (find_table_by_name_run fuel self _ (Some d) d w pages last
             tables (chosen_doc_id_explicit self d Hd0) Hs Hall Hlast Hfuel Hitems).
  rewrite Hfound. cbn [negb]. unfold Http.bind at 1.
  set (listed := after_requests w _).
  pose proof (format_rows_pure partner_name accounts listed) as Hpure.
  destruct (format_rows partner_name accounts listed) as [[rows| |] w1];
    cbn [fst snd] in *; subst w1; try reflexivity.
  unfold upsert_accounts, Http.bind.
  rewrite upsert_each_spec by assumption. reflexivity.
Qed.

Lemma update_accounts_table_end_to_end_witness :
  (exists e,
      fst (update_accounts_table 3 sample_updater "Pyxis"
             [account "a-1" (PyInt 10); account "a-2" (PyFloat S754_nan)]
             None None accounts_listed) = Raised e)
  /\ served (snd (update_accounts_table 3 sample_updater "Pyxis"
                    [account "a-1" (PyInt 10); account "a-2" (PyFloat S754_nan)]
                    None None accounts_listed)) = 1%nat
  /\ fst (update_accounts_table 3 sample_updater "Pyxis"
            [account "a-1" (PyInt 10); account "a-2" (PyInt 20)]
            None None accounts_listed)
     = Return {| updated := 1; total := 2;
                 errors := [{| error_key := JStr "a-2";
                               error_exn := HTTPError 400 |}] |}.
Proof.
  assert (Hs : serves accounts_listed 0
                 ([] ++ [([JObj [("id", JStr "grid-7");
                                 ("name", JStr "Pyxis Accounts")]], JNull)]))
    by (repeat split).
  pose proof (fun accounts =>
    update_accounts_table_end_to_end
      3 sample_updater "Pyxis" accounts None None "AbCd1234" accounts_listed [] _
      [[("id", JStr "grid-7"); ("name", JStr "Pyxis Accounts")]]
      eq_refl Hs (Forall_nil _) eq_refl ltac:(cbn; lia) eq_refl eq_refl) as Hrun.
  cbv zeta in Hrun. rewrite !Hrun.
  split; [eexists; reflexivity|]. split; reflexivity.
Defined.

End CodaFacts.

Module LocatorFacts.
Import Py Re Coda UrlSpec ReFacts ParseUrl LocatorSpec.
Local Open Scope string_scope.
Local Open Scope list_scope.

Lemma search_needs_literal lit r s :
  occurs (list_ascii_of_string lit) s = false ->
  search_text (Seq (Str lit) r) s = None.
Proof.
  induction s as [|x s IH]; cbn [occurs search_text]; unfold match_here;
    cbn [run]; destruct (strip_prefix (list_ascii_of_string lit) _);
    try discriminate; try reflexivity.
  exact IH.
Qed.

(** A locator in which [/d/] does not occur is rejected with
    [ValueError], the message quoting the locator. *)
Theorem parse_coda_url_rejects url :
  occurs (list_ascii_of_string "/d/") (list_ascii_of_string url) = false ->
  parse_coda_url url = Raise (ValueError ("Could not parse Coda URL: " ++ url)).
Proof.
  intros H. unfold parse_coda_url, search, url_pattern, doc_pattern.
  now rewrite !search_needs_literal.
Qed.

Lemma parse_coda_url_rejects_witness :
  parse_coda_url "https://coda.io/docs/Partner-WBR"
  = Raise (ValueError "Could not parse Coda URL: https://coda.io/docs/Partner-WBR").
Proof.
  exact (parse_coda_url_rejects "https://coda.io/docs/Partner-WBR" eq_refl).
Defined.

Lemma strip_prefix_keeps (P : ascii -> Prop) lit s s' :
  strip_prefix lit s = Some s' -> Forall P s -> Forall P s'.
Proof.
  revert s. induction lit as [|c lit IH]; intros s H Hs; cbn in H.
  - now injection H as <-.
  - destruct s as [|x s]; [discriminate|].
    destruct (Ascii.eqb c x); [|discriminate].
    inversion Hs; subst. now apply (IH s).
Qed.

Lemma star_fails {A} (P : ascii -> Prop) class (k : text -> option A) s :
  (forall s', Forall P s' -> k s' = None) ->
  Forall P s -> star class s k = None.
Proof.
  intros Hk. induction s as [|x s IH]; intros Hs; cbn [star].
  - now apply Hk.
  - inversion Hs; subst. rewrite IH by assumption.
    destruct (class x); now apply Hk.
Qed.

(** What follows a pattern has to match a remainder of the text: when it
    fails on every text of a kind that remainders keep, the whole fails. *)
Lemma run_fails (P : ascii -> Prop) r :
  forall k,
    (forall s c, Forall P s -> k s c = None) ->
    forall s c, Forall P s -> run r s c k = None.
Proof.
  induction r as [lit|class|r1 IH1|r1 IH1 r2 IH2|n r1 IH1];
    intros k Hk s c Hs; cbn [run].
  - destruct (strip_prefix (list_ascii_of_string lit) s) as [s'|] eqn:E;
      [|reflexivity].
    apply Hk. now apply (strip_prefix_keeps P _ _ _ E).
  - destruct s as [|x s]; [reflexivity|]. inversion Hs; subst.
    destruct (class x); [|reflexivity].
    apply (star_fails P); [|assumption]. intros s' Hs'. now apply Hk.
  - rewrite IH1 by assumption. now apply Hk.
  - apply IH1; [|assumption]. intros s' c' Hs'. now apply IH2.
  - apply IH1; [|assumption]. intros s' c' Hs'. now apply Hk.
Qed.

Lemma no_slash_head s : no_slash s -> hd_error s <> Some "/"%char.
Proof.
  intros H. destruct s as [|x s]; [discriminate|].
  inversion H as [|? ? Hx _]; subst. intros [= ->]. discriminate Hx.
Qed.

(** The first pattern needs a slash after the document id. *)
Lemma url_pattern_needs_slash s :
  no_slash s ->
  match_here url_pattern (list_ascii_of_string "/d/" ++ s) = None.
Proof.
  intros Hs. unfold match_here, url_pattern.
  rewrite run_seq, run_str, run_seq.
  apply (run_fails (fun x => other_than "/" x = true)); [|exact Hs].
  intros s1 c1 H1. rewrite run_seq.
  apply (run_fails (fun x => other_than "/" x = true)); [|exact H1].
  intros s2 c2 H2. rewrite run_seq.
  apply (run_fails (fun x => other_than "/" x = true)); [|exact H2].
  intros s3 c3 H3. rewrite run_seq.
  apply (run_fails (fun x => other_than "/" x = true)); [|exact H3].
  intros s4 c4 H4. rewrite run_seq.
  apply run_char_fail. now apply no_slash_head.
Qed.

Lemma search_no_slash lit r s :
  no_slash s -> search_text (Seq (Str (String "/" lit)) r) s = None.
Proof.
  intros Hs. induction s as [|x s IH]; cbn [search_text]; unfold match_here;
    rewrite run_seq, run_char_fail by (now apply no_slash_head).
  - reflexivity.
  - inversion Hs; subst. now apply IH.
Qed.

Lemma slash_d_slash_needs_slash r s :
  no_slash s -> match_here (Seq (Str "/d/") r) ("/"%char :: s) = None.
Proof.
  intros Hs. unfold match_here. cbn [run list_ascii_of_string strip_prefix].
  rewrite Ascii.eqb_refl.
  destruct s as [|x [|y s]]; try reflexivity;
    destruct (Ascii.eqb "d" x); try reflexivity.
  inversion Hs as [|? ? _ Hs']; subst. inversion Hs' as [|? ? Hy _]; subst.
  destruct (Ascii.eqb_spec "/" y) as [<-|]; [discriminate Hy|reflexivity].
Qed.

Lemma document_path_no_slash name doc :
  no_slash name -> Forall (fun x => alnum x = true) doc ->
  no_slash (name ++ "_"%char :: ("d"%char :: doc) ++ []).
Proof.
  intros Hn Hd. unfold no_slash. rewrite app_nil_r.
  apply Forall_app. split; [assumption|].
  constructor; [reflexivity|]. constructor; [reflexivity|].
  now apply Forall_alnum_slash.
Qed.

Lemma url_pattern_not_found n nm b bs :
  no_slash (n :: nm) -> Forall (fun x => alnum x = true) (b :: bs) ->
  search_text url_pattern
    (list_ascii_of_string "https://coda.io" ++ document_path (n :: nm) (b :: bs))
  = None.
Proof.
  intros Hn Hb.
  pose proof (document_path_no_slash _ _ Hn Hb) as Hrest.
  unfold document_path in *. cbn [list_ascii_of_string app] in *.
  do 15 (rewrite search_text_skip by reflexivity).
  rewrite search_text_skip
    by (apply (url_pattern_needs_slash (n :: nm ++ _)); exact Hrest).
  rewrite search_text_skip by reflexivity.
  rewrite search_text_skip
    by (apply (slash_d_slash_needs_slash _ (n :: nm ++ _)); exact Hrest).
  now apply search_no_slash.
Qed.

Lemma doc_pattern_found n nm b bs :
  no_slash (n :: nm) -> Forall (fun x => alnum x = true) (b :: bs) ->
  search_text doc_pattern
    (list_ascii_of_string "https://coda.io" ++ document_path (n :: nm) (b :: bs))
  = Some (set_group 1 (b :: bs) no_captures).
Proof.
  intros Hn Hb.
  inversion Hn as [|? ? Hn0 Hnm]; subst. inversion Hb as [|? ? Hb0 Hbs]; subst.
  cbn [list_ascii_of_string app].
  do 15 (rewrite search_text_skip by reflexivity).
  apply search_text_here. unfold match_here, doc_pattern.
  unfold document_path. rewrite run_seq, run_str, run_seq.
  apply (run_plus_until (other_than "/") n nm "_"%char ("d"%char :: b :: bs) []);
    try assumption.
  - constructor; [split; [reflexivity|discriminate]|].
    now apply Forall_alnum_slash_underscore.
  - exact I.
  - discriminate.
  - intros s Hs. rewrite run_seq. now apply run_char_fail.
  - reflexivity.
  - rewrite run_seq, run_char, run_seq. apply run_opt_taken.
    cbn [app]. rewrite run_char.
    apply run_group_plus; try assumption; reflexivity.
Qed.

Lemma document_text name doc :
  list_ascii_of_string ("https://coda.io/d/" ++ name ++ "_d" ++ doc)%string
  = list_ascii_of_string "https://coda.io"
    ++ document_path (list_ascii_of_string name) (list_ascii_of_string doc).
Proof.
  unfold document_path. rewrite !list_ascii_of_string_app.
  cbn [list_ascii_of_string app]. rewrite app_nil_r. reflexivity.
Qed.

(** A locator that ends with the document segment, a name, [_d] and an
    alphanumeric id, does not match the first pattern and is parsed by
    the fallback: the document id without its [d], and no table id. *)
Theorem parse_coda_url_document_only name doc :
  name <> ""%string -> all_in (other_than "/") name ->
  doc <> ""%string -> all_in alnum doc ->
  parse_coda_url ("https://coda.io/d/" ++ name ++ "_d" ++ doc)%string
  = Ok (doc, None).
Proof.
  intros Hn0 Hn Hd0 Hd.
  unfold parse_coda_url, search. rewrite document_text.
  unfold all_in in *.
  destruct (nonempty_text name Hn0) as (n & nm & En).
  destruct (nonempty_text doc Hd0) as (b & bs & Ed).
  rewrite En, Ed in *.
  rewrite url_pattern_not_found, doc_pattern_found by assumption.
  unfold group, set_group; cbn [Nat.eqb].
  now rewrite <- Ed, string_of_list_ascii_of_string.
Qed.

Lemma parse_coda_url_document_only_witness :
  parse_coda_url "https://coda.io/d/Partner-WBR_dAbCd1234"
  = Ok ("AbCd1234"%string, None).
Proof.
  apply (parse_coda_url_document_only "Partner-WBR" "AbCd1234");
    try discriminate;
    unfold all_in; cbn [list_ascii_of_string]; repeat constructor.
Defined.

End LocatorFacts.


(* ===================================================================== *)
(** * notebooks/update_coda_dashboard_daily.py: theorems                *)
(* ===================================================================== *)

Module Singleton.
Import Py Http Coda Dashboard Wire WireFacts SingletonSpec.
Local Open Scope string_scope.
Local Open Scope list_scope.
Local Open Scope Z_scope.

Lemma count_rows_spec self table_id w items :
  doc_id self <> ""%string ->
  as_listing (upcoming w 0) = Some items ->
  count_rows self table_id w
  = (Return (Z.of_nat (List.length items)),
     after w [Sent (poll_request self table_id)]).
Proof.
  intros Hd Hl. unfold count_rows, list_rows.
  unfold Http.bind at 1. unfold Http.bind at 1. unfold Http.bind at 1.
  rewrite resolve_doc_id_eq, chosen_doc_id_explicit by assumption.
  unfold requests_get. unfold Http.bind at 1. rewrite send_after.
  change (Sent _) with (Sent (poll_request self table_id)).
  unfold as_listing in Hl.
  destruct (upcoming w 0) as [|status [[| | | | |fields]|]]; try discriminate.
  unfold raise_for_status, response_json, get_items, iterate, dict_get. io_simpl.
  destruct ((400 <=? status) && (status <? 600)); [discriminate|]. io_simpl.
  destruct (lookup "items" fields) as [[| | | |l|]|]; try discriminate;
    io_simpl; congruence.
Qed.

Lemma sent_in_idle_polls self table_id max_retries retry left :
  List.length (filter is_sent (idle_polls self table_id max_retries retry left))
  = left.
Proof.
  revert retry. induction left as [|left IH]; intros retry; cbn; [reflexivity|].
  destruct (retry <? max_retries - 1); cbn; now rewrite IH.
Qed.

(** When every poll is answered, the wait for the row returns: it never
    raises. *)
Lemma await_inserted_returns self table_name table_id max_retries :
  doc_id self <> ""%string ->
  forall left retry w,
    (forall i, (i < left)%nat -> exists items, as_listing (upcoming w i) = Some items) ->
    exists seen w',
      await_inserted self table_name table_id max_retries retry left w
      = (Return seen, w')
      /\ (seen = None \/ seen = Some true).
Proof.
  intros Hd. induction left as [|left IH]; intros retry w Hpolls.
  - exists None, w. split; [reflexivity|left; reflexivity].
  - destruct (Hpolls 0%nat ltac:(lia)) as [items Hl].
    cbn [await_inserted]. unfold Http.bind at 1.
    rewrite (count_rows_spec self table_id w items Hd Hl).
    destruct (1 <=? Z.of_nat (List.length items)).
    + unfold Http.bind at 1.
      destruct (Z.of_nat (List.length items) =? 1).
      * rewrite print_eq. io_simpl. eexists _, _. split; [reflexivity|right; reflexivity].
      * unfold Http.bind at 1. rewrite !print_eq. io_simpl.
        eexists _, _. split; [reflexivity|right; reflexivity].
    + unfold Http.bind at 1.
      assert (Hnext : forall w1 n, (forall i, (i < left)%nat ->
                exists items, as_listing (upcoming (after w1 n) i) = Some items) ->
                exists seen w',
                  await_inserted self table_name table_id max_retries (retry + 1) left
                                 (after w1 n) = (Return seen, w')
                  /\ (seen = None \/ seen = Some true)) by (intros; now apply IH).
      destruct (retry <? max_retries - 1).
      * rewrite sleep_eq, after_app. apply Hnext.
        intros i Hi. rewrite upcoming_after_events. cbn. apply Hpolls. lia.
      * io_simpl. apply Hnext.
        intros i Hi. rewrite upcoming_after_events. cbn. apply Hpolls. lia.
Qed.

(** When every poll shows an empty table, the wait falls out of its loop
    after all of its polls. *)
Lemma await_inserted_idle self table_name table_id max_retries :
  doc_id self <> ""%string ->
  forall left retry w,
    (forall i, (i < left)%nat -> as_listing (upcoming w i) = Some []) ->
    await_inserted self table_name table_id max_retries retry left w
    = (Return None, after w (idle_polls self table_id max_retries retry left)).
Proof.
  intros Hd. induction left as [|left IH]; intros retry w Hpolls.
  - cbn. rewrite after_nil. reflexivity.
  - cbn [await_inserted idle_polls]. unfold Http.bind at 1.
    rewrite (count_rows_spec self table_id w [] Hd (Hpolls 0%nat ltac:(lia))).
    cbn [List.length Z.of_nat Z.leb Z.compare]. unfold Http.bind at 1.
    destruct (retry <? max_retries - 1).
    + rewrite sleep_eq, after_app, IH.
      * rewrite after_app. reflexivity.
      * intros i Hi. rewrite upcoming_after_events. cbn. apply Hpolls. lia.
    + io_simpl. rewrite IH.
      * rewrite after_app. reflexivity.
      * intros i Hi. rewrite upcoming_after_events. cbn. apply Hpolls. lia.
Qed.

Lemma insert_and_verify_accepted
      self table_name table_id column_id column_name summary_text w status content :
  doc_id self <> ""%string ->
  upcoming w 0 = Response status content ->
  status = 200 \/ status = 202 ->
  (forall i, (i < 8)%nat -> exists items, as_listing (upcoming w (S i)) = Some items) ->
  (exists w',
     insert_and_verify self table_name table_id column_id column_name
                       summary_text w = (Return true, w'))
  /\ ((forall i, (i < 8)%nat -> as_listing (upcoming w (S i)) = Some []) ->
      insert_and_verify self table_name table_id column_id column_name
                        summary_text w
      = (Return true,
         after w ([Sent (insert_request self table_id
                           (chosen_column column_id column_name) summary_text);
                   Slept 5]
                  ++ idle_polls self table_id 8 0 8
                  ++ not_visible_warning))).
Proof.
  intros Hd Hreply Hstatus Hpolls.
  set (post := insert_request self table_id (chosen_column column_id column_name)
                              summary_text).
  set (w1 := after w [Sent post; Slept 5]).
  assert (Hup : forall i, upcoming w1 i = upcoming w (S i)).
  { intros i. subst w1. rewrite upcoming_after_events. reflexivity. }
  assert (Hstart :
    forall seen w2,
      await_inserted self table_name table_id 8 0 8 w1 = (Return seen, w2) ->
      insert_and_verify self table_name table_id column_id column_name
                        summary_text w
      = match seen with
        | Some b => (Return b, w2)
        | None => (Return true, after w2 not_visible_warning)
        end).
  { intros seen w2 Hrun.
    unfold insert_and_verify. fold (chosen_column column_id column_name).
    unfold Http.bind at 1, try_except, Http.bind at 1.
    unfold requests_post. rewrite send_after, Hreply.
    fold (insert_request self table_id (chosen_column column_id column_name)
                         summary_text). fold post.
    cbn [fst].
    replace ((status =? 200) || (status =? 202)) with true
      by (destruct Hstatus as [-> | ->]; reflexivity).
    unfold Http.bind at 1. rewrite sleep_eq, after_app. cbn [app]. fold w1.
    unfold Http.bind at 1. rewrite Hrun.
    destruct seen as [b|]; [reflexivity|].
    unfold Http.bind at 1. rewrite print_eq.
    unfold Http.bind at 1. rewrite print_eq. io_simpl.
    rewrite after_app. reflexivity. }
  split.
  - destruct (await_inserted_returns self table_name table_id 8 Hd 8%nat 0 w1)
      as (seen & w2 & Hrun & Hseen).
    { intros i Hi. rewrite Hup. now apply Hpolls. }
    rewrite (Hstart _ _ Hrun).
    destruct Hseen as [-> | ->]; eexists; reflexivity.
  - intros Hidle.
    rewrite (Hstart None (after w1 (idle_polls self table_id 8 0 8))).
    + subst w1. rewrite !after_app. cbn [app]. reflexivity.
    + apply await_inserted_idle; [assumption|].
      intros i Hi. rewrite Hup. now apply Hidle.
Qed.

(** When the table was located, the insert is answered with 200 or 202
    and each of the eight polls that follow is answered with a listing,
    [update_executive_summary_text] returns [True] whatever the polls
    list; when none of them lists a row, all eight are made, the two
    warning lines are printed, and the result is still [True]. *)
Theorem accepted_insert_is_success
        fuel self summary_text w0 w
        table_name table_id column_id column_name status content :
  doc_id self <> ""%string ->
  locate_and_clear fuel self w0
  = (Return (Some (table_name, table_id, column_id, column_name)), w) ->
  upcoming w 0 = Response status content ->
  status = 200 \/ status = 202 ->
  (forall i, (i < 8)%nat -> exists items, as_listing (upcoming w (S i)) = Some items) ->
  (exists w',
     update_executive_summary_text fuel self summary_text w0 = (Return true, w'))
  /\ ((forall i, (i < 8)%nat -> as_listing (upcoming w (S i)) = Some []) ->
      update_executive_summary_text fuel self summary_text w0
      = (Return true,
         after w ([Sent (insert_request self table_id
                           (chosen_column column_id column_name) summary_text);
                   Slept 5]
                  ++ idle_polls self table_id 8 0 8
                  ++ not_visible_warning))).
Proof.
  intros Hd Hloc Hreply Hstatus Hpolls.
  unfold update_executive_summary_text, Http.bind. rewrite Hloc.
  now apply insert_and_verify_accepted with (status := status) (content := content).
Qed.

Lemma accepted_insert_is_success_witness :
  fst (locate_and_clear 5 sample_dashboard never_visible)
  = Return (Some ("Executive Summary"%string, JStr "grid-9", JStr "c-1",
                  JStr "Summary Text"))
  /\ upcoming (snd (locate_and_clear 5 sample_dashboard never_visible)) 0
     = Response 202 (Some (JObj []))
  /\ fst (update_executive_summary_text 5 sample_dashboard "On track" never_visible)
     = Return true
  /\ served (snd (update_executive_summary_text 5 sample_dashboard "On track"
                    never_visible)) = 12%nat.
Proof.
  split; [reflexivity|]. split; [reflexivity|].
  assert (Hd : doc_id sample_dashboard <> ""%string) by discriminate.
  assert (Hpolls : forall i, (i < 8)%nat ->
            as_listing (upcoming (snd (locate_and_clear 5 sample_dashboard
                                         never_visible)) (S i)) = Some []).
  { intros i Hi. do 8 (destruct i as [|i]; [reflexivity|]). lia. }
  destruct (accepted_insert_is_success
              5 sample_dashboard "On track" never_visible
              (snd (locate_and_clear 5 sample_dashboard never_visible))
              "Executive Summary" (JStr "grid-9") (JStr "c-1")
              (JStr "Summary Text") 202 (Some (JObj []))
              Hd eq_refl eq_refl (or_intror eq_refl)
              (fun i Hi => ex_intro _ [] (Hpolls i Hi))) as [_ Hidle].
  rewrite (Hidle Hpolls). split; reflexivity.
Defined.

(** C7: an accepted insert does not always end in success.  The polls
    are inside the [try] whose [except] retries the insert under other
    column names, so a poll that raises after the insert was accepted
    with 202 sends the row again: with the service unreachable from then
    on, seven more POSTs are tried and the result is [False]; with the
    service back, the row is posted, and accepted, a second time. *)
Theorem poll_failure_after_accepted_insert :
  fst (locate_and_clear 5 sample_dashboard poll_refused)
  = Return (Some ("Executive Summary"%string, JStr "grid-9", JStr "c-1",
                  JStr "Summary Text"))
  /\ upcoming (snd (locate_and_clear 5 sample_dashboard poll_refused)) 0
     = Response 202 (Some (JObj []))
  /\ upcoming (snd (locate_and_clear 5 sample_dashboard poll_refused)) 1
     = Response 500 None
  /\ fst (update_executive_summary_text 5 sample_dashboard "On track" poll_refused)
     = Return false
  /\ served (snd (update_executive_summary_text 5 sample_dashboard "On track"
                    poll_refused)) = 12%nat
  /\ List.length (posts (trace (snd (update_executive_summary_text
                                       5 sample_dashboard "On track" poll_refused))))
     = 8%nat
  /\ fst (update_executive_summary_text 5 sample_dashboard "On track"
            poll_refused_once)
     = Return true
  /\ posts (trace (snd (update_executive_summary_text
                          5 sample_dashboard "On track" poll_refused_once)))
     = [insert_request sample_dashboard (JStr "grid-9") (JStr "c-1") "On track";
        insert_request sample_dashboard (JStr "grid-9") (JStr "c-1") "On track"].
Proof. repeat split; vm_compute; reflexivity. Qed.

End Singleton.

Module DashboardFacts.
Import Py Http Coda Dashboard Wire WireFacts PaginationSpec Pagination SingletonSpec Singleton CodaSpec CodaFacts DashboardSpec.
Local Open Scope string_scope.
Local Open Scope list_scope.
Local Open Scope Z_scope.

Lemma await_inserted_seen self table_name table_id max_retries :
  doc_id self <> ""%string ->
  forall k left retry w items,
    (k < left)%nat ->
    (forall i, (i < k)%nat -> as_listing (upcoming w i) = Some []) ->
    as_listing (upcoming w k) = Some items -> items <> [] ->
    await_inserted self table_name table_id max_retries retry left w
    = (Return (Some true),
       after w (idle_polls self table_id max_retries retry k
                ++ Sent (poll_request self table_id)
                   :: seen_report table_name (Z.of_nat (List.length items)))).
Proof.
  intros Hd. induction k as [|k IH]; intros left retry w items Hk Hidle Hl Hne.
  - destruct left as [|left]; [lia|].
    cbn [await_inserted idle_polls app]. unfold Http.bind at 1.
    rewrite (count_rows_spec self table_id w items Hd Hl).
    destruct items as [|x items]; [congruence|].
    replace (1 <=? Z.of_nat (List.length (x :: items))) with true
      by (symmetry; apply Z.leb_le; cbn [List.length]; lia).
    unfold Http.bind at 1. unfold seen_report.
    destruct (Z.of_nat (List.length (x :: items)) =? 1).
    + rewrite print_eq. io_simpl. rewrite after_app. reflexivity.
    + unfold Http.bind at 1. rewrite !print_eq. io_simpl.
      rewrite !after_app. reflexivity.
  - destruct left as [|left]; [lia|].
    cbn [await_inserted idle_polls]. unfold Http.bind at 1.
    rewrite (count_rows_spec self table_id w [] Hd (Hidle 0%nat ltac:(lia))).
    cbn [List.length Z.of_nat Z.leb Z.compare]. unfold Http.bind at 1.
    destruct (retry <? max_retries - 1).
    + rewrite sleep_eq, after_app.
      rewrite (IH left (retry + 1) _ items); try assumption; try lia.
      * rewrite after_app. cbn [app]. rewrite <- ?app_assoc. reflexivity.
      * intros i Hi. rewrite upcoming_after_events. cbn. apply Hidle. lia.
      * rewrite upcoming_after_events. exact Hl.
    + io_simpl.
      rewrite (IH left (retry + 1) _ items); try assumption; try lia.
      * rewrite after_app. reflexivity.
      * intros i Hi. rewrite upcoming_after_events. cbn. apply Hidle. lia.
      * rewrite upcoming_after_events. exact Hl.
Qed.

(** The wait for the inserted row stops at the first poll that lists a
    row: after [k] polls that list nothing, the next poll that lists
    rows ends it with [True], and no further poll is made. *)
Theorem poll_stops_when_row_is_seen
        self table_name table_id max_retries k left retry w items :
  doc_id self <> ""%string ->
  (k < left)%nat ->
  (forall i, (i < k)%nat -> as_listing (upcoming w i) = Some []) ->
  as_listing (upcoming w k) = Some items -> items <> [] ->
  fst (await_inserted self table_name table_id max_retries retry left w)
  = Return (Some true)
  /\ served (snd (await_inserted self table_name table_id max_retries retry left w))
     = (served w + S k)%nat.
Proof.
  intros Hd Hk Hidle Hl Hne.
  rewrite (await_inserted_seen self table_name table_id max_retries Hd
             k left retry w items Hk Hidle Hl Hne).
  split; [reflexivity|]. cbn [snd after served]. f_equal.
  rewrite filter_app, length_app, sent_in_idle_polls. cbn [filter is_sent].
  unfold seen_report.
  destruct (Z.of_nat (List.length items) =? 1); cbn; lia.
Qed.

Lemma poll_stops_when_row_is_seen_witness :
  doc_id sample_dashboard <> ""%string
  /\ fst (await_inserted sample_dashboard "Executive Summary" (JStr "grid-9") 8 0 8
            seen_at_third_poll)
     = Return (Some true)
  /\ served (snd (await_inserted sample_dashboard "Executive Summary"
                    (JStr "grid-9") 8 0 8 seen_at_third_poll)) = 3%nat.
Proof.
  assert (Hd : doc_id sample_dashboard <> ""%string) by discriminate.
  split; [exact Hd|].
  apply (poll_stops_when_row_is_seen
           sample_dashboard "Executive Summary" (JStr "grid-9") 8 2 8 0
           seen_at_third_poll [JObj [("id", JStr "i-1")]] Hd).
  - lia.
  - intros i Hi. do 2 (destruct i as [|i]; [reflexivity|]). lia.
  - reflexivity.
  - discriminate.
Defined.

(** When the document has neither an "Executive Summary" nor an
    "Executive Summary Text" table, [update_executive_summary_text]
    lists the tables twice, prints two lines and returns [False]: it
    deletes nothing and inserts nothing. *)
Theorem summary_table_missing fuel self summary_text w tables tables' :
  doc_id self <> ""%string ->
  (0 < fuel)%nat ->
  as_page (upcoming w 0) = Some (map JObj tables, JNull) ->
  as_page (upcoming w 1) = Some (map JObj tables', JNull) ->
  first_named tables "Executive Summary" = JNull ->
  first_named tables' "Executive Summary Text" = JNull ->
  update_executive_summary_text fuel self summary_text w
  = (Return false,
     after w ([Sent (listing_request self); Sent (listing_request self)]
              ++ no_table_found)).
Proof.
  intros Hd Hfuel Hp Hp' Hn Hn'.
  pose proof (chosen_doc_id_explicit (updater self) (doc_id self) Hd) as Hc.
  unfold update_executive_summary_text, locate_and_clear.
  unfold Http.bind at 1. unfold Http.bind at 1.
  rewrite (find_table_by_name_run fuel (updater self) "Executive Summary"
             (Some (doc_id self)) (doc_id self) w [] (map JObj tables, JNull)
             tables Hc (conj Hp I) (Forall_nil _) eq_refl Hfuel
             ltac:(unfold items_of; cbn; apply app_nil_r)).
  rewrite Hn. cbn [truthy negb]. unfold Http.bind at 1. unfold Http.bind at 1.
  set (w1 := after_requests w _).
  assert (Hp1 : as_page (upcoming w1 0) = Some (map JObj tables', JNull))
    by (subst w1; rewrite upcoming_after; exact Hp').
  rewrite (find_table_by_name_run fuel (updater self) "Executive Summary Text"
             (Some (doc_id self)) (doc_id self) w1 [] (map JObj tables', JNull)
             tables' Hc (conj Hp1 I) (Forall_nil _) eq_refl Hfuel
             ltac:(unfold items_of; cbn; apply app_nil_r)).
  rewrite Hn'. io_simpl. cbn [truthy negb].
  rewrite print_eq. io_simpl. rewrite print_eq. io_simpl.
  subst w1. rewrite !after_requests_after, !after_app. reflexivity.
Qed.

Lemma summary_table_missing_witness :
  doc_id sample_dashboard <> ""%string
  /\ fst (update_executive_summary_text 3 sample_dashboard "On track" only_accounts)
     = Return false
  /\ served (snd (update_executive_summary_text 3 sample_dashboard "On track"
                    only_accounts)) = 2%nat.
Proof.
  assert (Hd : doc_id sample_dashboard <> ""%string) by discriminate.
  split; [exact Hd|].
  rewrite (summary_table_missing
             3 sample_dashboard "On track" only_accounts
             [[("id", JStr "grid-1"); ("name", JStr "Accounts")]]
             [[("id", JStr "grid-1"); ("name", JStr "Accounts")]]
             Hd ltac:(lia) eq_refl eq_refl eq_refl eq_refl).
  split; reflexivity.
Defined.

Lemma clearances_after w evs from n :
  clearances (after w evs) from n
  = clearances w (List.length (filter is_sent evs) + from) n.
Proof.
  revert from. induction n as [|n IH]; intros from; cbn [clearances];
    [reflexivity|].
  rewrite IH, upcoming_after_events. do 3 f_equal. lia.
Qed.

Lemma clear_events_after self url row_ids w evs from :
  clear_events self url row_ids (after w evs) from
  = clear_events self url row_ids w (List.length (filter is_sent evs) + from).
Proof.
  revert from. induction row_ids as [|row_id rest IH]; intros from;
    cbn [clear_events]; [reflexivity|].
  rewrite IH, upcoming_after_events. do 3 f_equal. lia.
Qed.

Lemma delete_all_run self url row_ids :
  forall deleted_count w,
    delete_all self url row_ids deleted_count w
    = (Return (deleted_count + clearances w 0 (List.length row_ids)),
       after w (clear_events self url row_ids w 0)).
Proof.
  induction row_ids as [|row_id rest IH]; intros deleted_count w.
  - cbn. rewrite Z.add_0_r, after_nil. reflexivity.
  - cbn [delete_all clear_events clearances List.length].
    unfold Http.bind at 1, try_except, Http.bind at 1.
    unfold requests_delete. rewrite send_after.
    fold (clear_request self url row_id).
    destruct (upcoming w 0) as [msg|status content]; cbn [cleared].
    + unfold Http.bind at 1. rewrite print_eq. io_simpl.
      rewrite after_app, IH, after_app, clearances_after, clear_events_after.
      cbn [app filter is_sent List.length Nat.add]. reflexivity.
    + io_simpl.
      destruct ((status =? 200) || (status =? 202) || (status =? 204)); io_simpl;
        rewrite IH, after_app, clearances_after, clear_events_after;
        cbn [app filter is_sent List.length Nat.add]; f_equal; f_equal; lia.
Qed.

Lemma sent_in_clear_events self url row_ids w from :
  List.length (filter is_sent (clear_events self url row_ids w from))
  = List.length row_ids.
Proof.
  revert from. induction row_ids as [|row_id rest IH]; intros from;
    cbn [clear_events filter is_sent List.length]; [reflexivity|].
  rewrite filter_app, length_app, IH.
  destruct (upcoming w from); reflexivity.
Qed.

Lemma clearances_bounds w from n : 0 <= clearances w from n <= Z.of_nat n.
Proof.
  revert from. induction n as [|n IH]; intros from; cbn [clearances]; [lia|].
  specialize (IH (S from)). destruct (cleared (upcoming w from)); lia.
Qed.

(** Clearing the summary table is best-effort: one DELETE is sent for
    every row id, whatever the earlier ones were answered; the count is
    the number of them answered with 200, 202 or 204; a DELETE that
    cannot be sent is reported by a printed line and nothing is raised. *)
Theorem delete_all_best_effort self url row_ids deleted_count w :
  delete_all self url row_ids deleted_count w
  = (Return (deleted_count + clearances w 0 (List.length row_ids)),
     after w (clear_events self url row_ids w 0))
  /\ List.length (filter is_sent (clear_events self url row_ids w 0))
     = List.length row_ids
  /\ 0 <= clearances w 0 (List.length row_ids) <= Z.of_nat (List.length row_ids).
Proof.
  split; [apply delete_all_run|].
  split; [apply sent_in_clear_events|apply clearances_bounds].
Qed.

End DashboardFacts.
